(** * Library catalogue exercises: the data-access layer, embedded in Rocq

    The repository holds three renderings of one author/book catalogue:
    - [Ej3a1], [Ej3a2]: raw SQL through Python's [sqlite3] module;
    - [Ej3a4]: documents through PyMongo;
    - [Ej3b2]: a Flask API over Flask-SQLAlchemy.

    Each module below transcribes the functions of the corresponding file.
    The libraries those functions call (sqlite3, PyMongo, SQLAlchemy) are
    not part of the repository; the modules [Sqlite] and [Mongo], and the
    first definitions of [Ej3b2], give the part of their behaviour that the
    functions rely on, and say so where a choice had to be made. What the
    scripts print is left out, but for the two [consultar_libros]: they
    do nothing but print, and the lines they print stand as their
    result. *)

From Stdlib Require Import ZArith NArith Ascii String.
From Stdlib Require Import DecimalString DecimalPos DecimalZ.
From Stdlib Require Import Sorted.
From stdpp Require Import gmap strings list fin_maps.

Local Open Scope string_scope.

(** ** Python values, exceptions, and a state-and-exception monad *)

Module Py.

(** The values the catalogue functions hand back to their callers. *)
#[warnings="-register-all"]
Inductive pyval : Type :=
  | PyNone
  | PyBool (b : bool)
  | PyInt (z : Z)
  | PyStr (s : string)
  | PyTuple (l : list pyval)
  | PyList (l : list pyval).

(** Python truthiness, as used by [if resultados:] and by callers that
    test a returned flag. *)
Definition truthy (v : pyval) : bool :=
  match v with
  | PyNone => false
  | PyBool b => b
  | PyInt z => negb (z =? 0)%Z
  | PyStr s => negb (String.eqb s "")
  | PyTuple l => negb (bool_decide (l = []))
  | PyList l => negb (bool_decide (l = []))
  end.

(** The exception classes that occur. [Sqlite3Error] stands for
    [sqlite3.Error] and its subclasses, [PyMongoError] for
    [pymongo.errors.PyMongoError] and its subclasses. [OverflowError] is
    Python's own: it is what [sqlite3] raises for an [int] it cannot hand
    to SQLite, and it is no [sqlite3.Error]. *)
Inductive exn : Type :=
  | Sqlite3Error
  | PyMongoError
  | InvalidId
  | TypeError
  | OverflowError.

Inductive result (A : Type) : Type :=
  | Ok (a : A)
  | Raise (e : exn).
Arguments Ok {A} a.
Arguments Raise {A} e.

(** A computation over a world [W] either returns or raises, and leaves a
    world behind in both cases. *)
Definition M (W A : Type) : Type := W → result A * W.

Definition ret {W A} (a : A) : M W A := λ w, (Ok a, w).

Definition raise {W A} (e : exn) : M W A := λ w, (Raise e, w).

Definition bind {W A B} (m : M W A) (k : A → M W B) : M W B :=
  λ w, match m w with
       | (Ok a, w') => k a w'
       | (Raise e, w') => (Raise e, w')
       end.

(** [attempt m] runs [m] and hands its outcome to the continuation: the
    body of a [try] whose handler is written as a [match]. *)
Definition attempt {W A} (m : M W A) : M W (result A) :=
  λ w, let '(r, w') := m w in (Ok r, w').

Definition get {W} : M W W := λ w, (Ok w, w).

Definition put {W} (w : W) : M W unit := λ _, (Ok tt, w).

(** The steps of a plan that fail. A plan lists, for the requests a
    connection will make in turn, whether the request fails ([true]). *)
Fixpoint faults (p : list bool) : nat :=
  match p with
  | [] => 0
  | f :: p' => (if f then 1 else 0) + faults p'
  end.

(** Whether one of the next [n] steps of a plan fails. *)
Fixpoint fault_in (n : nat) (p : list bool) : bool :=
  match n, p with
  | S n', f :: p' => f || fault_in n' p'
  | _, _ => false
  end.

(** An integer that fits in sixty-four bits, sign included: what a column
    of SQLite can hold and what the libraries agree to send. A Python
    [int] has no such bound. *)
Definition int64 (z : Z) : bool :=
  ((-9223372036854775808 <=? z) && (z <=? 9223372036854775807))%Z.

(** [f"{z}"] for an [int]: the decimal rendering. *)
Definition str_of_int (z : Z) : string := NilZero.string_of_int (Z.to_int z).

End Py.

Export Py.

(** stdpp's monad notation ([x ← m; k] and [m;; k]) is used for [M W]. *)
#[export] Instance M_ret {W} : MRet (M W) := λ A, @Py.ret W A.
#[export] Instance M_bind {W} : MBind (M W) := λ A B k m, @Py.bind W A B m k.

(** ** sqlite3, as far as [ej3a1.py] and [ej3a2.py] use it *)

Module Sqlite.

(** What a column can hold. *)
Inductive sqlval : Type :=
  | VNull
  | VInt (z : Z)
  | VText (s : string).

#[export] Instance sqlval_eq_dec : EqDecision sqlval.
Proof. solve_decision. Defined.

Definition py_of_sqlval (v : sqlval) : pyval :=
  match v with
  | VNull => PyNone
  | VInt z => PyInt z
  | VText s => PyStr s
  end.

(** Text that reads as a signed decimal integer. SQLite's own conversion
    accepts more (surrounding blanks, a leading [+], reals with an integral
    value); signed decimal text is all that formatting a Python [int]
    produces. The conversion is given for numbers within sixty-four bits:
    SQLite turns the text of a larger one into a REAL, a kind of value
    that [sqlval] does not have, and what is stated below about years
    written as text asks that they be within sixty-four bits. *)
Definition int_of_text (s : string) : option Z :=
  Z.of_int <$> NilZero.int_of_string s.

(** A value stored into a column of INTEGER affinity. *)
Definition integer_affinity (v : sqlval) : sqlval :=
  match v with
  | VText s => match int_of_text s with Some z => VInt z | None => VText s end
  | _ => v
  end.

(** Rows of [autores(id, nombre)] and [libros(id, titulo, anio, autor_id)];
    [id] is the key of the row in its table. *)
Record autor : Type := { nombre : string }.

Record libro : Type := {
  titulo : string;
  anio : sqlval;
  autor_id : sqlval;
}.

(** A table with [INTEGER PRIMARY KEY AUTOINCREMENT]: its rows by [id], and
    the largest [id] ever handed out (the table's entry in
    [sqlite_sequence]). *)
Record table (R : Type) : Type := {
  rows : gmap Z R;
  seq : Z;
}.
Arguments rows {R} t.
Arguments seq {R} t.

Definition max_rowid {R} (m : gmap Z R) : Z :=
  map_fold (λ k _ acc, Z.max k acc) 0%Z m.

(** The [id] of the next row: one more than the largest ever present. *)
Definition next_id {R} (t : table R) : Z :=
  (Z.max (seq t) (max_rowid (rows t)) + 1)%Z.

Definition table_insert {R} (r : R) (t : table R) : table R :=
  let i := next_id t in {| rows := <[i := r]> (rows t); seq := i |}.

Record database : Type := {
  autores : table autor;
  libros : table libro;
}.

(** *** The text of an [UPDATE] statement

    [actualizar_libro] hands SQLite a statement it has put together as
    text, so the text has to be read back. The reader below covers
    statements of the shape

      [UPDATE libros SET col = 'text' {, col = 'text'} [WHERE [libros.]id = 'text']]

    with SQLite's rules for blanks and for string literals (a literal ends
    at the first quote that is not doubled; a doubled quote stands for one
    quote). The reader goes no further than this shape: any other text it
    answers the way SQLite answers text it cannot compile, with
    [sqlite3.Error], which is right for the texts met in this file (a
    literal left open at the end of the text, a statement without
    assignments) and says nothing of statements SQLite would accept in a
    richer syntax. *)

Inductive token : Type :=
  | TWord (s : string)
  | TString (s : string)
  | TEq
  | TComma
  | TDot
  | TSemi.

#[export] Instance token_eq_dec : EqDecision token.
Proof. solve_decision. Defined.

Definition is_space (c : ascii) : bool :=
  let n := nat_of_ascii c in
  (n =? 32)%nat || (n =? 9)%nat || (n =? 10)%nat || (n =? 12)%nat || (n =? 13)%nat.

(** Letters, digits, [_], [$] and every byte above 127. *)
Definition is_word_char (c : ascii) : bool :=
  let n := nat_of_ascii c in
  ((48 <=? n) && (n <=? 57))%nat || ((65 <=? n) && (n <=? 90))%nat
  || ((97 <=? n) && (n <=? 122))%nat || (n =? 95)%nat || (n =? 36)%nat
  || (128 <=? n)%nat.

Definition is_quote (c : ascii) : bool := Ascii.eqb c "'".

(** The character NUL: [sqlite3] refuses the text of a statement that
    holds one ([sqlite3.ProgrammingError]). *)
Definition is_nul (c : ascii) : bool := Ascii.eqb c Ascii.zero.

Definition snoc (s : string) (c : ascii) : string := s ++ String c EmptyString.

Inductive lex_state : Type :=
  | Idle
  | InWord (w : string)
  | InString (a : string)
  | AfterQuote (a : string).

(** What one character does to the reader when no token is under way:
    the tokens it completes and the state it leaves. [None]: a character
    outside the fragment. *)
Definition from_idle (c : ascii) : option (list token * lex_state) :=
  if is_space c then Some ([], Idle)
  else if is_quote c then Some ([], InString EmptyString)
  else if is_word_char c then Some ([], InWord (String c EmptyString))
  else if Ascii.eqb c "=" then Some ([TEq], Idle)
  else if Ascii.eqb c "," then Some ([TComma], Idle)
  else if Ascii.eqb c "." then Some ([TDot], Idle)
  else if Ascii.eqb c ";" then Some ([TSemi], Idle)
  else None.

Definition lex_step (st : lex_state) (c : ascii)
  : option (list token * lex_state) :=
  match st with
  | Idle => from_idle c
  | InWord w =>
      if is_word_char c then Some ([], InWord (snoc w c))
      else '(out, st') ← from_idle c; Some (TWord w :: out, st')
  | InString a =>
      if is_quote c then Some ([], AfterQuote a)
      else if is_nul c then None
      else Some ([], InString (snoc a c))
  | AfterQuote a =>
      if is_quote c then Some ([], InString (snoc a c))
      else '(out, st') ← from_idle c; Some (TString a :: out, st')
  end.

(** The reader run over a piece of text: the tokens completed on the way
    and the state reached. *)
Fixpoint lex_run (st : lex_state) (s : string)
  : option (list token * lex_state) :=
  match s with
  | EmptyString => Some ([], st)
  | String c s' =>
      match lex_step st c with
      | None => None
      | Some (out, st') =>
          match lex_run st' s' with
          | None => None
          | Some (out', st'') => Some ((out ++ out')%list, st'')
          end
      end
  end.

(** The end of the text completes the token under way; a string literal
    still open there never ends. *)
Definition lex_end (st : lex_state) : option (list token) :=
  match st with
  | Idle => Some []
  | InWord w => Some [TWord w]
  | InString _ => None
  | AfterQuote a => Some [TString a]
  end.

(** [None]: the text cannot be cut into tokens (a character outside the
    fragment, a NUL, or a string literal that never ends). *)
Definition lex (s : string) : option (list token) :=
  match lex_run Idle s with
  | None => None
  | Some (out, st) => app out <$> lex_end st
  end.

(** Text with neither a quote nor a NUL in it: what can stand between
    the quotes of a literal and be read back as it is. *)
Fixpoint plain (s : string) : bool :=
  match s with
  | EmptyString => true
  | String c s' => negb (is_quote c) && negb (is_nul c) && plain s'
  end.

Definition upper_char (c : ascii) : ascii :=
  let n := nat_of_ascii c in
  if ((97 <=? n) && (n <=? 122))%nat then ascii_of_nat (n - 32) else c.

Fixpoint upper (s : string) : string :=
  match s with
  | EmptyString => EmptyString
  | String c s' => String (upper_char c) (upper s')
  end.

(** Keywords and the names of tables and columns are matched without
    regard to case. *)
Definition is_word (kw : string) (t : token) : bool :=
  match t with
  | TWord w => String.eqb (upper w) kw
  | _ => false
  end.

Inductive column : Type := ColTitulo | ColAnio | ColAutorId.

Definition column_of (t : token) : option column :=
  match t with
  | TWord w =>
      let u := upper w in
      if String.eqb u "TITULO" then Some ColTitulo
      else if String.eqb u "ANIO" then Some ColAnio
      else if String.eqb u "AUTOR_ID" then Some ColAutorId
      else None
  | _ => None
  end.

Record update_stmt : Type := {
  assignments : list (column * string);
  where_id : option string;
}.

(** [WHERE [libros.]id = 'text'], an optional [;], and nothing more. *)
Definition parse_where (ts : list token) : option (option string) :=
  let ts :=
    match ts with
    | t :: TDot :: rest => if is_word "LIBROS" t then rest else ts
    | _ => ts
    end in
  match ts with
  | t :: TEq :: TString v :: rest =>
      if is_word "ID" t then
        match rest with
        | [] | [TSemi] => Some (Some v)
        | _ => None
        end
      else None
  | _ => None
  end.

(** [col = 'text' {, col = 'text'}] and what follows the list. *)
Fixpoint parse_assignments (ts : list token)
  : option (list (column * string) * option string) :=
  match ts with
  | c :: TEq :: TString v :: rest =>
      match column_of c with
      | None => None
      | Some col =>
          match rest with
          | [] | [TSemi] => Some ([(col, v)], None)
          | TComma :: rest' =>
              '(l, w) ← parse_assignments rest';
              Some ((col, v) :: l, w)
          | t :: rest' =>
              if is_word "WHERE" t then
                w ← parse_where rest'; Some ([(col, v)], w)
              else None
          end
      end
  | _ => None
  end.

Definition parse_update (sql : string) : option update_stmt :=
  ts ← lex sql;
  match ts with
  | u :: t :: s :: rest =>
      if is_word "UPDATE" u && is_word "LIBROS" t && is_word "SET" s then
        '(l, w) ← parse_assignments rest;
        Some {| assignments := l; where_id := w |}
      else None
  | _ => None
  end.

(** One assignment applied to a row: [titulo] is a TEXT column, the other
    two have INTEGER affinity. *)
Definition assign (b : libro) (a : column * string) : libro :=
  match a.1 with
  | ColTitulo => {| titulo := a.2; anio := anio b; autor_id := autor_id b |}
  | ColAnio =>
      {| titulo := titulo b; anio := integer_affinity (VText a.2);
         autor_id := autor_id b |}
  | ColAutorId =>
      {| titulo := titulo b; anio := anio b;
         autor_id := integer_affinity (VText a.2) |}
  end.

(** [id = 'text'] for the INTEGER PRIMARY KEY: the text is read as a
    number; text that is no number equals no [id]. *)
Definition id_matches (w : option string) (i : Z) : bool :=
  match w with
  | None => true
  | Some v => bool_decide (int_of_text v = Some i)
  end.

(** The rows after the update, and how many it touched ([rowcount]). *)
Definition run_update (u : update_stmt) (t : table libro) : table libro * nat :=
  let hit := λ i, id_matches (where_id u) i in
  ({| rows := map_imap (λ i b, Some (if hit i then foldl assign b (assignments u)
                                     else b)) (rows t);
      seq := seq t |},
   size (filter (λ ib, hit ib.1 = true) (rows t))).

(** *** Connections

    A connection sees [current]; [committed] is what a rollback returns
    to. As with [Mongo.world], each statement handed to the database and
    each commit takes the head of [plan], and [true] there makes it fail
    with [sqlite3.Error] and without effect. *)
Record world : Type := {
  committed : database;
  current : database;
  in_txn : bool;
  plan : list bool;
}.

Definition clean (d : database) : world :=
  {| committed := d; current := d; in_txn := false; plan := [] |}.

Definition step : M world unit :=
  λ w, match plan w with
       | [] => (Ok tt, w)
       | f :: p =>
           (if f then Raise Sqlite3Error else Ok tt,
            {| committed := committed w; current := current w;
               in_txn := in_txn w; plan := p |})
       end.

Definition read_db : M world database := λ w, (Ok (current w), w).

Definition write_db (d : database) : M world unit :=
  λ w, (Ok tt, {| committed := committed w; current := d;
                  in_txn := in_txn w; plan := plan w |}).

Definition set_in_txn (b : bool) : M world unit :=
  λ w, (Ok tt, {| committed := committed w; current := current w;
                  in_txn := b; plan := plan w |}).

(** [conexion.execute('BEGIN TRANSACTION')] *)
Definition begin_transaction : M world unit :=
  step;;
  w ← Py.get;
  if in_txn w then raise Sqlite3Error else set_in_txn true.

(** [conexion.commit()] *)
Definition commit : M world unit :=
  step;;
  w ← Py.get;
  Py.put {| committed := current w; current := current w;
            in_txn := false; plan := plan w |}.

(** [conexion.rollback()] *)
Definition rollback : M world unit :=
  w ← Py.get;
  Py.put {| committed := committed w; current := committed w;
            in_txn := false; plan := plan w |}.

(** An INSERT, UPDATE or DELETE handed to a cursor: the module opens a
    transaction first when none is open, then the statement runs. *)
Definition dml {A} (f : database → database * A) : M world A :=
  set_in_txn true;;
  step;;
  d ← read_db;
  write_db (f d).1;;
  ret (f d).2.

(** The same for a statement with integers among its parameters. The
    module opens the transaction, then binds the parameters, and an [int]
    outside sixty-four bits stops it there with [OverflowError]: the
    statement does not run, and the transaction stays open. *)
Definition dml_bound {A} (bindable : bool) (f : database → database * A)
  : M world A :=
  set_in_txn true;;
  if bindable then
    step;;
    d ← read_db;
    write_db (f d).1;;
    ret (f d).2
  else raise OverflowError.

(** [INSERT INTO autores (nombre) VALUES (?)] *)
Definition insert_autor (n : string) : M world unit :=
  dml (λ d, ({| autores := table_insert {| nombre := n |} (autores d);
                libros := libros d |}, tt)).

(** The row made of the parameters [(titulo, anio, autor_id)]. *)
Definition libro_of_params (r : string * option Z * Z) : libro :=
  {| titulo := r.1.1;
     anio := match r.1.2 with Some z => VInt z | None => VNull end;
     autor_id := VInt r.2 |}.

(** Whether the parameters [(titulo, anio, autor_id)] can be bound: the
    year, unless it is [None], and the author reference are within
    sixty-four bits. *)
Definition params_bindable (r : string * option Z * Z) : bool :=
  from_option int64 true r.1.2 && int64 r.2.

(** [INSERT INTO libros (titulo, anio, autor_id) VALUES (?, ?, ?)]; the
    declared foreign key is not enforced (SQLite leaves foreign keys off
    unless the connection turns them on, which no file here does). *)
Definition insert_libro (r : string * option Z * Z) : M world unit :=
  dml_bound (params_bindable r)
    (λ d, ({| autores := autores d;
              libros := table_insert (libro_of_params r) (libros d) |}, tt)).

(** [cursor.executemany(sql, rows)]: one execution per row, in order. *)
Fixpoint executemany {A} (exec : A → M world unit) (l : list A) : M world unit :=
  match l with
  | [] => ret tt
  | x :: rest => exec x;; executemany exec rest
  end.

(** [cursor.execute(sql)] for the text of an [UPDATE]; the result is
    [cursor.rowcount]. The statement is compiled before anything else
    happens, so text that cannot be read changes nothing. *)
Definition execute_update (sql : string) : M world nat :=
  match parse_update sql with
  | None => raise Sqlite3Error
  | Some u =>
      dml (λ d, let r := run_update u (libros d) in
                ({| autores := autores d; libros := r.1 |}, r.2))
  end.

(** [DELETE FROM libros WHERE libros.id = ?] *)
Definition delete_libro (i : Z) : M world unit :=
  dml_bound (int64 i)
    (λ d, ({| autores := autores d;
              libros := {| rows := delete i (rows (libros d));
                           seq := seq (libros d) |} |}, tt)).

(** [SELECT 1 FROM libros WHERE id = ? LIMIT 1] *)
Definition select_libro_exists (i : Z) : M world bool :=
  if int64 i then
    step;;
    d ← read_db;
    ret (bool_decide (is_Some (rows (libros d) !! i)))
  else raise OverflowError.

(** The join of [buscar_libros_por_autor]:
    [SELECT libros.titulo, libros.anio FROM autores INNER JOIN libros
     ON autores.id = libros.autor_id WHERE autores.nombre = ?] *)
Definition select_libros_de (n : string) : M world (list (string * sqlval)) :=
  step;;
  d ← read_db;
  ret ('(i, a) ← map_to_list (rows (autores d));
       if decide (nombre a = n) then
         '(_, b) ← map_to_list (rows (libros d));
         if decide (autor_id b = VInt i) then [(titulo b, anio b)] else []
       else []).

(** [SELECT autores.nombre FROM autores] *)
Definition select_nombres : M world (list string) :=
  step;;
  d ← read_db;
  ret ((λ ia, nombre ia.2) <$> map_to_list (rows (autores d))).

(** [INSERT INTO libros ...] followed by [cursor.lastrowid]: the [id] the
    new row was given. *)
Definition insert_libro_lastrowid (r : string * option Z * Z) : M world Z :=
  dml_bound (params_bindable r)
    (λ d, ({| autores := autores d;
              libros := table_insert (libro_of_params r) (libros d) |},
           next_id (libros d))).

(** The join of [obtener_libros]:
    [SELECT libros.autor_id, libros.titulo, libros.anio, autores.nombre
     FROM autores JOIN libros ON autores.id = libros.autor_id] *)
Definition select_autor_id_titulo_anio_nombre
  : M world (list (sqlval * string * sqlval * string)) :=
  step;;
  d ← read_db;
  ret ('(i, a) ← map_to_list (rows (autores d));
       '(_, b) ← map_to_list (rows (libros d));
       if decide (autor_id b = VInt i)
       then [(autor_id b, titulo b, anio b, nombre a)] else []).

(** The join of [consultar_libros]:
    [SELECT libros.titulo, libros.anio, autores.nombre
     FROM autores JOIN libros ON autores.id = libros.autor_id] *)
Definition select_titulo_anio_nombre : M world (list (string * sqlval * string)) :=
  step;;
  d ← read_db;
  ret ('(i, a) ← map_to_list (rows (autores d));
       '(_, b) ← map_to_list (rows (libros d));
       if decide (autor_id b = VInt i) then [(titulo b, anio b, nombre a)] else []).

(** [SELECT * FROM autores] *)
Definition select_autores : M world (list (Z * string)) :=
  step;;
  d ← read_db;
  ret ((λ ia, (ia.1, nombre ia.2)) <$> map_to_list (rows (autores d))).

End Sqlite.

(** ** [ej3a1.py]: the catalogue over sqlite3 *)

Module Ej3a1.
Import Sqlite.

(** [insertar_autores(conexion, autores)]; each author is the 1-tuple of
    its name. *)
Definition insertar_autores (autores : list string) : M world pyval :=
  executemany insert_autor autores;;
  commit;;
  ret PyNone.

(** [insertar_libros(conexion, libros)] *)
Definition insertar_libros (libros : list (string * option Z * Z)) : M world pyval :=
  executemany insert_libro libros;;
  commit;;
  ret PyNone.

Definition py_fila (r : string * sqlval) : pyval :=
  PyTuple [PyStr r.1; py_of_sqlval r.2].

(** [buscar_libros_por_autor(conexion, nombre_autor)]: the function ends
    without a [return] when [resultados] is empty. *)
Definition buscar_libros_por_autor (nombre_autor : string) : M world pyval :=
  filas ← select_libros_de nombre_autor;
  let resultados := PyList (py_fila <$> filas) in
  if truthy resultados then ret resultados else ret PyNone.

(** The text [actualizar_libro] puts together. *)
Definition consulta_actualizar (id_libro : Z)
    (nuevo_titulo : option string) (nuevo_anio : option Z) : string :=
  let consulta := "UPDATE libros SET " in
  let var_updates :=
    app match nuevo_titulo with
        | Some t => ["titulo = '" ++ t ++ "'"]
        | None => []
        end
        match nuevo_anio with
        | Some y => ["anio = '" ++ str_of_int y ++ "'"]
        | None => []
        end in
  match var_updates with
  | [] => consulta
  | _ => consulta ++ String.concat ", " var_updates
         ++ "WHERE libros.id = '" ++ str_of_int id_libro ++ "'"
  end.

(** The assignments [actualizar_libro] means to make: the counterpart,
    column by column, of the text above. *)
Definition asignaciones (nuevo_titulo : option string) (nuevo_anio : option Z)
  : list (column * string) :=
  app match nuevo_titulo with
      | Some t => [(ColTitulo, t)]
      | None => []
      end
      match nuevo_anio with
      | Some y => [(ColAnio, str_of_int y)]
      | None => []
      end.

(** [actualizar_libro(conexion, id_libro, nuevo_titulo=None, nuevo_anio=None)] *)
Definition actualizar_libro (id_libro : Z)
    (nuevo_titulo : option string) (nuevo_anio : option Z) : M world pyval :=
  execute_update (consulta_actualizar id_libro nuevo_titulo nuevo_anio);;
  commit;;
  ret PyNone.

(** [eliminar_libro(conexion, id_libro)] *)
Definition eliminar_libro (id_libro : Z) : M world pyval :=
  delete_libro id_libro;;
  commit;;
  ret PyNone.

Definition is_sqlite3_error (e : exn) : bool :=
  match e with
  | Sqlite3Error => true
  | _ => false
  end.

(** The database once the two INSERT statements of [ejemplo_transaccion]
    have run on [d]. *)
Definition con_tolkien (d : database) : database :=
  {| autores := table_insert {| nombre := "J.R.R. Tolkien" |} (autores d);
     libros := table_insert (libro_of_params ("El hobbit", Some 1937%Z, 4%Z))
                 (libros d) |}.

(** [ejemplo_transaccion(conexion)]; the two INSERT statements are
    constants of the file, the lines printed are left out. *)
Definition ejemplo_transaccion : M world pyval :=
  r ← attempt (begin_transaction;;
               insert_autor "J.R.R. Tolkien";;
               insert_libro ("El hobbit", Some 1937%Z, 4%Z);;
               commit);
  match r with
  | Ok _ => ret tt
  | Raise e => if is_sqlite3_error e then rollback else raise e
  end;;
  select_nombres;;
  ret PyNone.

(** [f"{v}"] for a value read from a column. *)
Definition str_of_sqlval (v : sqlval) : string :=
  match v with
  | VNull => "None"
  | VInt z => str_of_int z
  | VText s => s
  end.

(** [consultar_libros(conexion)]: the function returns nothing; what is
    given here is the list of the lines it prints, one per row of the
    join. *)
Definition consultar_libros : M world (list string) :=
  resultados ← select_titulo_anio_nombre;
  ret ((λ fila, " Titulo: " ++ fila.1.1 ++ " | Año: " ++ str_of_sqlval fila.1.2
                ++ " | Autor: " ++ fila.2) <$> resultados).

End Ej3a1.

(** ** [ej3a2.py]: the catalogue read from a script

    The tables are those of the script [test.sql], taken here to be the
    two tables of [ej3a1.py]. Whether the script has the references of
    the books to the authors checked is not settled by the sources; what
    is stated below of a book written with an author reference asks that
    the author be there. *)

Module Ej3a2.
Import Sqlite.

Definition consulta_actualizar (libro_id : Z) (nuevo_titulo : option string)
    (nuevo_anio nuevo_autor_id : option Z) : string :=
  let consulta := "UPDATE libros SET " in
  let var_updates :=
    concat
      [ match nuevo_titulo with
        | Some t => ["titulo = '" ++ t ++ "'"]
        | None => []
        end;
        match nuevo_anio with
        | Some y => ["anio = '" ++ str_of_int y ++ "'"]
        | None => []
        end;
        match nuevo_autor_id with
        | Some a => ["autor_id = '" ++ str_of_int a ++ "'"]
        | None => []
        end ] in
  match var_updates with
  | [] => consulta
  | _ => consulta ++ String.concat ", " var_updates
         ++ "WHERE libros.id = '" ++ str_of_int libro_id ++ "'"
  end.

(** [actualizar_libro(conexion, libro_id, nuevo_titulo, nuevo_anio,
    nuevo_autor_id)]. The test [if cursor.fetchone:] looks at the method,
    not at what it returns, so it always holds, whatever the SELECT
    found. *)
Definition actualizar_libro (libro_id : Z) (nuevo_titulo : option string)
    (nuevo_anio nuevo_autor_id : option Z) : M world pyval :=
  select_libro_exists libro_id;;
  rowcount ← execute_update
               (consulta_actualizar libro_id nuevo_titulo nuevo_anio nuevo_autor_id);
  commit;;
  ret (PyBool (0 <? rowcount)%nat).

(** [obtener_libros(conexion)]: the first column selected is
    [libros.autor_id]. *)
Definition obtener_libros : M world pyval :=
  resultados ← select_autor_id_titulo_anio_nombre;
  ret (PyList ((λ f, PyTuple [py_of_sqlval f.1.1.1; PyStr f.1.1.2;
                              py_of_sqlval f.1.2; PyStr f.2]) <$> resultados)).

(** [agregar_libro(conexion, titulo, anio, autor_id)] *)
Definition agregar_libro (titulo : string) (anio : option Z) (autor_id : Z)
  : M world pyval :=
  lastrowid ← insert_libro_lastrowid (titulo, anio, autor_id);
  commit;;
  ret (PyInt lastrowid).

(** [obtener_autores(conexion)] *)
Definition obtener_autores : M world pyval :=
  resultados ← select_autores;
  ret (PyList ((λ f, PyTuple [PyInt f.1; PyStr f.2]) <$> resultados)).

End Ej3a2.

(** ** PyMongo, as far as [ej3a4.py] uses it *)

Module Mongo.

(** An [ObjectId] is twelve bytes; we keep their value as a number. *)
Definition oid : Type := N.

(** The character of a hexadecimal digit ([0-9], [a-f]) and back; the
    reader also takes [A-F]. *)
Definition hex_digit (n : N) : ascii :=
  ascii_of_N (if n <? 10 then 48 + n else 87 + n)%N.

Definition hex_val (c : ascii) : option N :=
  let n := N_of_ascii c in
  if ((48 <=? n) && (n <=? 57))%N then Some (n - 48)%N
  else if ((97 <=? n) && (n <=? 102))%N then Some (n - 87)%N
  else if ((65 <=? n) && (n <=? 70))%N then Some (n - 55)%N
  else None.

(** [k] hexadecimal digits of [n], most significant first. *)
Fixpoint hex_of (k : nat) (n : N) : string :=
  match k with
  | O => EmptyString
  | S k' => String (hex_digit ((n / 16 ^ N.of_nat k') mod 16)%N) (hex_of k' n)
  end.

Fixpoint hex_parse (s : string) (acc : N) : option N :=
  match s with
  | EmptyString => Some acc
  | String c s' =>
      match hex_val c with
      | Some v => hex_parse s' (16 * acc + v)%N
      | None => None
      end
  end.

(** [str(oid)]: twenty-four lowercase hexadecimal digits. *)
Definition str_of_oid (o : oid) : string := hex_of 24 o.

(** [ObjectId(s)] for a string: twenty-four hexadecimal digits, or
    [bson.errors.InvalidId]. The driver reads the digits with
    [bytes.fromhex], which passes over blanks between two bytes, so a
    string of twenty-four characters with blanks among its digits gives
    it an identifier of fewer than twelve bytes; such strings are outside
    what [oid] holds, and here they are refused. *)
Definition ObjectId (s : string) : result oid :=
  if (String.length s =? 24)%nat then
    match hex_parse s 0 with
    | Some o => Ok o
    | None => Raise InvalidId
    end
  else Raise InvalidId.

(** The documents of the two collections, [_id] apart (it is the key). A
    year is a BSON integer, of eight bytes at most: for a larger Python
    [int] the driver raises [OverflowError] while it encodes the document,
    before anything is sent. The operations below are those of the server
    on documents already encoded; what is stated of a year passed in asks
    that it be within sixty-four bits. *)
Record autor : Type := { nombre : string }.

Record libro : Type := {
  titulo : string;
  anio : option Z;
  autor_id : oid;
}.

#[export] Instance autor_eq_dec : EqDecision autor.
Proof. solve_decision. Defined.

#[export] Instance libro_eq_dec : EqDecision libro.
Proof. solve_decision. Defined.

Record database : Type := {
  autores : gmap N autor;
  libros : gmap N libro;
}.

(** The world of a PyMongo client: the database behind the connection and
    what the connection will do next. Every round trip to the server takes
    the head of [plan]; [true] there means that this round trip fails
    (server unreachable, write refused) with a [PyMongoError] and without
    effect. An empty plan is a server that answers every request. *)
Record world : Type := {
  db : database;
  plan : list bool;
}.

Definition healthy (d : database) : world := {| db := d; plan := [] |}.

Definition roundtrip : M world unit :=
  λ w, match plan w with
       | [] => (Ok tt, w)
       | false :: p => (Ok tt, {| db := db w; plan := p |})
       | true :: p => (Raise PyMongoError, {| db := db w; plan := p |})
       end.

Definition read_db : M world database := λ w, (Ok (db w), w).

Definition write_db (d : database) : M world unit :=
  λ w, (Ok tt, {| db := d; plan := plan w |}).

(** A new [ObjectId] occurs nowhere in the database: it is larger than
    every [_id] of both collections and every [autor_id] stored in a
    book. *)
Definition max_key {V} (m : gmap N V) : N :=
  map_fold (λ k _ acc, N.max k acc) 0%N m.

Definition max_ref (m : gmap N libro) : N :=
  map_fold (λ _ b acc, N.max (autor_id b) acc) 0%N m.

Definition new_oid (d : database) : oid :=
  N.succ (N.max (max_key (autores d))
                (N.max (max_key (libros d)) (max_ref (libros d)))).

(** [db.autores.insert_one(doc)], returning [inserted_id]. *)
Definition insert_one_autor (a : autor) : M world oid :=
  roundtrip;;
  d ← read_db;
  let o := new_oid d in
  write_db {| autores := <[o := a]> (autores d); libros := libros d |};;
  ret o.

Definition insert_one_libro (b : libro) : M world oid :=
  roundtrip;;
  d ← read_db;
  let o := new_oid d in
  write_db {| autores := autores d; libros := <[o := b]> (libros d) |};;
  ret o.

(** [insert_many] refuses an empty list before it contacts the server
    ([TypeError]: documents must be a non-empty list); otherwise the
    documents are written in order, and the first write that fails ends
    the batch, leaving the earlier ones in place. *)
Fixpoint insert_each {A} (ins : A → M world oid) (docs : list A)
  : M world (list oid) :=
  match docs with
  | [] => ret []
  | x :: rest =>
      o ← ins x;
      os ← insert_each ins rest;
      ret (o :: os)
  end.

Definition insert_many {A} (ins : A → M world oid) (docs : list A)
  : M world (list oid) :=
  match docs with
  | [] => raise TypeError
  | _ => insert_each ins docs
  end.

(** The update document of [$set]: the fields it names. *)
Record set_doc : Type := {
  set_titulo : option string;
  set_anio : option Z;
}.

(** [not u] for the update document as a Python dict. *)
Definition set_doc_empty (u : set_doc) : bool :=
  match set_titulo u, set_anio u with
  | None, None => true
  | _, _ => false
  end.

Definition apply_set (u : set_doc) (b : libro) : libro :=
  {| titulo := default (titulo b) (set_titulo u);
     anio := match set_anio u with Some z => Some z | None => anio b end;
     autor_id := autor_id b |}.

(** [db.libros.update_one({'_id': o}, {'$set': u})], returning
    [modified_count]: the server counts a document as modified only when
    the update changed it. *)
Definition update_one_libro (o : oid) (u : set_doc) : M world nat :=
  roundtrip;;
  d ← read_db;
  match libros d !! o with
  | None => ret 0%nat
  | Some b =>
      let b' := apply_set u b in
      if decide (b' = b) then ret 0%nat
      else
        write_db {| autores := autores d; libros := <[o := b']> (libros d) |};;
        ret 1%nat
  end.

(** [db.libros.delete_one({'_id': o})], returning [deleted_count]. *)
Definition delete_one_libro (o : oid) : M world nat :=
  roundtrip;;
  d ← read_db;
  match libros d !! o with
  | None => ret 0%nat
  | Some _ =>
      write_db {| autores := autores d; libros := delete o (libros d) |};;
      ret 1%nat
  end.

Definition delete_one_autor (o : oid) : M world nat :=
  roundtrip;;
  d ← read_db;
  match autores d !! o with
  | None => ret 0%nat
  | Some _ =>
      write_db {| autores := delete o (autores d); libros := libros d |};;
      ret 1%nat
  end.

(** [db.libros.delete_many({'autor_id': a})]. *)
Definition delete_many_libros (a : oid) : M world nat :=
  roundtrip;;
  d ← read_db;
  let gone := filter (λ kb, autor_id kb.2 = a) (libros d) in
  write_db {| autores := autores d;
              libros := filter (λ kb, autor_id kb.2 ≠ a) (libros d) |};;
  ret (size gone).

(** [db.autores.find_one({'nombre': n})]: the [_id] of a matching
    document, the first one the collection scan meets, or [None]. *)
Definition find_one_autor (n : string) : M world (option oid) :=
  roundtrip;;
  d ← read_db;
  ret (fst <$> head (filter (λ ka, nombre ka.2 = n) (map_to_list (autores d)))).

(** [$sort: {'anio': 1}]: ascending, a missing year before every number,
    ties in the order met. *)
Definition anio_le (x y : option Z) : bool :=
  match x, y with
  | None, _ => true
  | Some _, None => false
  | Some a, Some b => (a <=? b)%Z
  end.

Fixpoint insert_by_anio (b : libro) (l : list libro) : list libro :=
  match l with
  | [] => [b]
  | c :: rest =>
      if anio_le (anio c) (anio b) then c :: insert_by_anio b rest
      else b :: c :: rest
  end.

Definition sort_by_anio (l : list libro) : list libro :=
  foldl (λ acc b, insert_by_anio b acc) [] l.

(** The pipeline [$match autor_id], [$sort anio], [$project titulo, anio]
    run on [libros]. *)
Definition aggregate_libros_de (a : oid) : M world (list (string * option Z)) :=
  roundtrip;;
  d ← read_db;
  let hits := filter (λ kb, autor_id kb.2 = a) (map_to_list (libros d)) in
  ret ((λ b, (titulo b, anio b)) <$> sort_by_anio (snd <$> hits)).

(** [$sort: {'autor_nombre': 1, 'titulo': 1}] on rows (title, year, name
    of the author): strings in the order of their bytes, the author's
    name first, the title among equal names. *)
Definition nombre_titulo_le (x y : string * option Z * string) : bool :=
  match String.compare x.2 y.2 with
  | Lt => true
  | Gt => false
  | Eq => match String.compare x.1.1 y.1.1 with
          | Gt => false
          | _ => true
          end
  end.

Fixpoint insert_by_nombre_titulo (r : string * option Z * string)
    (l : list (string * option Z * string)) : list (string * option Z * string) :=
  match l with
  | [] => [r]
  | c :: rest =>
      if nombre_titulo_le c r then c :: insert_by_nombre_titulo r rest
      else r :: c :: rest
  end.

Definition sort_by_nombre_titulo (l : list (string * option Z * string))
  : list (string * option Z * string) :=
  foldl (λ acc r, insert_by_nombre_titulo r acc) [] l.

(** The pipeline of [consultar_libros] run on [libros]: [$lookup] of the
    author whose [_id] is the book's [autor_id], [$unwind] (a book whose
    author is not there is dropped), [$project] and [$sort]. *)
Definition aggregate_libros_autores : M world (list (string * option Z * string)) :=
  roundtrip;;
  d ← read_db;
  let joined :=
    '(_, b) ← map_to_list (libros d);
    match autores d !! autor_id b with
    | Some a => [(titulo b, anio b, nombre a)]
    | None => []
    end in
  ret (sort_by_nombre_titulo joined).

End Mongo.

(** ** [ej3a4.py]: the catalogue over PyMongo *)

Module Ej3a4.
Import Mongo.

(** A value handed over as an author reference: a string (which the code
    turns into an [ObjectId]) or something else (stored as it is; we take
    it to be an [ObjectId] already). *)
Inductive id_arg : Type :=
  | IdStr (s : string)
  | IdOid (o : oid).

Definition py_anio (y : option Z) : pyval :=
  match y with
  | Some z => PyInt z
  | None => PyNone
  end.

Definition py_ids (os : list oid) : pyval :=
  PyList ((λ o, PyStr (str_of_oid o)) <$> os).

(** [insertar_autores(db, autores)]; each author is the 1-tuple of its
    name. *)
Definition insertar_autores (autores : list string) : M world pyval :=
  let dict_autores := (λ n, {| nombre := n |}) <$> autores in
  ids ← insert_many insert_one_autor dict_autores;
  ret (py_ids ids).

(** [ObjectId(x) if isinstance(x, str) else x] *)
Definition oid_of_arg (r : id_arg) : result oid :=
  match r with
  | IdStr s => ObjectId s
  | IdOid o => Ok o
  end.

(** The list comprehension of [insertar_libros]: the documents, or the
    first [InvalidId] met. *)
Fixpoint dict_libros (ls : list (string * option Z * id_arg))
  : result (list libro) :=
  match ls with
  | [] => Ok []
  | (t, y, r) :: rest =>
      match oid_of_arg r with
      | Raise e => Raise e
      | Ok a =>
          match dict_libros rest with
          | Raise e => Raise e
          | Ok ds => Ok ({| titulo := t; anio := y; autor_id := a |} :: ds)
          end
      end
  end.

(** [insertar_libros(db, libros)] *)
Definition insertar_libros (ls : list (string * option Z * id_arg))
  : M world pyval :=
  match dict_libros ls with
  | Raise e => raise e
  | Ok ds =>
      ids ← insert_many insert_one_libro ds;
      ret (py_ids ids)
  end.

(** [buscar_libros_por_autor(db, nombre_autor)] *)
Definition buscar_libros_por_autor (nombre_autor : string) : M world pyval :=
  autor ← find_one_autor nombre_autor;
  match autor with
  | None => ret (PyList [])
  | Some a =>
      resultados ← aggregate_libros_de a;
      ret (PyList ((λ r, PyTuple [PyStr r.1; py_anio r.2]) <$> resultados))
  end.

(** [actualizar_libro(db, id_libro, nuevo_titulo=None, nuevo_anio=None)] *)
Definition actualizar_libro (id_libro : string)
    (nuevo_titulo : option string) (nuevo_anio : option Z) : M world pyval :=
  let actualizacion :=
    {| set_titulo := nuevo_titulo; set_anio := nuevo_anio |} in
  if set_doc_empty actualizacion then ret (PyBool true)
  else
    match ObjectId id_libro with
    | Raise e => raise e
    | Ok o =>
        modified_count ← update_one_libro o actualizacion;
        ret (PyBool (0 <? modified_count)%nat)
    end.

(** [eliminar_libro(db, id_libro)]; the line it prints is left out. *)
Definition eliminar_libro (id_libro : string) : M world pyval :=
  match ObjectId id_libro with
  | Raise e => raise e
  | Ok o =>
      deleted_count ← delete_one_libro o;
      ret (PyBool (0 <? deleted_count)%nat)
  end.

(** The handler of [ejemplo_transaccion]: the clean-up is attempted only
    when [autor_id] was bound, and whatever it raises is dropped. *)
Definition limpiar (autor_id : option oid) : M world unit :=
  _ ← attempt (match autor_id with
               | Some a => delete_one_autor a;; delete_many_libros a;; ret tt
               | None => ret tt
               end);
  ret tt.

(** [ejemplo_transaccion(db)] *)
Definition ejemplo_transaccion : M world pyval :=
  r1 ← attempt (insert_one_autor {| nombre := "J.R.R. Tolkien" |});
  match r1 with
  | Raise _ => limpiar None;; ret (PyBool false)
  | Ok autor_id =>
      let libros :=
        [ {| titulo := "El hobbit"; anio := Some 1937%Z; autor_id := autor_id |};
          {| titulo := "El Señor de los Anillos"; anio := Some 1954%Z;
             autor_id := autor_id |} ] in
      r2 ← attempt (insert_many insert_one_libro libros);
      match r2 with
      | Raise _ => limpiar (Some autor_id);; ret (PyBool false)
      | Ok _ => ret (PyBool true)
      end
  end.

(** [f"{anio}"] for the year of a document. *)
Definition str_of_anio (y : option Z) : string :=
  match y with
  | Some z => str_of_int z
  | None => "None"
  end.

(** [consultar_libros(db)]: the function returns nothing; what is given
    here is the list of the lines it prints, one per document the
    pipeline yields. *)
Definition consultar_libros : M world (list string) :=
  resultados ← aggregate_libros_autores;
  ret ((λ r, "Título: " ++ r.1.1 ++ " - Año: " ++ str_of_anio r.1.2
             ++ " - Autor: " ++ r.2) <$> resultados).

End Ej3a4.

(** ** [ej3b2.py]: the Flask API over Flask-SQLAlchemy *)

Module Ej3b2.

(** Rows of [authors(id, name)] and [books(id, title, year, author_id)];
    [id] is the key of the row. *)
Record Author : Type := { name : string }.

Record Book : Type := {
  title : string;
  year : option Z;
  author_id : Z;
}.

Record store : Type := {
  authors : gmap Z Author;
  books : gmap Z Book;
}.

(** JSON, for the bodies of the answers. An object is written as the list
    of its members; their order carries no meaning. *)
#[warnings="-register-all"]
Inductive json : Type :=
  | JNull
  | JInt (z : Z)
  | JStr (s : string)
  | JArr (l : list json)
  | JObj (l : list (string * json)).

(** A member of the JSON object a request carries: not there, there with
    [null], or there with a value. *)
Inductive field (A : Type) : Type :=
  | Absent
  | Null
  | Val (a : A).
Arguments Absent {A}.
Arguments Null {A}.
Arguments Val {A} a.

(** ['k' in data] *)
Definition present {A} (f : field A) : bool :=
  match f with
  | Absent => false
  | _ => true
  end.

(** The body of a request, read by [request.get_json()]: the members the
    handlers look at. Members that are there hold a value of the column's
    type or [null]; ["author_id"], when there, holds an integer. *)
Record body : Type := {
  j_name : field string;
  j_title : field string;
  j_year : field Z;
  j_author_id : option Z;
}.

(** What the client gets: the status and the body, which is JSON, empty,
    or the page Flask writes for an error. *)
Inductive payload : Type :=
  | Json (j : json)
  | Empty
  | ErrorPage.

Record response : Type := {
  status : Z;
  content : payload;
}.

(** [abort(404)], raised by [get_or_404]. *)
Definition not_found : response := {| status := 404; content := ErrorPage |}.

(** An exception no handler catches ([KeyError] for a missing member,
    [IntegrityError] for [NULL] in a column declared [nullable=False]):
    Flask answers 500 and the session's changes are dropped. *)
Definition server_error : response := {| status := 500; content := ErrorPage |}.

(** The integers a request carries are Python's, without bound, while the
    [id] of a row and the year of a book are kept in sixty-four bits. An
    integer beyond cannot be bound to a statement: [sqlite3] raises
    [OverflowError], no handler catches it, and Flask answers 500. So an
    [id] that no row has is answered 404 when it can be bound and 500
    when it cannot. *)
Definition no_row (bindable : bool) : response :=
  if bindable then not_found else server_error.

(** An [id] taken from the path: the [int] converter of the route admits
    no sign, which leaves the upper bound. *)
Definition path_bindable (i : Z) : bool := (i <=? 9223372036854775807)%Z.

(** A year taken from the body, when the body has one. *)
Definition year_bindable (y : field Z) : bool :=
  match y with
  | Val z => int64 z
  | _ => true
  end.

(** [Author.to_dict] and [Book.to_dict] *)
Definition author_to_dict (i : Z) (a : Author) : list (string * json) :=
  [("id", JInt i); ("name", JStr (name a))].

Definition json_year (y : option Z) : json :=
  match y with
  | Some z => JInt z
  | None => JNull
  end.

Definition book_to_dict (i : Z) (b : Book) : list (string * json) :=
  [("id", JInt i); ("title", JStr (title b)); ("year", json_year (year b));
   ("author_id", JInt (author_id b))].

(** The [id] of a new row of a table with an [INTEGER PRIMARY KEY]: 1 in
    an empty table, otherwise one more than the largest [id] present. *)
Definition max_id {V} (m : gmap Z V) : option Z :=
  map_fold (λ k _ acc, Some match acc with
                            | Some a => Z.max k a
                            | None => k
                            end) None m.

Definition new_id {V} (m : gmap Z V) : Z :=
  match max_id m with
  | Some k => (k + 1)%Z
  | None => 1%Z
  end.

(** [GET /authors] *)
Definition get_authors (st : store) : response * store :=
  ({| status := 200;
      content := Json (JArr ((λ ia, JObj (author_to_dict ia.1 ia.2))
                             <$> map_to_list (authors st))) |}, st).

(** [POST /authors] *)
Definition add_author (data : body) (st : store) : response * store :=
  match j_name data with
  | Absent => (server_error, st)
  | Null => (server_error, st)
  | Val n =>
      let author := {| name := n |} in
      let i := new_id (authors st) in
      ({| status := 201; content := Json (JObj (author_to_dict i author)) |},
       {| authors := <[i := author]> (authors st); books := books st |})
  end.

(** [GET /authors/<int:author_id>] *)
Definition get_author (author_id : Z) (st : store) : response * store :=
  match authors st !! author_id with
  | None => (no_row (path_bindable author_id), st)
  | Some author =>
      let author_books :=
        filter (λ ib, Ej3b2.author_id ib.2 = author_id) (map_to_list (books st)) in
      let author_data :=
        (author_to_dict author_id author
         ++ [("books", JArr ((λ ib, JObj (book_to_dict ib.1 ib.2)) <$> author_books))])%list in
      ({| status := 200; content := Json (JObj author_data) |}, st)
  end.

(** [GET /books] *)
Definition get_books (st : store) : response * store :=
  ({| status := 200;
      content := Json (JArr ((λ ib, JObj (book_to_dict ib.1 ib.2))
                             <$> map_to_list (books st))) |}, st).

(** [POST /books] *)
Definition add_book (data : body) (st : store) : response * store :=
  match j_author_id data with
  | None => (server_error, st)
  | Some a =>
      match authors st !! a with
      | None => (no_row (int64 a), st)
      | Some _ =>
          match j_title data with
          | Absent => (server_error, st)
          | Null => (server_error, st)
          | Val t =>
              let book :=
                {| title := t;
                   year := match j_year data with Val y => Some y | _ => None end;
                   author_id := a |} in
              let i := new_id (books st) in
              if year_bindable (j_year data) then
                ({| status := 201; content := Json (JObj (book_to_dict i book)) |},
                 {| authors := authors st; books := <[i := book]> (books st) |})
              else (server_error, st)
          end
      end
  end.

(** [GET /books/<int:book_id>] *)
Definition get_book (book_id : Z) (st : store) : response * store :=
  match books st !! book_id with
  | None => (no_row (path_bindable book_id), st)
  | Some book =>
      ({| status := 200; content := Json (JObj (book_to_dict book_id book)) |}, st)
  end.

(** [DELETE /books/<int:book_id>]; the DELETE that the commit sends binds
    the [id] once more. *)
Definition delete_book (book_id : Z) (st : store) : response * store :=
  match books st !! book_id with
  | None => (no_row (path_bindable book_id), st)
  | Some _ =>
      if path_bindable book_id then
        ({| status := 204; content := Empty |},
         {| authors := authors st; books := delete book_id (books st) |})
      else (server_error, st)
  end.

(** [PUT /books/<int:book_id>]: a member that is there is assigned, [null]
    included; [null] for the title is refused by the column when the
    session commits, and so is a year that cannot be bound. *)
Definition update_book (book_id : Z) (data : body) (st : store)
  : response * store :=
  match books st !! book_id with
  | None => (no_row (path_bindable book_id), st)
  | Some book =>
      let new_title :=
        match j_title data with
        | Absent => Some (title book)
        | Null => None
        | Val t => Some t
        end in
      let new_year :=
        match j_year data with
        | Absent => year book
        | Null => None
        | Val y => Some y
        end in
      match new_title with
      | None => (server_error, st)
      | Some t =>
          let book' := {| title := t; year := new_year;
                          author_id := author_id book |} in
          if year_bindable (j_year data) then
            ({| status := 200; content := Json (JObj (book_to_dict book_id book')) |},
             {| authors := authors st; books := <[book_id := book']> (books st) |})
          else (server_error, st)
      end
  end.

(** The routes of [create_app]; the [int] converter of a route hands the
    handler a number that is not negative, of any size. *)
Inductive request : Type :=
  | GET_authors
  | POST_authors (data : body)
  | GET_author (author_id : Z)
  | GET_books
  | POST_books (data : body)
  | GET_book (book_id : Z)
  | DELETE_book (book_id : Z)
  | PUT_book (book_id : Z) (data : body).

Definition handle (r : request) (st : store) : response * store :=
  match r with
  | GET_authors => get_authors st
  | POST_authors data => add_author data st
  | GET_author i => get_author i st
  | GET_books => get_books st
  | POST_books data => add_book data st
  | GET_book i => get_book i st
  | DELETE_book i => delete_book i st
  | PUT_book i data => update_book i data st
  end.



End Ej3b2.

(** ** Small catalogues, after the data of the scripts *)

Module Muestra.

(** [ej3a1.py]: the three authors of the script and three of its books. *)
Definition sql_vacia : Sqlite.database :=
  {| Sqlite.autores := {| Sqlite.rows := ∅; Sqlite.seq := 0 |};
     Sqlite.libros := {| Sqlite.rows := ∅; Sqlite.seq := 0 |} |}.

Definition ficciones : Sqlite.libro :=
  {| Sqlite.titulo := "Ficciones"; Sqlite.anio := Sqlite.VInt 1944;
     Sqlite.autor_id := Sqlite.VInt 3 |}.

Definition sql_biblioteca : Sqlite.database :=
  {| Sqlite.autores :=
       {| Sqlite.rows :=
            list_to_map
              [ (1%Z, {| Sqlite.nombre := "Gabriel García Márquez" |});
                (2%Z, {| Sqlite.nombre := "Isabel Allende" |});
                (3%Z, {| Sqlite.nombre := "Jorge Luis Borges" |}) ];
          Sqlite.seq := 3 |};
     Sqlite.libros :=
       {| Sqlite.rows :=
            list_to_map
              [ (1%Z, {| Sqlite.titulo := "Cien años de soledad";
                         Sqlite.anio := Sqlite.VInt 1967;
                         Sqlite.autor_id := Sqlite.VInt 1 |});
                (5%Z, ficciones);
                (6%Z, {| Sqlite.titulo := "El Aleph";
                         Sqlite.anio := Sqlite.VInt 1949;
                         Sqlite.autor_id := Sqlite.VInt 3 |}) ];
          Sqlite.seq := 6 |} |}.

(** [ej3a4.py]: two authors, one of them without a book. *)
Definition doc_vacia : Mongo.database :=
  {| Mongo.autores := ∅; Mongo.libros := ∅ |}.

Definition el_aleph : Mongo.libro :=
  {| Mongo.titulo := "El Aleph"; Mongo.anio := Some 1949%Z; Mongo.autor_id := 1%N |}.

Definition doc_biblioteca : Mongo.database :=
  {| Mongo.autores :=
       list_to_map [ (1%N, {| Mongo.nombre := "Jorge Luis Borges" |});
                     (2%N, {| Mongo.nombre := "Isabel Allende" |}) ];
     Mongo.libros := list_to_map [ (3%N, el_aleph) ] |}.

(** The string form of the identifier 3. *)
Definition id_el_aleph : string := "000000000000000000000003".

(** [ej3b2.py]: one author with one book, and three request bodies. *)
Definition t1 : Ej3b2.Book :=
  {| Ej3b2.title := "T1"; Ej3b2.year := Some 1999%Z; Ej3b2.author_id := 1 |}.

Definition api_catalogo : Ej3b2.store :=
  {| Ej3b2.authors := list_to_map [ (1%Z, {| Ej3b2.name := "A" |}) ];
     Ej3b2.books := list_to_map [ (1%Z, t1) ] |}.

Definition body_autor_b : Ej3b2.body :=
  {| Ej3b2.j_name := Ej3b2.Val "B"; Ej3b2.j_title := Ej3b2.Absent;
     Ej3b2.j_year := Ej3b2.Absent; Ej3b2.j_author_id := None |}.

Definition body_libro_t2 (author_id : Z) : Ej3b2.body :=
  {| Ej3b2.j_name := Ej3b2.Absent; Ej3b2.j_title := Ej3b2.Val "T2";
     Ej3b2.j_year := Ej3b2.Val 2001%Z; Ej3b2.j_author_id := Some author_id |}.

Definition body_year (y : Ej3b2.field Z) : Ej3b2.body :=
  {| Ej3b2.j_name := Ej3b2.Absent; Ej3b2.j_title := Ej3b2.Absent;
     Ej3b2.j_year := y; Ej3b2.j_author_id := None |}.

End Muestra.

(** * Properties *)

(** Appending to a text that starts with a known character computes. *)
#[local] Arguments String.append !s1 s2 : simpl nomatch.
#[local] Arguments fault_in : simpl never.
#[local] Arguments faults : simpl never.
#[local] Arguments int64 : simpl never.
#[local] Arguments Sqlite.params_bindable : simpl never.
#[local] Arguments Ej3b2.path_bindable : simpl never.

(** Unfolding of the monad, to run a function on a given world. *)
Ltac run :=
  repeat (unfold mbind, M_bind, mret, M_ret, Py.bind, Py.ret, Py.raise,
            Py.attempt, Py.get, Py.put in *; cbn in *).

Ltac sql_run :=
  unfold Sqlite.insert_autor, Sqlite.insert_libro, Sqlite.delete_libro,
    Sqlite.begin_transaction, Sqlite.commit, Sqlite.rollback,
    Sqlite.select_nombres, Sqlite.select_libros_de, Sqlite.dml, Sqlite.dml_bound,
    Sqlite.set_in_txn, Sqlite.step, Sqlite.read_db, Sqlite.write_db in *;
  run.

Ltac mongo_run :=
  unfold Mongo.insert_one_autor, Mongo.insert_one_libro, Mongo.update_one_libro,
    Mongo.delete_one_libro, Mongo.delete_one_autor, Mongo.delete_many_libros,
    Mongo.find_one_autor, Mongo.aggregate_libros_de, Mongo.roundtrip,
    Mongo.read_db, Mongo.write_db in *;
  run.

(** ** Text and numbers *)

Lemma hex_val_digit (n : N) : (n < 16)%N → Mongo.hex_val (Mongo.hex_digit n) = Some n.
Proof.
  intros Hn. destruct n as [|p]; [reflexivity|].
  do 4 (try destruct p as [p|p|]); first [reflexivity | lia].
Qed.

Lemma hex_parse_of (k : nat) : ∀ n acc,
  Mongo.hex_parse (Mongo.hex_of k n) acc
  = Some (acc * 16 ^ N.of_nat k + n mod 16 ^ N.of_nat k)%N.
Proof.
  induction k as [|k IH]; intros n acc.
  - cbn. rewrite N.mod_1_r. f_equal. lia.
  - cbn [Mongo.hex_of Mongo.hex_parse].
    rewrite hex_val_digit by (apply N.mod_lt; lia).
    rewrite IH. f_equal.
    replace (N.of_nat (S k)) with (N.succ (N.of_nat k)) by lia.
    rewrite N.pow_succ_r'.
    rewrite (N.mul_comm 16 (16 ^ N.of_nat k)).
    rewrite (N.Div0.mod_mul_r n (16 ^ N.of_nat k) 16).
    lia.
Qed.

Lemma hex_of_length (k : nat) (n : N) : String.length (Mongo.hex_of k n) = k.
Proof. induction k as [|k IH]; cbn; [reflexivity | now rewrite IH]. Qed.

(** [ObjectId(str(o)) == o] for every twelve-byte identifier. *)
Lemma ObjectId_str_of_oid (o : Mongo.oid) :
  (o < 2 ^ 96)%N → Mongo.ObjectId (Mongo.str_of_oid o) = Ok o.
Proof.
  intros Ho. unfold Mongo.ObjectId, Mongo.str_of_oid.
  rewrite hex_of_length, Nat.eqb_refl, hex_parse_of.
  rewrite N.mod_small; [reflexivity|].
  change (16 ^ N.of_nat 24)%N with (2 ^ 96)%N. exact Ho.
Qed.

Lemma to_int_not_nil (z : Z) : Z.to_int z ≠ Decimal.Pos Decimal.Nil
                               ∧ Z.to_int z ≠ Decimal.Neg Decimal.Nil.
Proof.
  destruct z as [|p|p]; cbn; (split; [|try discriminate]); try discriminate;
    intros [= H]; exact (DecimalPos.Unsigned.to_uint_nonnil p H).
Qed.

(** Reading back the text of an [int] gives the [int]. *)
Lemma int_of_text_str_of_int (z : Z) : Sqlite.int_of_text (str_of_int z) = Some z.
Proof.
  unfold Sqlite.int_of_text, str_of_int.
  destruct (to_int_not_nil z) as [H1 H2].
  rewrite (NilZero.isi _ H1 H2). cbn. now rewrite DecimalZ.of_to.
Qed.

Lemma plain_string_of_uint (d : Decimal.uint) :
  Sqlite.plain (NilEmpty.string_of_uint d) = true.
Proof. induction d; cbn; auto. Qed.

(** The text of an [int] has neither a quote nor a NUL in it. *)
Lemma plain_str_of_int (z : Z) : Sqlite.plain (str_of_int z) = true.
Proof.
  unfold str_of_int.
  destruct (Z.to_int z) as [d|d]; cbn; destruct d; cbn;
    auto using plain_string_of_uint.
Qed.

Lemma string_app_assoc (a b c : string) : (a ++ b) ++ c = a ++ (b ++ c).
Proof. induction a as [|x a IH]; simpl; [reflexivity | now f_equal]. Qed.

Lemma string_app_empty_r (a : string) : a ++ "" = a.
Proof. induction a as [|x a IH]; simpl; [reflexivity | now f_equal]. Qed.

(** ** Reading the text of a statement *)

(** A literal whose text is plain is read up to its closing quote, and
    its text is read as it stands. *)
Lemma lex_run_literal (t : string) : ∀ a rest,
  Sqlite.plain t = true →
  Sqlite.lex_run (Sqlite.InString a) (t ++ String "'" rest)
  = Sqlite.lex_run (Sqlite.AfterQuote (a ++ t)) rest.
Proof.
  induction t as [|c t IH]; intros a rest Hq.
  - cbn. rewrite string_app_empty_r.
    destruct (Sqlite.lex_run (Sqlite.AfterQuote a) rest) as [[o st]|]; reflexivity.
  - cbn in Hq. apply andb_prop in Hq as [Hc Ht]. apply andb_prop in Hc as [Hc Hn].
    cbn [append Sqlite.lex_run Sqlite.lex_step].
    destruct (Sqlite.is_quote c); [discriminate|].
    destruct (Sqlite.is_nul c); [discriminate|].
    rewrite (IH _ _ Ht). unfold Sqlite.snoc. rewrite string_app_assoc. cbn.
    destruct (Sqlite.lex_run (Sqlite.AfterQuote (a ++ String c t)) rest) as [[o st]|];
      reflexivity.
Qed.

Lemma lex_run_app (s1 : string) : ∀ st s2,
  Sqlite.lex_run st (s1 ++ s2)
  = match Sqlite.lex_run st s1 with
    | None => None
    | Some (o1, st1) =>
        match Sqlite.lex_run st1 s2 with
        | None => None
        | Some (o2, st2) => Some ((o1 ++ o2)%list, st2)
        end
    end.
Proof.
  induction s1 as [|c s1 IH]; intros st s2.
  - cbn. destruct (Sqlite.lex_run st s2) as [[o2 st2]|]; reflexivity.
  - cbn [String.append Sqlite.lex_run].
    destruct (Sqlite.lex_step st c) as [[o st']|]; [|reflexivity].
    rewrite IH.
    destruct (Sqlite.lex_run st' s1) as [[o1 st1]|]; [|reflexivity].
    destruct (Sqlite.lex_run st1 s2) as [[o2 st2]|]; [|reflexivity].
    now rewrite app_assoc.
Qed.

(** Known text up to an opening quote, then a literal of plain text. *)
Lemma lex_run_then_literal (p t rest a : string) st o :
  Sqlite.lex_run st p = Some (o, Sqlite.InString a) →
  Sqlite.plain t = true →
  Sqlite.lex_run st (p ++ (t ++ String "'" rest))
  = match Sqlite.lex_run (Sqlite.AfterQuote (a ++ t)) rest with
    | None => None
    | Some (o2, st2) => Some ((o ++ o2)%list, st2)
    end.
Proof. intros Hp Ht. now rewrite lex_run_app, Hp, lex_run_literal. Qed.

Ltac read_literal :=
  erewrite lex_run_then_literal; [|vm_compute; reflexivity|assumption].

(** The three shapes of statement that [actualizar_libro] writes, read
    back: every literal gives the text that was put between its quotes,
    provided that text is plain. *)
Lemma parse_update_titulo (s sid : string) :
  Sqlite.plain s = true → Sqlite.plain sid = true →
  Sqlite.parse_update
    ("UPDATE libros SET titulo = '"
     ++ (s ++ String "'" ("WHERE libros.id = '" ++ (sid ++ String "'" ""))))
  = Some {| Sqlite.assignments := [(Sqlite.ColTitulo, s)];
            Sqlite.where_id := Some sid |}.
Proof.
  intros Hs Hi. unfold Sqlite.parse_update, Sqlite.lex.
  do 2 read_literal. vm_compute. reflexivity.
Qed.

Lemma parse_update_anio (sy sid : string) :
  Sqlite.plain sy = true → Sqlite.plain sid = true →
  Sqlite.parse_update
    ("UPDATE libros SET anio = '"
     ++ (sy ++ String "'" ("WHERE libros.id = '" ++ (sid ++ String "'" ""))))
  = Some {| Sqlite.assignments := [(Sqlite.ColAnio, sy)];
            Sqlite.where_id := Some sid |}.
Proof.
  intros Hy Hi. unfold Sqlite.parse_update, Sqlite.lex.
  do 2 read_literal. vm_compute. reflexivity.
Qed.

Lemma parse_update_titulo_anio (s sy sid : string) :
  Sqlite.plain s = true → Sqlite.plain sy = true →
  Sqlite.plain sid = true →
  Sqlite.parse_update
    ("UPDATE libros SET titulo = '"
     ++ (s ++ String "'" (", anio = '"
     ++ (sy ++ String "'" ("WHERE libros.id = '" ++ (sid ++ String "'" ""))))))
  = Some {| Sqlite.assignments := [(Sqlite.ColTitulo, s); (Sqlite.ColAnio, sy)];
            Sqlite.where_id := Some sid |}.
Proof.
  intros Hs Hy Hi. unfold Sqlite.parse_update, Sqlite.lex.
  do 3 read_literal. vm_compute. reflexivity.
Qed.

Lemma parse_consulta_actualizar (i : Z) (t : option string) (y : option Z) :
  (∀ s, t = Some s → Sqlite.plain s = true) →
  (is_Some t ∨ is_Some y) →
  Sqlite.parse_update (Ej3a1.consulta_actualizar i t y)
  = Some {| Sqlite.assignments := Ej3a1.asignaciones t y;
            Sqlite.where_id := Some (str_of_int i) |}.
Proof.
  intros Ht Hsome. pose proof (plain_str_of_int i) as Hi.
  unfold Ej3a1.consulta_actualizar, Ej3a1.asignaciones.
  destruct t as [s|], y as [z|]; cbn [app String.concat].
  - pose proof (plain_str_of_int z).
    rewrite <- (parse_update_titulo_anio s (str_of_int z) (str_of_int i)) by auto.
    f_equal. rewrite !string_app_assoc. reflexivity.
  - rewrite <- (parse_update_titulo s (str_of_int i)) by auto.
    f_equal. rewrite !string_app_assoc. reflexivity.
  - pose proof (plain_str_of_int z).
    rewrite <- (parse_update_anio (str_of_int z) (str_of_int i)) by auto.
    f_equal. rewrite !string_app_assoc. reflexivity.
  - destruct Hsome as [[? [=]]|[? [=]]].
Qed.

(** The statement text for the title [O'Brien] and book 1. *)
Lemma consulta_actualizar_quote :
  Ej3a1.consulta_actualizar 1 (Some "O'Brien") None
  = "UPDATE libros SET titulo = 'O'Brien'WHERE libros.id = '1'".
Proof. reflexivity. Qed.

(** ** The identity of a new record *)

Lemma max_rowid_ge {R} (m : gmap Z R) (k : Z) (r : R) :
  m !! k = Some r → (k ≤ Sqlite.max_rowid m)%Z.
Proof.
  unfold Sqlite.max_rowid. revert k r.
  apply (map_fold_weak_ind
           (λ acc (m : gmap Z R), ∀ k r, m !! k = Some r → (k ≤ acc)%Z)).
  - intros k r Hk. rewrite lookup_empty in Hk. discriminate.
  - intros i x m' acc Hi IH k r Hk.
    destruct (decide (i = k)) as [->|Hne]; [lia|].
    rewrite lookup_insert_ne in Hk by done. specialize (IH k r Hk). lia.
Qed.

(** The [id] of the next row is not in use. *)
Lemma next_id_fresh {R} (t : Sqlite.table R) :
  Sqlite.rows t !! Sqlite.next_id t = None.
Proof.
  destruct (Sqlite.rows t !! Sqlite.next_id t) as [r|] eqn:Hk; [|reflexivity].
  apply max_rowid_ge in Hk. unfold Sqlite.next_id in Hk. lia.
Qed.

Lemma max_rowid_insert {R} (m : gmap Z R) (i : Z) (r : R) :
  m !! i = None →
  Sqlite.max_rowid (<[i := r]> m) = Z.max i (Sqlite.max_rowid m).
Proof.
  intros Hi. unfold Sqlite.max_rowid.
  rewrite map_fold_insert_L; [reflexivity| |exact Hi].
  intros; lia.
Qed.

(** After an insertion the next [id] is the one after the [id] given. *)
Lemma next_id_table_insert {R} (r : R) (t : Sqlite.table R) :
  Sqlite.next_id (Sqlite.table_insert r t) = (Sqlite.next_id t + 1)%Z.
Proof.
  unfold Sqlite.table_insert, Sqlite.next_id at 1. cbn.
  rewrite max_rowid_insert by apply next_id_fresh.
  unfold Sqlite.next_id. lia.
Qed.

(** No row has an [id] from the next one on. *)
Lemma rows_from_next_id {R} (t : Sqlite.table R) (i : Z) :
  (Sqlite.next_id t ≤ i)%Z → Sqlite.rows t !! i = None.
Proof.
  intros Hi. destruct (Sqlite.rows t !! i) as [r|] eqn:Hk; [|reflexivity].
  apply max_rowid_ge in Hk. unfold Sqlite.next_id in Hi. lia.
Qed.

Lemma max_key_ge {V} (m : gmap N V) (k : N) (v : V) :
  m !! k = Some v → (k ≤ Mongo.max_key m)%N.
Proof.
  unfold Mongo.max_key. revert k v.
  apply (map_fold_weak_ind
           (λ acc (m : gmap N V), ∀ k v, m !! k = Some v → (k ≤ acc)%N)).
  - intros k v Hk. rewrite lookup_empty in Hk. discriminate.
  - intros i x m' acc Hi IH k v Hk.
    destruct (decide (i = k)) as [->|Hne]; [lia|].
    rewrite lookup_insert_ne in Hk by done. specialize (IH k v Hk). lia.
Qed.

Lemma max_ref_ge (m : gmap N Mongo.libro) (k : N) (b : Mongo.libro) :
  m !! k = Some b → (Mongo.autor_id b ≤ Mongo.max_ref m)%N.
Proof.
  unfold Mongo.max_ref. revert k b.
  apply (map_fold_weak_ind
           (λ acc (m : gmap N Mongo.libro),
              ∀ k b, m !! k = Some b → (Mongo.autor_id b ≤ acc)%N)).
  - intros k b Hk. rewrite lookup_empty in Hk. discriminate.
  - intros i x m' acc Hi IH k b Hk.
    destruct (decide (i = k)) as [->|Hne].
    + rewrite lookup_insert_eq in Hk. injection Hk as ->. lia.
    + rewrite lookup_insert_ne in Hk by done. specialize (IH k b Hk). lia.
Qed.

Lemma max_key_insert {V} (m : gmap N V) (o : N) (v : V) :
  m !! o = None → Mongo.max_key (<[o := v]> m) = N.max o (Mongo.max_key m).
Proof.
  intros Ho. unfold Mongo.max_key.
  rewrite map_fold_insert_L; [reflexivity| |exact Ho]. intros; lia.
Qed.

Lemma max_ref_insert (m : gmap N Mongo.libro) (o : N) (b : Mongo.libro) :
  m !! o = None →
  Mongo.max_ref (<[o := b]> m) = N.max (Mongo.autor_id b) (Mongo.max_ref m).
Proof.
  intros Ho. unfold Mongo.max_ref.
  rewrite map_fold_insert_L; [reflexivity| |exact Ho]. intros; lia.
Qed.

(** A new identifier is the [_id] of no author and of no book, and no book
    refers to it. *)
Lemma new_oid_fresh (d : Mongo.database) :
  Mongo.autores d !! Mongo.new_oid d = None
  ∧ Mongo.libros d !! Mongo.new_oid d = None
  ∧ ∀ k b, Mongo.libros d !! k = Some b → Mongo.autor_id b ≠ Mongo.new_oid d.
Proof.
  unfold Mongo.new_oid. repeat split.
  - destruct (Mongo.autores d !! _) as [a|] eqn:Hk; [|reflexivity].
    apply max_key_ge in Hk. lia.
  - destruct (Mongo.libros d !! _) as [b|] eqn:Hk; [|reflexivity].
    apply max_key_ge in Hk. lia.
  - intros k b Hk Heq. apply max_ref_ge in Hk. lia.
Qed.

Lemma new_oid_insert_autor (d : Mongo.database) (a : Mongo.autor) :
  Mongo.new_oid {| Mongo.autores := <[Mongo.new_oid d := a]> (Mongo.autores d);
                   Mongo.libros := Mongo.libros d |}
  = N.succ (Mongo.new_oid d).
Proof.
  destruct (new_oid_fresh d) as (Ha & _ & _).
  unfold Mongo.new_oid at 1. cbn [Mongo.autores Mongo.libros].
  rewrite max_key_insert by exact Ha. unfold Mongo.new_oid. lia.
Qed.

Lemma max_id_ge {V} (m : gmap Z V) (k : Z) (v : V) :
  m !! k = Some v → ∃ mx, Ej3b2.max_id m = Some mx ∧ (k ≤ mx)%Z.
Proof.
  unfold Ej3b2.max_id. revert k v.
  apply (map_fold_weak_ind
           (λ r (m : gmap Z V), ∀ k v, m !! k = Some v → ∃ mx, r = Some mx ∧ (k ≤ mx)%Z)).
  - intros k v Hk. rewrite lookup_empty in Hk. discriminate.
  - intros i x m' r Hi IH k v Hk.
    destruct (decide (i = k)) as [->|Hne].
    + destruct r as [a|]; eexists; (split; [reflexivity|]); lia.
    + rewrite lookup_insert_ne in Hk by done.
      destruct (IH k v Hk) as (mx & -> & Hle).
      eexists; (split; [reflexivity|]); lia.
Qed.

(** The [id] given to a new row is not in use. *)
Lemma new_id_fresh {V} (m : gmap Z V) : m !! Ej3b2.new_id m = None.
Proof.
  destruct (m !! Ej3b2.new_id m) as [v|] eqn:Hk; [|reflexivity].
  destruct (max_id_ge m _ v Hk) as (mx & Hmx & Hle).
  unfold Ej3b2.new_id in Hle. rewrite Hmx in Hle. lia.
Qed.

(** ** Plans of failures *)

Lemma faults_head_tail (p : list bool) :
  faults p = ((if default false (head p) then 1 else 0) + faults (tail p))%nat.
Proof. destruct p as [|[] p]; reflexivity. Qed.

Lemma fault_in_head_tail (n : nat) (p : list bool) :
  fault_in (S n) p = default false (head p) || fault_in n (tail p).
Proof. destruct p as [|f p]; [destruct n|]; reflexivity. Qed.

Lemma roundtrip_run (d : Mongo.database) (p : list bool) :
  Mongo.roundtrip {| Mongo.db := d; Mongo.plan := p |}
  = (if default false (head p) then Raise PyMongoError else Ok tt,
     {| Mongo.db := d; Mongo.plan := tail p |}).
Proof. destruct p as [|[] p]; reflexivity. Qed.

Lemma step_run (c d : Sqlite.database) (b : bool) (p : list bool) :
  Sqlite.step {| Sqlite.committed := c; Sqlite.current := d;
                 Sqlite.in_txn := b; Sqlite.plan := p |}
  = (if default false (head p) then Raise Sqlite3Error else Ok tt,
     {| Sqlite.committed := c; Sqlite.current := d;
        Sqlite.in_txn := b; Sqlite.plan := tail p |}).
Proof. destruct p as [|[] p]; reflexivity. Qed.

Ltac sql_step H :=
  rewrite step_run;
  match goal with |- context [default false (head ?q)] =>
    destruct (default false (head q)) eqn:H end; cbn.

Lemma insert_one_autor_run (a : Mongo.autor) (d : Mongo.database) (p : list bool) :
  Mongo.insert_one_autor a {| Mongo.db := d; Mongo.plan := p |}
  = if default false (head p)
    then (Raise PyMongoError, {| Mongo.db := d; Mongo.plan := tail p |})
    else (Ok (Mongo.new_oid d),
          {| Mongo.db := {| Mongo.autores := <[Mongo.new_oid d := a]> (Mongo.autores d);
                            Mongo.libros := Mongo.libros d |};
             Mongo.plan := tail p |}).
Proof.
  unfold Mongo.insert_one_autor. run. rewrite roundtrip_run.
  destruct (default false (head p)); reflexivity.
Qed.

Lemma insert_one_libro_run (b : Mongo.libro) (d : Mongo.database) (p : list bool) :
  Mongo.insert_one_libro b {| Mongo.db := d; Mongo.plan := p |}
  = if default false (head p)
    then (Raise PyMongoError, {| Mongo.db := d; Mongo.plan := tail p |})
    else (Ok (Mongo.new_oid d),
          {| Mongo.db := {| Mongo.autores := Mongo.autores d;
                            Mongo.libros := <[Mongo.new_oid d := b]> (Mongo.libros d) |};
             Mongo.plan := tail p |}).
Proof.
  unfold Mongo.insert_one_libro. run. rewrite roundtrip_run.
  destruct (default false (head p)); reflexivity.
Qed.

Lemma delete_one_autor_run (o : Mongo.oid) (d : Mongo.database) (p : list bool) :
  Mongo.delete_one_autor o {| Mongo.db := d; Mongo.plan := p |}
  = if default false (head p)
    then (Raise PyMongoError, {| Mongo.db := d; Mongo.plan := tail p |})
    else match Mongo.autores d !! o with
         | Some _ =>
             (Ok 1%nat,
              {| Mongo.db := {| Mongo.autores := delete o (Mongo.autores d);
                                Mongo.libros := Mongo.libros d |};
                 Mongo.plan := tail p |})
         | None => (Ok 0%nat, {| Mongo.db := d; Mongo.plan := tail p |})
         end.
Proof.
  unfold Mongo.delete_one_autor. run. rewrite roundtrip_run.
  destruct (default false (head p)); [reflexivity|].
  unfold Mongo.read_db. cbn. destruct (Mongo.autores d !! o); reflexivity.
Qed.

Lemma delete_many_libros_run (a : Mongo.oid) (d : Mongo.database) (p : list bool) :
  Mongo.delete_many_libros a {| Mongo.db := d; Mongo.plan := p |}
  = if default false (head p)
    then (Raise PyMongoError, {| Mongo.db := d; Mongo.plan := tail p |})
    else (Ok (size (filter (λ kb, Mongo.autor_id kb.2 = a) (Mongo.libros d))),
          {| Mongo.db := {| Mongo.autores := Mongo.autores d;
                            Mongo.libros :=
                              filter (λ kb, Mongo.autor_id kb.2 ≠ a) (Mongo.libros d) |};
             Mongo.plan := tail p |}).
Proof.
  unfold Mongo.delete_many_libros. run. rewrite roundtrip_run.
  destruct (default false (head p)); reflexivity.
Qed.

(** ** Inserting authors and books *)

(** Rows inserted one after the other get consecutive [id]s from the
    table's next one on, each holds what was inserted, in the order of
    insertion, and the rows that were there stay as they were. *)
Lemma table_insert_many {R} (rs : list R) : ∀ t : Sqlite.table R,
  let t' := foldl (λ t r, Sqlite.table_insert r t) t rs in
  Sqlite.next_id t' = (Sqlite.next_id t + Z.of_nat (length rs))%Z
  ∧ ∀ i, Sqlite.rows t' !! i
         = if decide (Sqlite.next_id t ≤ i < Sqlite.next_id t + Z.of_nat (length rs))%Z
           then rs !! Z.to_nat (i - Sqlite.next_id t)
           else Sqlite.rows t !! i.
Proof.
  induction rs as [|r rs IH]; intros t; cbn zeta.
  - cbn. split; [lia|]. intros i. case_decide; [lia|reflexivity].
  - cbn [foldl length]. destruct (IH (Sqlite.table_insert r t)) as [Hn Hr].
    rewrite next_id_table_insert in Hn, Hr. split; [lia|].
    intros i. rewrite Hr. clear Hr Hn IH.
    destruct (decide (i = Sqlite.next_id t)) as [->|Hne].
    + rewrite decide_False by lia. rewrite decide_True by lia.
      rewrite Z.sub_diag. cbn. apply lookup_insert_eq.
    + repeat case_decide; try lia.
      * replace (Z.to_nat (i - Sqlite.next_id t))
          with (S (Z.to_nat (i - (Sqlite.next_id t + 1)))) by lia.
        reflexivity.
      * cbn. now rewrite lookup_insert_ne.
Qed.

Lemma table_insert_many_size {R} (rs : list R) : ∀ t : Sqlite.table R,
  size (Sqlite.rows (foldl (λ t r, Sqlite.table_insert r t) t rs))
  = (size (Sqlite.rows t) + length rs)%nat.
Proof.
  induction rs as [|r rs IH]; intros t; cbn [foldl length]; [lia|].
  rewrite IH. cbn. rewrite map_size_insert_None by apply next_id_fresh. lia.
Qed.

Lemma table_insert_many_fmap {A R} (f : A → R) (l : list A) : ∀ t : Sqlite.table R,
  foldl (λ t x, Sqlite.table_insert (f x) t) t l
  = foldl (λ t r, Sqlite.table_insert r t) t (f <$> l).
Proof. induction l as [|x l IH]; intros t; cbn; [reflexivity|apply IH]. Qed.

(** Rows inserted through [executemany], as the callers of [ej3a1.py] see
    them: the table grows by one row per entry, the [k]-th entry is the
    row [k] places after the table's next [id], which was free, and the
    rows that were there are untouched. *)
Lemma table_insert_many_spec {A R} (f : A → R) (l : list A) (t : Sqlite.table R) :
  let t' := foldl (λ t x, Sqlite.table_insert (f x) t) t l in
  size (Sqlite.rows t') = (size (Sqlite.rows t) + length l)%nat
  ∧ (∀ k x, l !! k = Some x →
       Sqlite.rows t !! (Sqlite.next_id t + Z.of_nat k)%Z = None
       ∧ Sqlite.rows t' !! (Sqlite.next_id t + Z.of_nat k)%Z = Some (f x))
  ∧ (∀ i r, Sqlite.rows t !! i = Some r → Sqlite.rows t' !! i = Some r).
Proof.
  cbn zeta. rewrite table_insert_many_fmap.
  destruct (table_insert_many (f <$> l) t) as [_ Hlk].
  split; [|split].
  - rewrite table_insert_many_size, length_fmap. reflexivity.
  - intros k x Hk. split; [apply rows_from_next_id; lia|].
    rewrite Hlk, length_fmap. apply lookup_lt_Some in Hk as Hlt.
    rewrite decide_True by lia.
    replace (Z.to_nat (Sqlite.next_id t + Z.of_nat k - Sqlite.next_id t)) with k by lia.
    now rewrite list_lookup_fmap, Hk.
  - intros i r Hi. rewrite Hlk. case_decide as Hd; [|exact Hi].
    rewrite rows_from_next_id in Hi by lia. discriminate.
Qed.

Lemma executemany_insert_autor (names : list string) : ∀ c d b,
  Sqlite.executemany Sqlite.insert_autor names
    {| Sqlite.committed := c; Sqlite.current := d; Sqlite.in_txn := b;
       Sqlite.plan := [] |}
  = (Ok tt,
     {| Sqlite.committed := c;
        Sqlite.current :=
          {| Sqlite.autores :=
               foldl (λ t n, Sqlite.table_insert {| Sqlite.nombre := n |} t)
                     (Sqlite.autores d) names;
             Sqlite.libros := Sqlite.libros d |};
        Sqlite.in_txn := match names with [] => b | _ => true end;
        Sqlite.plan := [] |}).
Proof.
  induction names as [|n names IH]; intros c d b.
  - destruct d. reflexivity.
  - cbn [Sqlite.executemany foldl]. sql_run. rewrite IH. cbn.
    destruct names; reflexivity.
Qed.

Lemma executemany_insert_libro (ls : list (string * option Z * Z)) : ∀ c d b,
  Forall (λ r, Sqlite.params_bindable r = true) ls →
  Sqlite.executemany Sqlite.insert_libro ls
    {| Sqlite.committed := c; Sqlite.current := d; Sqlite.in_txn := b;
       Sqlite.plan := [] |}
  = (Ok tt,
     {| Sqlite.committed := c;
        Sqlite.current :=
          {| Sqlite.autores := Sqlite.autores d;
             Sqlite.libros :=
               foldl (λ t r, Sqlite.table_insert (Sqlite.libro_of_params r) t)
                     (Sqlite.libros d) ls |};
        Sqlite.in_txn := match ls with [] => b | _ => true end;
        Sqlite.plan := [] |}).
Proof.
  induction ls as [|[[t y] a] ls IH]; intros c d b Hls.
  - destruct d. reflexivity.
  - apply Forall_cons in Hls as [Hr Hls]. cbn [Sqlite.executemany foldl].
    sql_run. rewrite Hr. run. rewrite IH by exact Hls. cbn.
    destruct ls; reflexivity.
Qed.

(** What [insertar_autores] and [insertar_libros] of the SQL variant do on
    a connection with nothing pending, the integers of the books being
    within sixty-four bits. *)
Lemma insertar_autores_sql_run (d : Sqlite.database) (names : list string) :
  Ej3a1.insertar_autores names (Sqlite.clean d)
  = (Ok PyNone,
     Sqlite.clean
       {| Sqlite.autores :=
            foldl (λ t n, Sqlite.table_insert {| Sqlite.nombre := n |} t)
                  (Sqlite.autores d) names;
          Sqlite.libros := Sqlite.libros d |}).
Proof.
  unfold Ej3a1.insertar_autores, Sqlite.clean. run.
  rewrite executemany_insert_autor. reflexivity.
Qed.

Lemma insertar_libros_sql_run (d : Sqlite.database) (ls : list (string * option Z * Z)) :
  Forall (λ r, Sqlite.params_bindable r = true) ls →
  Ej3a1.insertar_libros ls (Sqlite.clean d)
  = (Ok PyNone,
     Sqlite.clean
       {| Sqlite.autores := Sqlite.autores d;
          Sqlite.libros :=
            foldl (λ t r, Sqlite.table_insert (Sqlite.libro_of_params r) t)
                  (Sqlite.libros d) ls |}).
Proof.
  intros Hls. unfold Ej3a1.insertar_libros, Sqlite.clean. run.
  rewrite executemany_insert_libro by exact Hls. reflexivity.
Qed.

(** Authors inserted one after the other on a server that answers: the
    identifiers are consecutive from the first new one, each names the
    document with the name given at its place, and the collection grows
    by one document per name. *)
Lemma insert_each_autores (names : list string) : ∀ d,
  ∃ ids d',
    Mongo.insert_each Mongo.insert_one_autor
      ((λ n, {| Mongo.nombre := n |}) <$> names) (Mongo.healthy d)
    = (Ok ids, Mongo.healthy d')
    ∧ Mongo.libros d' = Mongo.libros d
    ∧ length ids = length names
    ∧ (∀ k, (k < length names)%nat →
            ids !! k = Some (Mongo.new_oid d + N.of_nat k)%N)
    ∧ size (Mongo.autores d') = (size (Mongo.autores d) + length names)%nat
    ∧ ∀ o, Mongo.autores d' !! o
           = if decide (Mongo.new_oid d ≤ o
                        < Mongo.new_oid d + N.of_nat (length names))%N
             then (λ n, {| Mongo.nombre := n |})
                    <$> names !! N.to_nat (o - Mongo.new_oid d)
             else Mongo.autores d !! o.
Proof.
  induction names as [|n names IH]; intros d.
  - exists [], d. cbn. repeat split; try lia.
    intros o. case_decide; [lia|reflexivity].
  - destruct (new_oid_fresh d) as (Hfresh & _ & _).
    set (d1 := {| Mongo.autores :=
                    <[Mongo.new_oid d := {| Mongo.nombre := n |}]> (Mongo.autores d);
                  Mongo.libros := Mongo.libros d |}).
    destruct (IH d1) as (ids & d' & Hrun & Hl & Hlen & Hids & Hsz & Hlk).
    assert (Hn1 : Mongo.new_oid d1 = N.succ (Mongo.new_oid d))
      by apply new_oid_insert_autor.
    exists (Mongo.new_oid d :: ids), d'.
    split.
    { cbn [fmap list_fmap Mongo.insert_each]. mongo_run.
      fold d1. unfold Mongo.healthy in Hrun. rewrite Hrun. reflexivity. }
    split; [exact Hl|]. split; [cbn; lia|]. split.
    { intros [|k] Hk; cbn in *.
      - f_equal. lia.
      - rewrite Hids by lia. f_equal. lia. }
    split.
    { rewrite Hsz. cbn [Mongo.autores d1 length].
      rewrite map_size_insert_None by exact Hfresh. lia. }
    intros o. rewrite Hlk, Hn1. clear Hlk Hids Hrun IH.
    cbn [length]. destruct (decide (o = Mongo.new_oid d)) as [->|Hne].
    + rewrite decide_False by lia. rewrite decide_True by lia.
      rewrite N.sub_diag. cbn. apply lookup_insert_eq.
    + repeat case_decide; try lia.
      * replace (N.to_nat (o - Mongo.new_oid d))
          with (S (N.to_nat (o - N.succ (Mongo.new_oid d)))) by lia.
        reflexivity.
      * cbn. now rewrite lookup_insert_ne.
Qed.

(** Books inserted one after the other on a server that answers: every
    document gets an identifier that was free, no two get the same, each
    identifier names the document given at its place, the other documents
    stay as they were, and the collection grows by one document per
    entry. *)
Lemma insert_each_libros (ds : list Mongo.libro) : ∀ d,
  ∃ ids d',
    Mongo.insert_each Mongo.insert_one_libro ds (Mongo.healthy d)
    = (Ok ids, Mongo.healthy d')
    ∧ Mongo.autores d' = Mongo.autores d
    ∧ length ids = length ds
    ∧ (∀ o, o ∈ ids → Mongo.libros d !! o = None)
    ∧ NoDup ids
    ∧ (∀ k o b, ids !! k = Some o → ds !! k = Some b →
                Mongo.libros d' !! o = Some b)
    ∧ (∀ o, o ∉ ids → Mongo.libros d' !! o = Mongo.libros d !! o)
    ∧ size (Mongo.libros d') = (size (Mongo.libros d) + length ds)%nat.
Proof.
  induction ds as [|b ds IH]; intros d.
  - exists [], d. cbn.
    repeat split; first [done | lia | constructor | intros o Ho; inversion Ho].
  - destruct (new_oid_fresh d) as (_ & Hfresh & _).
    set (o := Mongo.new_oid d) in *.
    set (d1 := {| Mongo.autores := Mongo.autores d;
                  Mongo.libros := <[o := b]> (Mongo.libros d) |}).
    destruct (IH d1) as (ids & d' & Hrun & Ha & Hlen & Hnew & Hnd & Hin & Hout & Hsz).
    assert (Hno : o ∉ ids).
    { intros Ho. specialize (Hnew o Ho). cbn in Hnew.
      rewrite lookup_insert_eq in Hnew. discriminate. }
    exists (o :: ids), d'. split.
    { cbn [Mongo.insert_each]. mongo_run. fold o. fold d1.
      unfold Mongo.healthy in Hrun. rewrite Hrun. reflexivity. }
    split; [exact Ha|]. split; [cbn; lia|]. split.
    { intros o' Ho'. apply elem_of_cons in Ho' as [->|Ho']; [exact Hfresh|].
      specialize (Hnew o' Ho'). cbn in Hnew.
      rewrite lookup_insert_ne in Hnew; [exact Hnew|].
      intros ->. contradiction. }
    split; [constructor; assumption|]. split.
    { intros [|k] o' b' Hk Hb; cbn in Hk, Hb.
      - injection Hk as <-. injection Hb as <-.
        rewrite (Hout o Hno). cbn. apply lookup_insert_eq.
      - eapply Hin; eassumption. }
    split.
    { intros o' Ho'. apply not_elem_of_cons in Ho' as [Hne Ho'].
      rewrite (Hout o' Ho'). cbn. now rewrite lookup_insert_ne. }
    rewrite Hsz. cbn [Mongo.libros d1 length].
    rewrite map_size_insert_None by exact Hfresh. lia.
Qed.

(** The documents that [insertar_libros] builds, entry by entry. *)
Lemma dict_libros_lookup (ls : list (string * option Z * Ej3a4.id_arg)) :
  ∀ ds, Ej3a4.dict_libros ls = Ok ds →
  length ds = length ls
  ∧ ∀ k t y r, ls !! k = Some (t, y, r) →
      ∃ a, Ej3a4.oid_of_arg r = Ok a
           ∧ ds !! k = Some {| Mongo.titulo := t; Mongo.anio := y;
                               Mongo.autor_id := a |}.
Proof.
  induction ls as [|[[t y] r] ls IH]; intros ds Hds; cbn in Hds.
  - injection Hds as <-. split; [reflexivity|]. intros k ? ? ? Hk. inversion Hk.
  - destruct (Ej3a4.oid_of_arg r) as [a|] eqn:Hr; [|discriminate].
    destruct (Ej3a4.dict_libros ls) as [ds'|]; [|discriminate].
    injection Hds as <-. destruct (IH ds' eq_refl) as [Hlen Hlk].
    split; [cbn; lia|].
    intros [|k] t' y' r' Hk; cbn in Hk.
    + injection Hk as <- <- <-. exists a. split; [exact Hr|reflexivity].
    + cbn. eapply Hlk; eassumption.
Qed.

(** What [insertar_autores] of the document variant does on a server that
    answers, for at least one name and identifiers of twelve bytes. *)
Lemma insertar_autores_doc_run (d : Mongo.database) (names : list string) :
  names ≠ [] →
  (Mongo.new_oid d + N.of_nat (length names) ≤ 2 ^ 96)%N →
  ∃ ids d',
    Ej3a4.insertar_autores names (Mongo.healthy d)
    = (Ok (Ej3a4.py_ids ids), Mongo.healthy d')
    ∧ Mongo.libros d' = Mongo.libros d
    ∧ length ids = length names
    ∧ NoDup ids
    ∧ size (Mongo.autores d') = (size (Mongo.autores d) + length names)%nat
    ∧ ∀ k n, names !! k = Some n →
        ∃ o, ids !! k = Some o
             ∧ Mongo.ObjectId (Mongo.str_of_oid o) = Ok o
             ∧ Mongo.autores d !! o = None
             ∧ Mongo.autores d' !! o = Some {| Mongo.nombre := n |}.
Proof.
  intros Hne Hbound.
  destruct (insert_each_autores names d)
    as (ids & d' & Hrun & Hl & Hlen & Hids & Hsz & Hlk).
  exists ids, d'. split.
  { unfold Ej3a4.insertar_autores, Mongo.insert_many.
    destruct names as [|n names]; [contradiction|].
    cbn [fmap list_fmap]. cbn [fmap list_fmap] in Hrun. run.
    rewrite Hrun. reflexivity. }
  split; [exact Hl|]. split; [exact Hlen|]. split.
  { apply NoDup_alt. intros i j o Hi Hj.
    apply lookup_lt_Some in Hi as Hil. apply lookup_lt_Some in Hj as Hjl.
    rewrite Hids in Hi, Hj by lia. injection Hi as <-. injection Hj as Hj. lia. }
  split; [exact Hsz|].
  intros k n Hk. apply lookup_lt_Some in Hk as Hkl.
  exists (Mongo.new_oid d + N.of_nat k)%N.
  split; [apply Hids; lia|]. split; [apply ObjectId_str_of_oid; lia|]. split.
  - destruct (Mongo.autores d !! _) as [a|] eqn:Ha; [|reflexivity].
    apply max_key_ge in Ha. unfold Mongo.new_oid in Ha. lia.
  - rewrite Hlk. rewrite decide_True by lia.
    replace (N.to_nat (Mongo.new_oid d + N.of_nat k - Mongo.new_oid d)) with k by lia.
    now rewrite Hk.
Qed.

(** C7, as the code has it. [insertar_autores] stores one author per name,
    in the order given and without looking for names already there. The
    SQL variant returns nothing: its rows take the consecutive [id]s from
    the table's next one on. The document variant, for at least one name,
    returns the identifiers in the order of the names, and each of them,
    read back with [ObjectId], names the document that holds the name. *)
Theorem insertar_autores_one_per_name :
  (∀ (d : Sqlite.database) (names : list string),
     ∃ d', Ej3a1.insertar_autores names (Sqlite.clean d)
           = (Ok PyNone, Sqlite.clean d')
           ∧ Sqlite.libros d' = Sqlite.libros d
           ∧ size (Sqlite.rows (Sqlite.autores d'))
             = (size (Sqlite.rows (Sqlite.autores d)) + length names)%nat
           ∧ (∀ k n, names !! k = Some n →
                let i := (Sqlite.next_id (Sqlite.autores d) + Z.of_nat k)%Z in
                Sqlite.rows (Sqlite.autores d) !! i = None
                ∧ Sqlite.rows (Sqlite.autores d') !! i
                  = Some {| Sqlite.nombre := n |})
           ∧ (∀ i a, Sqlite.rows (Sqlite.autores d) !! i = Some a →
                     Sqlite.rows (Sqlite.autores d') !! i = Some a))
  ∧ (∀ (d : Mongo.database) (names : list string),
       names ≠ [] →
       (Mongo.new_oid d + N.of_nat (length names) ≤ 2 ^ 96)%N →
       ∃ ids d',
         Ej3a4.insertar_autores names (Mongo.healthy d)
         = (Ok (PyList ((λ o, PyStr (Mongo.str_of_oid o)) <$> ids)),
            Mongo.healthy d')
         ∧ Mongo.libros d' = Mongo.libros d
         ∧ length ids = length names
         ∧ NoDup ids
         ∧ size (Mongo.autores d') = (size (Mongo.autores d) + length names)%nat
         ∧ ∀ k n, names !! k = Some n →
             ∃ o, ids !! k = Some o
                  ∧ Mongo.ObjectId (Mongo.str_of_oid o) = Ok o
                  ∧ Mongo.autores d !! o = None
                  ∧ Mongo.autores d' !! o = Some {| Mongo.nombre := n |}).
Proof.
  split.
  - intros d names. eexists. split; [apply insertar_autores_sql_run|].
    cbn [Sqlite.libros Sqlite.autores].
    destruct (table_insert_many_spec (λ n, {| Sqlite.nombre := n |}) names
                (Sqlite.autores d)) as (Hsz & Hnew & Hold).
    repeat split; try assumption; apply (Hnew k n); assumption.
  - intros d names Hne Hb. exact (insertar_autores_doc_run d names Hne Hb).
Qed.

(** C7 does not hold as stated: the SQL variant returns [None], not a
    sequence of identities, and the document variant raises [TypeError]
    for an empty sequence of names. *)
Lemma insertar_autores_no_identities :
  let d := {| Sqlite.autores := {| Sqlite.rows := ∅; Sqlite.seq := 0 |};
              Sqlite.libros := {| Sqlite.rows := ∅; Sqlite.seq := 0 |} |} in
  let m := {| Mongo.autores := ∅; Mongo.libros := ∅ |} in
  fst (Ej3a1.insertar_autores ["A"; "B"] (Sqlite.clean d)) = Ok PyNone
  ∧ (∀ ids, fst (Ej3a1.insertar_autores ["A"; "B"] (Sqlite.clean d))
            ≠ Ok (PyList ids))
  ∧ fst (Ej3a4.insertar_autores [] (Mongo.healthy m)) = Raise TypeError.
Proof.
  cbn zeta. split; [|split].
  - rewrite insertar_autores_sql_run. reflexivity.
  - intros ids. rewrite insertar_autores_sql_run. cbn. discriminate.
  - reflexivity.
Qed.

(** What [insertar_libros] of the document variant does on a server that
    answers, for at least one entry whose references all read as
    identifiers. *)
Lemma insertar_libros_doc_run (d : Mongo.database)
    (ls : list (string * option Z * Ej3a4.id_arg)) (ds : list Mongo.libro) :
  ls ≠ [] →
  Ej3a4.dict_libros ls = Ok ds →
  ∃ ids d',
    Ej3a4.insertar_libros ls (Mongo.healthy d)
    = (Ok (Ej3a4.py_ids ids), Mongo.healthy d')
    ∧ Mongo.autores d' = Mongo.autores d
    ∧ length ids = length ls
    ∧ size (Mongo.libros d') = (size (Mongo.libros d) + length ls)%nat
    ∧ ∀ k t y r, ls !! k = Some (t, y, r) →
        ∃ o a, ids !! k = Some o
               ∧ Ej3a4.oid_of_arg r = Ok a
               ∧ Mongo.libros d !! o = None
               ∧ Mongo.libros d' !! o
                 = Some {| Mongo.titulo := t; Mongo.anio := y;
                           Mongo.autor_id := a |}.
Proof.
  intros Hne Hds. destruct (dict_libros_lookup ls ds Hds) as [Hlen Hdk].
  destruct (insert_each_libros ds d)
    as (ids & d' & Hrun & Ha & Hil & Hnew & Hnd & Hin & Hout & Hsz).
  exists ids, d'. split.
  { unfold Ej3a4.insertar_libros. rewrite Hds. unfold Mongo.insert_many.
    destruct ds as [|b ds]; [destruct ls; [contradiction|discriminate]|].
    run. rewrite Hrun. reflexivity. }
  split; [exact Ha|]. split; [lia|]. split; [lia|].
  intros k t y r Hk. destruct (Hdk k t y r Hk) as (a & Hr & Hb).
  apply lookup_lt_Some in Hk as Hkl.
  destruct (lookup_lt_is_Some_2 ids k) as [o Ho]; [lia|].
  exists o, a. split; [exact Ho|]. split; [exact Hr|]. split.
  - apply Hnew. eapply list_elem_of_lookup_2. exact Ho.
  - eapply Hin; eassumption.
Qed.

(** [POST /books] naming an author that is not there: answered 404, and
    no book is stored. *)
Lemma add_book_unknown_author (st : Ej3b2.store) (data : Ej3b2.body) (a : Z) :
  Ej3b2.j_author_id data = Some a →
  int64 a = true →
  Ej3b2.authors st !! a = None →
  Ej3b2.handle (Ej3b2.POST_books data) st = (Ej3b2.not_found, st).
Proof. intros Ha Hr Hn. cbn. unfold Ej3b2.add_book. now rewrite Ha, Hn, Hr. Qed.

(** C8, as the code has it. [insertar_libros] of the SQL variant and of
    the document variant store every entry without looking at the authors:
    nothing in the statements below asks that an author with the referenced
    identity exist. The years, and in the SQL variant the author
    references, are integers within sixty-four bits, as the stores hold
    them. The SQL variant returns nothing; the document variant wants at
    least one entry and references that read as identifiers. The HTTP
    variant does look: [POST /books] naming an author that is not there
    is answered 404, and no book is stored. *)
Theorem insertar_libros_unchecked_reference :
  (∀ (d : Sqlite.database) (ls : list (string * option Z * Z)),
     Forall (λ r, Sqlite.params_bindable r = true) ls →
     ∃ d', Ej3a1.insertar_libros ls (Sqlite.clean d)
           = (Ok PyNone, Sqlite.clean d')
           ∧ Sqlite.autores d' = Sqlite.autores d
           ∧ size (Sqlite.rows (Sqlite.libros d'))
             = (size (Sqlite.rows (Sqlite.libros d)) + length ls)%nat
           ∧ (∀ k t y a, ls !! k = Some (t, y, a) →
                let i := (Sqlite.next_id (Sqlite.libros d) + Z.of_nat k)%Z in
                Sqlite.rows (Sqlite.libros d) !! i = None
                ∧ Sqlite.rows (Sqlite.libros d') !! i
                  = Some {| Sqlite.titulo := t;
                            Sqlite.anio := from_option Sqlite.VInt Sqlite.VNull y;
                            Sqlite.autor_id := Sqlite.VInt a |}))
  ∧ (∀ (d : Mongo.database) (ls : list (string * option Z * Ej3a4.id_arg))
       (ds : list Mongo.libro),
       ls ≠ [] →
       Ej3a4.dict_libros ls = Ok ds →
       Forall (λ r, from_option int64 true r.1.2 = true) ls →
       ∃ ids d',
         Ej3a4.insertar_libros ls (Mongo.healthy d)
         = (Ok (PyList ((λ o, PyStr (Mongo.str_of_oid o)) <$> ids)),
            Mongo.healthy d')
         ∧ Mongo.autores d' = Mongo.autores d
         ∧ length ids = length ls
         ∧ size (Mongo.libros d') = (size (Mongo.libros d) + length ls)%nat
         ∧ ∀ k t y r, ls !! k = Some (t, y, r) →
             ∃ o a, ids !! k = Some o
                    ∧ Ej3a4.oid_of_arg r = Ok a
                    ∧ Mongo.libros d !! o = None
                    ∧ Mongo.libros d' !! o
                      = Some {| Mongo.titulo := t; Mongo.anio := y;
                                Mongo.autor_id := a |})
  ∧ (∀ (st : Ej3b2.store) (data : Ej3b2.body) (a : Z),
       Ej3b2.j_author_id data = Some a →
       int64 a = true →
       Ej3b2.authors st !! a = None →
       Ej3b2.handle (Ej3b2.POST_books data) st = (Ej3b2.not_found, st)
       ∧ Ej3b2.status Ej3b2.not_found = 404%Z).
Proof.
  split; [|split].
  - intros d ls Hls. eexists. split; [apply insertar_libros_sql_run, Hls|].
    cbn [Sqlite.libros Sqlite.autores].
    destruct (table_insert_many_spec Sqlite.libro_of_params ls (Sqlite.libros d))
      as (Hsz & Hnew & _).
    split; [reflexivity|]. split; [exact Hsz|].
    intros k t y a Hk. cbn zeta. destruct (Hnew k _ Hk) as [H1 H2].
    split; [exact H1|]. rewrite H2. destruct y; reflexivity.
  - intros d ls ds Hne Hds _. exact (insertar_libros_doc_run d ls ds Hne Hds).
  - intros st data a Ha Hr Hn. split; [|reflexivity].
    exact (add_book_unknown_author st data a Ha Hr Hn).
Qed.

(** C8 does not hold as stated: the HTTP variant turns down a book whose
    author is not there. *)
Lemma add_book_rejects_dangling_author :
  let st := {| Ej3b2.authors := ∅; Ej3b2.books := ∅ |} in
  let data := {| Ej3b2.j_name := Ej3b2.Absent; Ej3b2.j_title := Ej3b2.Val "T1";
                 Ej3b2.j_year := Ej3b2.Val 1999%Z; Ej3b2.j_author_id := Some 7%Z |} in
  Ej3b2.authors st !! 7%Z = None
  ∧ Ej3b2.status (Ej3b2.handle (Ej3b2.POST_books data) st).1 = 404%Z
  ∧ Ej3b2.books (Ej3b2.handle (Ej3b2.POST_books data) st).2 = ∅.
Proof. cbn zeta. repeat split. Qed.

(** ** Looking up the books of an author *)

Lemma filter_none {A} (P : A → Prop) `{∀ x, Decision (P x)} (l : list A) :
  (∀ x, x ∈ l → ¬ P x) → filter P l = [].
Proof.
  intros Hl. destruct (filter P l) as [|x l'] eqn:Hf; [reflexivity|].
  assert (Hx : x ∈ filter P l) by (rewrite Hf; left).
  apply list_elem_of_filter in Hx as [HP Hx]. destruct (Hl x Hx HP).
Qed.

(** The document variant hands back an empty list when no author has the
    name, and when the author found has no book. *)
Lemma buscar_libros_por_autor_doc_empty (d : Mongo.database) (n : string) :
  (∀ o a k b, Mongo.autores d !! o = Some a → Mongo.nombre a = n →
              Mongo.libros d !! k = Some b → Mongo.autor_id b ≠ o) →
  Ej3a4.buscar_libros_por_autor n (Mongo.healthy d)
  = (Ok (PyList []), Mongo.healthy d).
Proof.
  intros Hnone. unfold Ej3a4.buscar_libros_por_autor. mongo_run.
  destruct (head _) as [[o a]|] eqn:Hh; cbn; [|reflexivity].
  apply head_Some_elem_of, list_elem_of_filter in Hh as [Hn Ho].
  apply elem_of_map_to_list in Ho. cbn in Hn.
  rewrite filter_none; [reflexivity|].
  intros [k b] Hk. apply elem_of_map_to_list in Hk. cbn.
  exact (Hnone o a k b Ho Hn Hk).
Qed.

Lemma list_bind_none {A B} (f : A → list B) (l : list A) :
  (∀ x, x ∈ l → f x = []) → l ≫= f = [].
Proof.
  induction l as [|x l IH]; intros Hl; [reflexivity|].
  rewrite bind_cons, (Hl x) by left. cbn. apply IH.
  intros y Hy. apply Hl. now right.
Qed.

(** C6 fails on the SQL variant. When no author has the name, and when
    the author has no book, the join yields no row; [buscar_libros_por_autor]
    then falls off its end, and the caller gets [None] where the claim,
    the comment in the function and the document variant have an empty
    list. *)
Theorem buscar_libros_por_autor_sql_empty (d : Sqlite.database) (n : string) :
  (∀ i a k b, Sqlite.rows (Sqlite.autores d) !! i = Some a → Sqlite.nombre a = n →
              Sqlite.rows (Sqlite.libros d) !! k = Some b →
              Sqlite.autor_id b ≠ Sqlite.VInt i) →
  Ej3a1.buscar_libros_por_autor n (Sqlite.clean d) = (Ok PyNone, Sqlite.clean d).
Proof.
  intros Hnone. unfold Ej3a1.buscar_libros_por_autor. sql_run.
  match goal with |- context [Ej3a1.py_fila <$> ?l] => assert (Hl : l = []) end.
  { apply list_bind_none. intros [i a] Hi.
    apply elem_of_map_to_list in Hi.
    case_decide as Hn; [|reflexivity].
    apply list_bind_none. intros [k b] Hk.
    apply elem_of_map_to_list in Hk.
    case_decide as Hb; [|reflexivity].
    destruct (Hnone i a k b Hi Hn Hk Hb). }
  rewrite Hl. reflexivity.
Qed.

(** ** Updating a book *)

(** C1 fails on the SQL variant. The title [O'Brien] is pasted between
    quotes into the statement; its own quote ends the literal, the text no
    longer reads as a statement, SQLite refuses it, and [actualizar_libro]
    raises [sqlite3.Error] on every connection; no title is stored. *)
Theorem actualizar_libro_quote_raises (w : Sqlite.world) :
  Ej3a1.actualizar_libro 1 (Some "O'Brien") None w = (Raise Sqlite3Error, w).
Proof.
  unfold Ej3a1.actualizar_libro, Sqlite.execute_update.
  replace (Sqlite.parse_update (Ej3a1.consulta_actualizar 1 (Some "O'Brien") None))
    with (@None Sqlite.update_stmt) by (vm_compute; reflexivity).
  reflexivity.
Qed.

(** The same text is built by [ej3a2.py], with the same outcome. *)
Lemma actualizar_libro_quote_raises_ej3a2 (d : Sqlite.database) :
  Ej3a2.actualizar_libro 1 (Some "O'Brien") None None (Sqlite.clean d)
  = (Raise Sqlite3Error, Sqlite.clean d).
Proof.
  unfold Ej3a2.actualizar_libro, Sqlite.execute_update.
  replace (Sqlite.parse_update
             (Ej3a2.consulta_actualizar 1 (Some "O'Brien") None None))
    with (@None Sqlite.update_stmt) by (vm_compute; reflexivity).
  reflexivity.
Qed.

(** A title can also carry a second assignment into the statement: the
    book then gets the title [x], not the title that was passed, and its
    year is overwritten although no year was passed. *)
Lemma actualizar_libro_quote_rewrites_year :
  let b := {| Sqlite.titulo := "Ficciones"; Sqlite.anio := Sqlite.VInt 1944;
              Sqlite.autor_id := Sqlite.VInt 3 |} in
  let d := {| Sqlite.autores := {| Sqlite.rows := ∅; Sqlite.seq := 3 |};
              Sqlite.libros := {| Sqlite.rows := {[ 1%Z := b ]}; Sqlite.seq := 1 |} |} in
  ∃ w', Ej3a1.actualizar_libro 1 (Some "x', anio = '0") None (Sqlite.clean d)
        = (Ok PyNone, w')
        ∧ Sqlite.rows (Sqlite.libros (Sqlite.current w')) !! 1%Z
          = Some {| Sqlite.titulo := "x"; Sqlite.anio := Sqlite.VInt 0;
                    Sqlite.autor_id := Sqlite.VInt 3 |}.
Proof.
  cbn zeta. eexists. split; [vm_compute; reflexivity|]. vm_compute. reflexivity.
Qed.

(** A row after an [UPDATE]. *)
Lemma run_update_lookup (u : Sqlite.update_stmt) (t : Sqlite.table Sqlite.libro) (k : Z) :
  Sqlite.rows (Sqlite.run_update u t).1 !! k
  = (λ b, if Sqlite.id_matches (Sqlite.where_id u) k
          then foldl Sqlite.assign b (Sqlite.assignments u) else b)
    <$> Sqlite.rows t !! k.
Proof.
  cbn. rewrite map_lookup_imap. destruct (Sqlite.rows t !! k); reflexivity.
Qed.

Lemma id_matches_str_of_int (i k : Z) :
  Sqlite.id_matches (Some (str_of_int i)) k = bool_decide (i = k).
Proof.
  cbn. rewrite int_of_text_str_of_int.
  apply bool_decide_ext. split; congruence.
Qed.

(** The fields of a row after [actualizar_libro]: what was passed, and
    the row's own value where nothing was. *)
Lemma foldl_assign_asignaciones (b : Sqlite.libro) (t : option string) (y : option Z) :
  foldl Sqlite.assign b (Ej3a1.asignaciones t y)
  = {| Sqlite.titulo := default (Sqlite.titulo b) t;
       Sqlite.anio := from_option Sqlite.VInt (Sqlite.anio b) y;
       Sqlite.autor_id := Sqlite.autor_id b |}.
Proof.
  destruct b as [bt ba bi], t as [s|], y as [z|]; cbn;
    rewrite ?int_of_text_str_of_int; reflexivity.
Qed.

(** What [actualizar_libro] of the SQL variant does on a connection with
    nothing pending, when a title passed is plain text, a year passed is
    within sixty-four bits, and at least one field is passed. *)
Lemma actualizar_libro_sql_run (d : Sqlite.database) (i : Z)
    (t : option string) (y : option Z) :
  (∀ s, t = Some s → Sqlite.plain s = true) →
  (∀ z, y = Some z → int64 z = true) →
  (is_Some t ∨ is_Some y) →
  ∃ d', Ej3a1.actualizar_libro i t y (Sqlite.clean d) = (Ok PyNone, Sqlite.clean d')
        ∧ Sqlite.autores d' = Sqlite.autores d
        ∧ ∀ k, Sqlite.rows (Sqlite.libros d') !! k
               = (λ b, if bool_decide (i = k)
                       then {| Sqlite.titulo := default (Sqlite.titulo b) t;
                               Sqlite.anio := from_option Sqlite.VInt (Sqlite.anio b) y;
                               Sqlite.autor_id := Sqlite.autor_id b |}
                       else b)
                 <$> Sqlite.rows (Sqlite.libros d) !! k.
Proof.
  intros Ht _ Hsome. unfold Ej3a1.actualizar_libro, Sqlite.execute_update.
  rewrite (parse_consulta_actualizar i t y Ht Hsome).
  exists {| Sqlite.autores := Sqlite.autores d;
            Sqlite.libros :=
              (Sqlite.run_update
                 {| Sqlite.assignments := Ej3a1.asignaciones t y;
                    Sqlite.where_id := Some (str_of_int i) |}
                 (Sqlite.libros d)).1 |}.
  split; [reflexivity|]. split; [reflexivity|].
  intros k. cbn [Sqlite.libros].
  rewrite run_update_lookup. cbn [Sqlite.where_id Sqlite.assignments].
  rewrite id_matches_str_of_int.
  destruct (Sqlite.rows (Sqlite.libros d) !! k) as [b|]; [|reflexivity].
  cbn. now rewrite foldl_assign_asignaciones.
Qed.

(** What [PUT /books/<id>] does to a book that is there, when the body
    does not ask for a [null] title and the year, if it has one, is
    within sixty-four bits. *)
Lemma update_book_run (st : Ej3b2.store) (i : Z) (b : Ej3b2.Book) (data : Ej3b2.body) :
  Ej3b2.books st !! i = Some b →
  Ej3b2.j_title data ≠ Ej3b2.Null →
  Ej3b2.year_bindable (Ej3b2.j_year data) = true →
  let b' := {| Ej3b2.title := match Ej3b2.j_title data with
                              | Ej3b2.Val t => t
                              | _ => Ej3b2.title b
                              end;
               Ej3b2.year := match Ej3b2.j_year data with
                             | Ej3b2.Absent => Ej3b2.year b
                             | Ej3b2.Null => None
                             | Ej3b2.Val y => Some y
                             end;
               Ej3b2.author_id := Ej3b2.author_id b |} in
  Ej3b2.handle (Ej3b2.PUT_book i data) st
  = ({| Ej3b2.status := 200;
        Ej3b2.content := Ej3b2.Json (Ej3b2.JObj (Ej3b2.book_to_dict i b')) |},
     {| Ej3b2.authors := Ej3b2.authors st;
        Ej3b2.books := <[i := b']> (Ej3b2.books st) |}).
Proof.
  intros Hb Ht Hy. cbn. unfold Ej3b2.update_book. rewrite Hb, Hy.
  destruct (Ej3b2.j_title data); [reflexivity|contradiction|reflexivity].
Qed.

(** C5, as the code has it. An update touches the one book it names and,
    of that book, the fields it was given; [author_id] is never touched.
    The [id] and a year given are integers within sixty-four bits, the
    [id] of a path none below zero. In the SQL variant
    a field is given when it is not [None] (and the title, if given, has
    neither a quote nor a NUL in it): with the year alone the title
    stays. In the HTTP variant a field is given when the body has the
    member, whatever its value: a member that is absent leaves the field
    alone, a [null] year clears the year. *)
Theorem update_changes_supplied_fields :
  (∀ (d : Sqlite.database) (i : Z) (t : option string) (y : option Z),
     int64 i = true →
     (∀ s, t = Some s → Sqlite.plain s = true) →
     (∀ z, y = Some z → int64 z = true) →
     (is_Some t ∨ is_Some y) →
     ∃ d', Ej3a1.actualizar_libro i t y (Sqlite.clean d)
           = (Ok PyNone, Sqlite.clean d')
           ∧ Sqlite.autores d' = Sqlite.autores d
           ∧ (∀ k, k ≠ i →
                Sqlite.rows (Sqlite.libros d') !! k
                = Sqlite.rows (Sqlite.libros d) !! k)
           ∧ (∀ b, Sqlite.rows (Sqlite.libros d) !! i = Some b →
                Sqlite.rows (Sqlite.libros d') !! i
                = Some {| Sqlite.titulo := default (Sqlite.titulo b) t;
                          Sqlite.anio := from_option Sqlite.VInt (Sqlite.anio b) y;
                          Sqlite.autor_id := Sqlite.autor_id b |}))
  ∧ (∀ (st : Ej3b2.store) (i : Z) (b : Ej3b2.Book) (data : Ej3b2.body),
       Ej3b2.books st !! i = Some b →
       (0 ≤ i < 9223372036854775808)%Z →
       Ej3b2.j_title data ≠ Ej3b2.Null →
       (∀ y, Ej3b2.j_year data = Ej3b2.Val y → int64 y = true) →
       let st' := (Ej3b2.handle (Ej3b2.PUT_book i data) st).2 in
       Ej3b2.authors st' = Ej3b2.authors st
       ∧ (∀ k, k ≠ i → Ej3b2.books st' !! k = Ej3b2.books st !! k)
       ∧ Ej3b2.books st' !! i
         = Some {| Ej3b2.title := match Ej3b2.j_title data with
                                  | Ej3b2.Val t => t
                                  | _ => Ej3b2.title b
                                  end;
                   Ej3b2.year := match Ej3b2.j_year data with
                                 | Ej3b2.Absent => Ej3b2.year b
                                 | Ej3b2.Null => None
                                 | Ej3b2.Val y => Some y
                                 end;
                   Ej3b2.author_id := Ej3b2.author_id b |}).
Proof.
  split.
  - intros d i t y _ Ht Hy Hsome.
    destruct (actualizar_libro_sql_run d i t y Ht Hy Hsome) as (d' & Hrun & Ha & Hlk).
    exists d'. split; [exact Hrun|]. split; [exact Ha|]. split.
    + intros k Hk. rewrite Hlk. rewrite bool_decide_eq_false_2 by congruence.
      destruct (Sqlite.rows (Sqlite.libros d) !! k); reflexivity.
    + intros b Hb. rewrite Hlk, Hb. cbn.
      rewrite bool_decide_eq_true_2 by reflexivity. reflexivity.
  - intros st i b data Hb _ Ht Hy. cbn zeta.
    assert (Hyb : Ej3b2.year_bindable (Ej3b2.j_year data) = true).
    { destruct (Ej3b2.j_year data) as [| |y] eqn:Hj; try reflexivity.
      exact (Hy y eq_refl). }
    rewrite (update_book_run st i b data Hb Ht Hyb).
    cbn [snd Ej3b2.authors Ej3b2.books].
    split; [reflexivity|]. split.
    + intros k Hk. now apply lookup_insert_ne.
    + apply lookup_insert_eq.
Qed.

(** C5 does not hold as stated: in the HTTP variant a year supplied as
    [null] is a change, the book loses its year. *)
Lemma update_book_null_year_clears :
  let b := {| Ej3b2.title := "T1"; Ej3b2.year := Some 1999%Z; Ej3b2.author_id := 1 |} in
  let st := {| Ej3b2.authors := {[ 1%Z := {| Ej3b2.name := "A" |} ]};
               Ej3b2.books := {[ 1%Z := b ]} |} in
  let data := {| Ej3b2.j_name := Ej3b2.Absent; Ej3b2.j_title := Ej3b2.Absent;
                 Ej3b2.j_year := Ej3b2.Null; Ej3b2.j_author_id := None |} in
  Ej3b2.year <$> Ej3b2.books st !! 1%Z = Some (Some 1999%Z)
  ∧ Ej3b2.year <$> Ej3b2.books (Ej3b2.handle (Ej3b2.PUT_book 1 data) st).2 !! 1%Z
    = Some None.
Proof. cbn zeta. split; vm_compute; reflexivity. Qed.

(** C2, as the document variant has it: with no field supplied,
    [actualizar_libro] answers [True] at once, without a word to the
    server and whatever the identifier is; nothing is raised and the world
    is the one it was given. *)
Theorem actualizar_libro_sin_campos_doc (id_libro : string) (w : Mongo.world) :
  Ej3a4.actualizar_libro id_libro None None w = (Ok (PyBool true), w).
Proof. reflexivity. Qed.

(** C2 does not hold as stated: in an empty collection no book has the
    identifier, and the call without fields still answers [True]. *)
Lemma actualizar_libro_sin_campos_absent_true :
  let d := {| Mongo.autores := ∅; Mongo.libros := ∅ |} in
  let id_libro := "000000000000000000000001" in
  Mongo.ObjectId id_libro = Ok 1%N
  ∧ Mongo.libros d !! 1%N = None
  ∧ ¬ (fst (Ej3a4.actualizar_libro id_libro None None (Mongo.healthy d))
       = Ok (PyBool true) ↔ is_Some (Mongo.libros d !! 1%N)).
Proof.
  cbn zeta. split; [reflexivity|]. split; [reflexivity|].
  intros [H _]. specialize (H eq_refl). destruct H as [b Hb].
  cbn in Hb. rewrite lookup_empty in Hb. discriminate.
Qed.

(** With no field supplied the text is [UPDATE libros SET ], which SQLite
    refuses as well: the SQL variant raises where the document variant
    answers [True]. *)
Lemma actualizar_libro_sin_campos_sql_raises (id_libro : Z) (w : Sqlite.world) :
  Ej3a1.actualizar_libro id_libro None None w = (Raise Sqlite3Error, w).
Proof. reflexivity. Qed.

Lemma apply_set_same (b : Mongo.libro) :
  Mongo.apply_set
    {| Mongo.set_titulo := Some (Mongo.titulo b); Mongo.set_anio := Mongo.anio b |} b
  = b.
Proof. destruct b as [t [y|] a]; reflexivity. Qed.

(** C10. In the document variant, updating an existing book with the
    title and year it already has returns [False] and leaves the store as
    it was: the flag is [modified_count > 0], and nothing was modified. *)
Theorem actualizar_libro_same_values_false
    (d : Mongo.database) (id_libro : string) (o : Mongo.oid) (b : Mongo.libro) :
  Mongo.ObjectId id_libro = Ok o →
  Mongo.libros d !! o = Some b →
  Ej3a4.actualizar_libro id_libro (Some (Mongo.titulo b)) (Mongo.anio b)
    (Mongo.healthy d)
  = (Ok (PyBool false), Mongo.healthy d).
Proof.
  intros Hid Hb. unfold Ej3a4.actualizar_libro. cbn. rewrite Hid.
  unfold Mongo.update_one_libro. run. rewrite Hb, apply_set_same.
  rewrite decide_True by reflexivity. reflexivity.
Qed.

(** ** Deleting a book *)

Lemma size_delete_present `{Countable K} {V} (m : gmap K V) (i : K) :
  is_Some (m !! i) → S (size (delete i m)) = size m.
Proof.
  intros Hi. rewrite map_size_delete_Some by exact Hi.
  pose proof (map_size_ne_0_lookup_2 m i Hi). lia.
Qed.

(** What [eliminar_libro] of the SQL variant does on a connection with
    nothing pending, for an [id] within sixty-four bits: the row goes, the
    change is committed, and the function ends without a [return]. *)
Lemma eliminar_libro_sql_run (d : Sqlite.database) (id_libro : Z) :
  int64 id_libro = true →
  Ej3a1.eliminar_libro id_libro (Sqlite.clean d)
  = (Ok PyNone,
     Sqlite.clean
       {| Sqlite.autores := Sqlite.autores d;
          Sqlite.libros :=
            {| Sqlite.rows := delete id_libro (Sqlite.rows (Sqlite.libros d));
               Sqlite.seq := Sqlite.seq (Sqlite.libros d) |} |}).
Proof.
  intros Hid. unfold Ej3a1.eliminar_libro, Sqlite.delete_libro, Sqlite.dml_bound.
  rewrite Hid. reflexivity.
Qed.

(** For an [id] beyond, the parameter cannot be bound: [OverflowError],
    with no row touched and the transaction that the module had opened
    for the statement left open. *)
Lemma eliminar_libro_sql_overflow (d : Sqlite.database) (id_libro : Z) :
  int64 id_libro = false →
  Ej3a1.eliminar_libro id_libro (Sqlite.clean d)
  = (Raise OverflowError,
     {| Sqlite.committed := d; Sqlite.current := d;
        Sqlite.in_txn := true; Sqlite.plan := [] |}).
Proof.
  intros Hid. unfold Ej3a1.eliminar_libro, Sqlite.delete_libro, Sqlite.dml_bound.
  rewrite Hid. reflexivity.
Qed.

(** What [eliminar_libro] of the document variant does on a server that
    answers. *)
Lemma eliminar_libro_doc_run (d : Mongo.database) (id_libro : string) (o : Mongo.oid) :
  Mongo.ObjectId id_libro = Ok o →
  Ej3a4.eliminar_libro id_libro (Mongo.healthy d)
  = match Mongo.libros d !! o with
    | Some _ =>
        (Ok (PyBool true),
         Mongo.healthy {| Mongo.autores := Mongo.autores d;
                          Mongo.libros := delete o (Mongo.libros d) |})
    | None => (Ok (PyBool false), Mongo.healthy d)
    end.
Proof.
  intros Hid. unfold Ej3a4.eliminar_libro. rewrite Hid.
  unfold Mongo.delete_one_libro. run.
  destruct (Mongo.libros d !! o); reflexivity.
Qed.

(** C4, as the code has it. Deleting a book removes the record with that
    identity and no other: when there is none the collection is as it was,
    when there is one the count goes down by exactly one, and either way
    the identity names no book afterwards. The document variant returns
    whether a book was removed; the SQL variant returns nothing, and takes
    an [id] within sixty-four bits: for one beyond it raises
    [OverflowError] and removes nothing. *)
Theorem eliminar_libro_removes_one :
  (∀ (d : Sqlite.database) (id_libro : Z),
     int64 id_libro = true →
     ∃ d', Ej3a1.eliminar_libro id_libro (Sqlite.clean d)
           = (Ok PyNone, Sqlite.clean d')
           ∧ Sqlite.autores d' = Sqlite.autores d
           ∧ Sqlite.rows (Sqlite.libros d') !! id_libro = None
           ∧ (∀ k, k ≠ id_libro →
                Sqlite.rows (Sqlite.libros d') !! k
                = Sqlite.rows (Sqlite.libros d) !! k)
           ∧ (Sqlite.rows (Sqlite.libros d) !! id_libro = None →
                size (Sqlite.rows (Sqlite.libros d'))
                = size (Sqlite.rows (Sqlite.libros d)))
           ∧ (is_Some (Sqlite.rows (Sqlite.libros d) !! id_libro) →
                S (size (Sqlite.rows (Sqlite.libros d')))
                = size (Sqlite.rows (Sqlite.libros d))))
  ∧ (∀ (d : Sqlite.database) (id_libro : Z),
       int64 id_libro = false →
       Ej3a1.eliminar_libro id_libro (Sqlite.clean d)
       = (Raise OverflowError,
          {| Sqlite.committed := d; Sqlite.current := d;
             Sqlite.in_txn := true; Sqlite.plan := [] |}))
  ∧ (∀ (d : Mongo.database) (id_libro : string) (o : Mongo.oid),
       Mongo.ObjectId id_libro = Ok o →
       ∃ flag d', Ej3a4.eliminar_libro id_libro (Mongo.healthy d)
                  = (Ok (PyBool flag), Mongo.healthy d')
                  ∧ (flag = true ↔ is_Some (Mongo.libros d !! o))
                  ∧ Mongo.autores d' = Mongo.autores d
                  ∧ Mongo.libros d' !! o = None
                  ∧ (∀ k, k ≠ o → Mongo.libros d' !! k = Mongo.libros d !! k)
                  ∧ (Mongo.libros d !! o = None → d' = d)
                  ∧ (is_Some (Mongo.libros d !! o) →
                       S (size (Mongo.libros d')) = size (Mongo.libros d))).
Proof.
  split; [|split].
  - intros d i Hi. eexists. split; [apply eliminar_libro_sql_run, Hi|].
    cbn [Sqlite.libros Sqlite.autores Sqlite.rows].
    split; [reflexivity|]. split; [apply lookup_delete_eq|].
    split; [intros k Hk; now apply lookup_delete_ne|].
    split; [apply map_size_delete_None|apply size_delete_present].
  - exact eliminar_libro_sql_overflow.
  - intros d s o Hid. rewrite (eliminar_libro_doc_run d s o Hid).
    destruct (Mongo.libros d !! o) as [b|] eqn:Hb.
    + eexists true, _. split; [reflexivity|]. cbn [Mongo.libros Mongo.autores].
      split; [split; [eauto|reflexivity]|]. split; [reflexivity|].
      split; [apply lookup_delete_eq|].
      split; [intros k Hk; now apply lookup_delete_ne|].
      split; [discriminate|]. intros _. apply size_delete_present. eauto.
    + exists false, d. split; [reflexivity|].
      split; [split; [discriminate|intros [? [=]]]|]. split; [reflexivity|].
      split; [exact Hb|]. split; [reflexivity|]. split; [reflexivity|].
      intros [? [=]].
Qed.

(** C4 does not hold as stated: book 1 is there, the SQL variant deletes
    it, and what it returns is [None], which is no positive result. *)
Lemma eliminar_libro_sql_returns_none :
  let b := {| Sqlite.titulo := "El Aleph"; Sqlite.anio := Sqlite.VInt 1949;
              Sqlite.autor_id := Sqlite.VInt 3 |} in
  let d := {| Sqlite.autores := {| Sqlite.rows := ∅; Sqlite.seq := 3 |};
              Sqlite.libros := {| Sqlite.rows := {[ 1%Z := b ]}; Sqlite.seq := 1 |} |} in
  Sqlite.rows (Sqlite.libros d) !! 1%Z = Some b
  ∧ fst (Ej3a1.eliminar_libro 1 (Sqlite.clean d)) = Ok PyNone
  ∧ truthy PyNone = false.
Proof. cbn zeta. repeat split. Qed.

(** ** Grouped insertion *)

(** Deleting the books of an author to which no book refers removes
    nothing. *)
Lemma filter_autor_id_unreferenced (m : gmap N Mongo.libro) (a : Mongo.oid) :
  (∀ k b, m !! k = Some b → Mongo.autor_id b ≠ a) →
  filter (λ kb, Mongo.autor_id kb.2 ≠ a) m = m.
Proof. intros Href. apply map_filter_id. intros k b Hk. cbn. eapply Href, Hk. Qed.

(** The clean-up of [ejemplo_transaccion] after the author was stored
    under a new identifier, with the books stored so far all his: when
    neither delete fails, the database is the one before the call. *)
Lemma limpiar_restores (d : Mongo.database) (o : Mongo.oid) (a : Mongo.autor)
    (bs : gmap N Mongo.libro) (p : list bool) :
  Mongo.autores d !! o = None →
  (∀ k b, Mongo.libros d !! k = Some b → Mongo.autor_id b ≠ o) →
  filter (λ kb, Mongo.autor_id kb.2 ≠ o) bs = Mongo.libros d →
  faults p = 0%nat →
  ∃ p', Ej3a4.limpiar (Some o)
          {| Mongo.db := {| Mongo.autores := <[o := a]> (Mongo.autores d);
                            Mongo.libros := bs |};
             Mongo.plan := p |}
        = (Ok tt, {| Mongo.db := d; Mongo.plan := p' |}).
Proof.
  intros Hfresh Href Hbs Hp.
  rewrite faults_head_tail in Hp.
  destruct (default false (head p)) eqn:H1; [discriminate|]. cbn in Hp.
  rewrite faults_head_tail in Hp.
  destruct (default false (head (tail p))) eqn:H2; [discriminate|].
  exists (tail (tail p)). unfold Ej3a4.limpiar. run.
  rewrite delete_one_autor_run, H1. cbn [Mongo.autores Mongo.libros].
  rewrite lookup_insert_eq. rewrite delete_many_libros_run, H2.
  cbn [Mongo.autores Mongo.libros].
  rewrite delete_insert_id by exact Hfresh. rewrite Hbs.
  destruct d; reflexivity.
Qed.

(** The clean-up never raises. *)
Lemma limpiar_total (a : option Mongo.oid) (w : Mongo.world) :
  ∃ w', Ej3a4.limpiar a w = (Ok tt, w').
Proof.
  unfold Ej3a4.limpiar.
  match goal with |- context [Py.attempt ?m] => set (body := m) end.
  unfold mbind, M_bind, Py.bind, Py.attempt.
  destruct (body w) as [r w']. exists w'. reflexivity.
Qed.

(** [ejemplo_transaccion] of the document variant, for every database and
    every plan of failures: it returns a flag and never raises; the flag
    is [True] exactly when none of the three writes fails, and then the
    author and both books are stored under identifiers that were free;
    when it is [False] and the failed write is the only failure, the
    database is the one before the call. *)
Lemma ejemplo_transaccion_doc_run (d : Mongo.database) (p : list bool) :
  ∃ flag w',
    Ej3a4.ejemplo_transaccion {| Mongo.db := d; Mongo.plan := p |}
    = (Ok (PyBool flag), w')
    ∧ flag = negb (fault_in 3 p)
    ∧ (flag = true →
       ∃ o o1 o2,
         Mongo.autores d !! o = None ∧ Mongo.libros d !! o1 = None
         ∧ Mongo.libros d !! o2 = None ∧ o1 ≠ o2
         ∧ Mongo.db w'
           = {| Mongo.autores :=
                  <[o := {| Mongo.nombre := "J.R.R. Tolkien" |}]> (Mongo.autores d);
                Mongo.libros :=
                  <[o2 := {| Mongo.titulo := "El Señor de los Anillos";
                             Mongo.anio := Some 1954%Z; Mongo.autor_id := o |}]>
                    (<[o1 := {| Mongo.titulo := "El hobbit";
                                Mongo.anio := Some 1937%Z; Mongo.autor_id := o |}]>
                       (Mongo.libros d)) |})
    ∧ (flag = false → (faults p ≤ 1)%nat → Mongo.db w' = d).
Proof.
  destruct (new_oid_fresh d) as (Hfa & Hfl & Href).
  set (o := Mongo.new_oid d) in *.
  set (d1 := {| Mongo.autores := <[o := {| Mongo.nombre := "J.R.R. Tolkien" |}]> (Mongo.autores d);
                Mongo.libros := Mongo.libros d |}).
  destruct (new_oid_fresh d1) as (_ & Hfl1 & _). cbn [Mongo.libros d1] in Hfl1.
  set (o1 := Mongo.new_oid d1) in *.
  set (b1 := {| Mongo.titulo := "El hobbit"; Mongo.anio := Some 1937%Z;
                Mongo.autor_id := o |}).
  set (d2 := {| Mongo.autores := Mongo.autores d1;
                Mongo.libros := <[o1 := b1]> (Mongo.libros d1) |}).
  destruct (new_oid_fresh d2) as (_ & Hfl2 & _). cbn [Mongo.libros d2 d1] in Hfl2.
  set (o2 := Mongo.new_oid d2) in *.
  unfold Ej3a4.ejemplo_transaccion. run.
  rewrite insert_one_autor_run. fold o. fold d1.
  rewrite (fault_in_head_tail 2 p), (faults_head_tail p).
  destruct (default false (head p)) eqn:H1.
  { exists false. eexists. split; [reflexivity|]. split; [reflexivity|].
    split; [discriminate|]. reflexivity. }
  cbn [orb]. unfold Mongo.insert_many. run.
  rewrite insert_one_libro_run. fold o1. fold b1. fold d2.
  rewrite (fault_in_head_tail 1 (tail p)), (faults_head_tail (tail p)).
  destruct (default false (head (tail p))) eqn:H2.
  { match goal with |- context [Ej3a4.limpiar ?a ?w] =>
      destruct (limpiar_total a w) as [w' Hw] end.
    rewrite Hw. exists false, w'. split; [reflexivity|]. split; [reflexivity|].
    split; [discriminate|]. intros _ Hf.
    destruct (limpiar_restores d o {| Mongo.nombre := "J.R.R. Tolkien" |}
                (Mongo.libros d) (tail (tail p)) Hfa Href) as [p' Hp'].
    - now apply filter_autor_id_unreferenced.
    - lia.
    - unfold d1 in Hw. rewrite Hp' in Hw. now injection Hw as <-. }
  cbn [orb]. rewrite insert_one_libro_run. fold o2.
  rewrite (fault_in_head_tail 0 (tail (tail p))), (faults_head_tail (tail (tail p))).
  destruct (default false (head (tail (tail p)))) eqn:H3.
  { match goal with |- context [Ej3a4.limpiar ?a ?w] =>
      destruct (limpiar_total a w) as [w' Hw] end.
    rewrite Hw. exists false, w'. split; [reflexivity|]. split; [reflexivity|].
    split; [discriminate|]. intros _ Hf.
    destruct (limpiar_restores d o {| Mongo.nombre := "J.R.R. Tolkien" |}
                (<[o1 := b1]> (Mongo.libros d)) (tail (tail (tail p))) Hfa Href)
      as [p' Hp'].
    - rewrite map_filter_insert_False by (cbn; intros Hn; now apply Hn).
      rewrite delete_id by exact Hfl1.
      now apply filter_autor_id_unreferenced.
    - lia.
    - unfold d2, d1 in Hw. cbn [Mongo.autores Mongo.libros] in Hw.
      rewrite Hp' in Hw. now injection Hw as <-. }
  exists true. eexists. split; [reflexivity|]. split; [reflexivity|].
  split; [|discriminate]. intros _. exists o, o1, o2.
  split; [exact Hfa|]. split; [exact Hfl1|].
  destruct (decide (o1 = o2)) as [Heq|Hne].
  { rewrite <- Heq in Hfl2. rewrite lookup_insert_eq in Hfl2. discriminate. }
  rewrite lookup_insert_ne in Hfl2 by exact Hne.
  split; [exact Hfl2|]. split; [exact Hne|]. reflexivity.
Qed.

(** C3 does not hold as stated: the author is stored, the first book is
    refused, and then the delete of the clean-up is refused as well. The
    function returns [False], and the author stays in the collection. *)
Lemma ejemplo_transaccion_leaves_author :
  let d := {| Mongo.autores := ∅; Mongo.libros := ∅ |} in
  let w := {| Mongo.db := d; Mongo.plan := [false; true; true] |} in
  fst (Ej3a4.ejemplo_transaccion w) = Ok (PyBool false)
  ∧ Mongo.autores (Mongo.db (snd (Ej3a4.ejemplo_transaccion w))) !! 1%N
    = Some {| Mongo.nombre := "J.R.R. Tolkien" |}
  ∧ Mongo.autores d !! 1%N = None.
Proof. cbn zeta. repeat split; vm_compute; reflexivity. Qed.

(** [ejemplo_transaccion] of the SQL variant on a connection with nothing
    pending, for every database and every plan of failures: what is
    committed and what the connection sees afterwards are the same
    database, the one before the call when one of the four steps of the
    transaction failed (it was rolled back), and the one with both rows
    otherwise. The function returns [None], or raises when its closing
    SELECT fails. *)
Lemma ejemplo_transaccion_sql_run (d : Sqlite.database) (p : list bool) :
  ∃ r p',
    Ej3a1.ejemplo_transaccion
      {| Sqlite.committed := d; Sqlite.current := d;
         Sqlite.in_txn := false; Sqlite.plan := p |}
    = (r, {| Sqlite.committed := if fault_in 4 p then d else Ej3a1.con_tolkien d;
             Sqlite.current := if fault_in 4 p then d else Ej3a1.con_tolkien d;
             Sqlite.in_txn := false; Sqlite.plan := p' |})
    ∧ (r = Ok PyNone ∨ r = Raise Sqlite3Error).
Proof.
  unfold Ej3a1.ejemplo_transaccion, Ej3a1.con_tolkien, Sqlite.begin_transaction,
    Sqlite.insert_autor, Sqlite.insert_libro, Sqlite.commit, Sqlite.rollback,
    Sqlite.select_nombres, Sqlite.dml, Sqlite.dml_bound, Sqlite.set_in_txn,
    Sqlite.read_db, Sqlite.write_db.
  change (Sqlite.params_bindable ("El hobbit", Some 1937%Z, 4%Z)) with true.
  run.
  rewrite (fault_in_head_tail 3 p).
  sql_step H1.
  { sql_step H5; eexists _, _; (split; [reflexivity|]); auto. }
  rewrite (fault_in_head_tail 2 (tail p)). sql_step H2.
  { sql_step H5; eexists _, _; (split; [reflexivity|]); auto. }
  rewrite (fault_in_head_tail 1 (tail (tail p))). sql_step H3.
  { sql_step H5; eexists _, _; (split; [reflexivity|]); auto. }
  rewrite (fault_in_head_tail 0 (tail (tail (tail p)))). sql_step H4.
  { sql_step H5; eexists _, _; (split; [reflexivity|]); auto. }
  change (fault_in 0 (tail (tail (tail (tail p))))) with false.
  sql_step H5; eexists _, _; (split; [reflexivity|]); auto.
Qed.

(** [ejemplo_transaccion] of the SQL variant on a connection that has a
    transaction open, with changes of the caller pending in it: [BEGIN]
    is refused (or fails), nothing is inserted, and the [rollback] of the
    handler takes the pending changes away with the transaction. The
    connection is left on what was committed before the call. *)
Lemma ejemplo_transaccion_sql_pending (c d : Sqlite.database) (p : list bool) :
  ∃ r p',
    Ej3a1.ejemplo_transaccion
      {| Sqlite.committed := c; Sqlite.current := d;
         Sqlite.in_txn := true; Sqlite.plan := p |}
    = (r, {| Sqlite.committed := c; Sqlite.current := c;
             Sqlite.in_txn := false; Sqlite.plan := p' |})
    ∧ (r = Ok PyNone ∨ r = Raise Sqlite3Error).
Proof.
  unfold Ej3a1.ejemplo_transaccion, Sqlite.begin_transaction, Sqlite.rollback,
    Sqlite.select_nombres, Sqlite.set_in_txn, Sqlite.read_db.
  run.
  sql_step H1; (sql_step H5; eexists _, _; (split; [reflexivity|]); auto).
Qed.

(** C3, as the code has it. In the document variant [ejemplo_transaccion]
    never raises and returns a flag: [True] exactly when none of its three
    writes fails, and then the author and both books are stored; [False]
    otherwise, and then, if the failed write is the only failure, the
    deletes of the clean-up bring the database back to what it was before
    the call. In the SQL variant, on a connection with nothing pending, a
    failure of any of the four steps of the transaction is rolled back, so
    that the database is either the one before the call or the one with
    both rows; on a connection with a transaction open nothing is
    inserted, and the rollback leaves the connection on what was
    committed before the call. That variant returns no flag. *)
Theorem ejemplo_transaccion_all_or_nothing :
  (∀ (d : Mongo.database) (p : list bool),
     ∃ flag w',
       Ej3a4.ejemplo_transaccion {| Mongo.db := d; Mongo.plan := p |}
       = (Ok (PyBool flag), w')
       ∧ flag = negb (fault_in 3 p)
       ∧ (flag = true →
          ∃ o o1 o2,
            Mongo.autores d !! o = None ∧ Mongo.libros d !! o1 = None
            ∧ Mongo.libros d !! o2 = None ∧ o1 ≠ o2
            ∧ Mongo.db w'
              = {| Mongo.autores :=
                     <[o := {| Mongo.nombre := "J.R.R. Tolkien" |}]> (Mongo.autores d);
                   Mongo.libros :=
                     <[o2 := {| Mongo.titulo := "El Señor de los Anillos";
                                Mongo.anio := Some 1954%Z; Mongo.autor_id := o |}]>
                       (<[o1 := {| Mongo.titulo := "El hobbit";
                                   Mongo.anio := Some 1937%Z; Mongo.autor_id := o |}]>
                          (Mongo.libros d)) |})
       ∧ (flag = false → (faults p ≤ 1)%nat → Mongo.db w' = d))
  ∧ (∀ (d : Sqlite.database) (p : list bool),
       ∃ r p',
         Ej3a1.ejemplo_transaccion
           {| Sqlite.committed := d; Sqlite.current := d;
              Sqlite.in_txn := false; Sqlite.plan := p |}
         = (r, {| Sqlite.committed := if fault_in 4 p then d else Ej3a1.con_tolkien d;
                  Sqlite.current := if fault_in 4 p then d else Ej3a1.con_tolkien d;
                  Sqlite.in_txn := false; Sqlite.plan := p' |})
         ∧ (r = Ok PyNone ∨ r = Raise Sqlite3Error))
  ∧ (∀ (c d : Sqlite.database) (p : list bool),
       ∃ r p',
         Ej3a1.ejemplo_transaccion
           {| Sqlite.committed := c; Sqlite.current := d;
              Sqlite.in_txn := true; Sqlite.plan := p |}
         = (r, {| Sqlite.committed := c; Sqlite.current := c;
                  Sqlite.in_txn := false; Sqlite.plan := p' |})
         ∧ (r = Ok PyNone ∨ r = Raise Sqlite3Error)).
Proof.
  split; [|split].
  - exact ejemplo_transaccion_doc_run.
  - exact ejemplo_transaccion_sql_run.
  - exact ejemplo_transaccion_sql_pending.
Qed.

(** ** The status codes of the API *)






(** ** The theorems at work on the small catalogues *)

Lemma actualizar_libro_same_values_false_witness :
  Mongo.ObjectId Muestra.id_el_aleph = Ok 3%N
  ∧ Mongo.libros Muestra.doc_biblioteca !! 3%N = Some Muestra.el_aleph
  ∧ Ej3a4.actualizar_libro Muestra.id_el_aleph (Some "El Aleph") (Some 1949%Z)
      (Mongo.healthy Muestra.doc_biblioteca)
    = (Ok (PyBool false), Mongo.healthy Muestra.doc_biblioteca).
Proof.
  split; [reflexivity|]. split; [reflexivity|].
  apply (actualizar_libro_same_values_false Muestra.doc_biblioteca
           Muestra.id_el_aleph 3%N Muestra.el_aleph); reflexivity.
Defined.

Lemma buscar_libros_por_autor_sql_empty_witness :
  Sqlite.rows (Sqlite.autores Muestra.sql_biblioteca) !! 2%Z
  = Some {| Sqlite.nombre := "Isabel Allende" |}
  ∧ Ej3a1.buscar_libros_por_autor "Isabel Allende" (Sqlite.clean Muestra.sql_biblioteca)
    = (Ok PyNone, Sqlite.clean Muestra.sql_biblioteca).
Proof.
  split; [reflexivity|].
  apply (buscar_libros_por_autor_sql_empty Muestra.sql_biblioteca "Isabel Allende").
  intros i a k b Hi Hn Hk Hb.
  assert (i = 2%Z) as ->.
  { cbn in Hi. apply lookup_insert_Some in Hi as [[<- <-]|[_ Hi]]; [discriminate|].
    apply lookup_insert_Some in Hi as [[<- _]|[_ Hi]]; [reflexivity|].
    apply lookup_insert_Some in Hi as [[<- <-]|[_ Hi]]; [discriminate|].
    rewrite lookup_empty in Hi. discriminate. }
  cbn in Hk.
  apply lookup_insert_Some in Hk as [[_ <-]|[_ Hk]]; [discriminate|].
  apply lookup_insert_Some in Hk as [[_ <-]|[_ Hk]]; [discriminate|].
  apply lookup_insert_Some in Hk as [[_ <-]|[_ Hk]]; [discriminate|].
  rewrite lookup_empty in Hk. discriminate.
Defined.


Lemma ejemplo_transaccion_all_or_nothing_witness :
  (∃ w', Ej3a4.ejemplo_transaccion
           {| Mongo.db := Muestra.doc_biblioteca; Mongo.plan := [false; true] |}
         = (Ok (PyBool false), w')
         ∧ Mongo.db w' = Muestra.doc_biblioteca)
  ∧ (∃ r p', Ej3a1.ejemplo_transaccion
               {| Sqlite.committed := Muestra.sql_biblioteca;
                  Sqlite.current := Muestra.sql_biblioteca;
                  Sqlite.in_txn := false; Sqlite.plan := [false; false; true] |}
             = (r, {| Sqlite.committed := Muestra.sql_biblioteca;
                      Sqlite.current := Muestra.sql_biblioteca;
                      Sqlite.in_txn := false; Sqlite.plan := p' |}))
  ∧ (∃ r p', Ej3a1.ejemplo_transaccion
               {| Sqlite.committed := Muestra.sql_vacia;
                  Sqlite.current := Muestra.sql_biblioteca;
                  Sqlite.in_txn := true; Sqlite.plan := [] |}
             = (r, {| Sqlite.committed := Muestra.sql_vacia;
                      Sqlite.current := Muestra.sql_vacia;
                      Sqlite.in_txn := false; Sqlite.plan := p' |})).
Proof.
  destruct ejemplo_transaccion_all_or_nothing as (Hdoc & Hsql & Hpending).
  split; [|split].
  - destruct (Hdoc Muestra.doc_biblioteca [false; true])
      as (flag & w' & Hrun & Hflag & _ & Hfalse).
    change (negb (fault_in 3 [false; true])) with false in Hflag. subst flag.
    exists w'. split; [exact Hrun|]. apply Hfalse; [reflexivity|].
    vm_compute. lia.
  - destruct (Hsql Muestra.sql_biblioteca [false; false; true])
      as (r & p' & Hrun & _).
    change (fault_in 4 [false; false; true]) with true in Hrun.
    exists r, p'. exact Hrun.
  - destruct (Hpending Muestra.sql_vacia Muestra.sql_biblioteca [])
      as (r & p' & Hrun & _).
    exists r, p'. exact Hrun.
Defined.

Lemma eliminar_libro_removes_one_witness :
  (∃ d', Ej3a1.eliminar_libro 6 (Sqlite.clean Muestra.sql_biblioteca)
         = (Ok PyNone, Sqlite.clean d')
         ∧ Sqlite.rows (Sqlite.libros d') !! 6%Z = None
         ∧ S (size (Sqlite.rows (Sqlite.libros d')))
           = size (Sqlite.rows (Sqlite.libros Muestra.sql_biblioteca)))
  ∧ Mongo.ObjectId Muestra.id_el_aleph = Ok 3%N
  ∧ (∃ d', Ej3a4.eliminar_libro Muestra.id_el_aleph
             (Mongo.healthy Muestra.doc_biblioteca)
           = (Ok (PyBool true), Mongo.healthy d')
           ∧ Mongo.libros d' !! 3%N = None
           ∧ S (size (Mongo.libros d')) = size (Mongo.libros Muestra.doc_biblioteca)).
Proof.
  destruct eliminar_libro_removes_one as (Hsql & _ & Hdoc). split; [|split].
  - destruct (Hsql Muestra.sql_biblioteca 6%Z eq_refl)
      as (d' & Hrun & _ & Hgone & _ & _ & Hsz).
    exists d'. split; [exact Hrun|]. split; [exact Hgone|].
    apply Hsz. eexists. reflexivity.
  - reflexivity.
  - destruct (Hdoc Muestra.doc_biblioteca Muestra.id_el_aleph 3%N eq_refl)
      as (flag & d' & Hrun & Hflag & _ & Hgone & _ & _ & Hsz).
    assert (Hthere : is_Some (Mongo.libros Muestra.doc_biblioteca !! 3%N))
      by (eexists; reflexivity).
    apply Hflag in Hthere as Ht. subst flag.
    exists d'. split; [exact Hrun|]. split; [exact Hgone|]. apply Hsz, Hthere.
Defined.

Lemma update_changes_supplied_fields_witness :
  (∃ d', Ej3a1.actualizar_libro 5 None (Some 2020%Z)
           (Sqlite.clean Muestra.sql_biblioteca)
         = (Ok PyNone, Sqlite.clean d')
         ∧ Sqlite.rows (Sqlite.libros d') !! 5%Z
           = Some {| Sqlite.titulo := "Ficciones"; Sqlite.anio := Sqlite.VInt 2020;
                     Sqlite.autor_id := Sqlite.VInt 3 |})
  ∧ Ej3b2.books (Ej3b2.handle (Ej3b2.PUT_book 1 (Muestra.body_year (Ej3b2.Val 2020%Z)))
                   Muestra.api_catalogo).2 !! 1%Z
    = Some {| Ej3b2.title := "T1"; Ej3b2.year := Some 2020%Z; Ej3b2.author_id := 1 |}.
Proof.
  destruct update_changes_supplied_fields as [Hsql Hapi]. split.
  - destruct (Hsql Muestra.sql_biblioteca 5%Z None (Some 2020%Z))
      as (d' & Hrun & _ & _ & Hrow).
    + reflexivity.
    + intros s Hs. discriminate Hs.
    + intros z [= <-]. reflexivity.
    + right. eexists. reflexivity.
    + exists d'. split; [exact Hrun|].
      apply (Hrow Muestra.ficciones). reflexivity.
  - destruct (Hapi Muestra.api_catalogo 1%Z Muestra.t1
                (Muestra.body_year (Ej3b2.Val 2020%Z)))
      as (_ & _ & Hrow);
      [reflexivity|lia|discriminate|intros y [= <-]; reflexivity|exact Hrow].
Defined.

Lemma insertar_autores_one_per_name_witness :
  (∃ d', Ej3a1.insertar_autores ["A"; "A"] (Sqlite.clean Muestra.sql_biblioteca)
         = (Ok PyNone, Sqlite.clean d')
         ∧ Sqlite.rows (Sqlite.autores d') !! 4%Z = Some {| Sqlite.nombre := "A" |}
         ∧ Sqlite.rows (Sqlite.autores d') !! 5%Z = Some {| Sqlite.nombre := "A" |})
  ∧ (∃ ids d', Ej3a4.insertar_autores ["A"; "A"] (Mongo.healthy Muestra.doc_biblioteca)
               = (Ok (PyList ((λ o, PyStr (Mongo.str_of_oid o)) <$> ids)),
                  Mongo.healthy d')
               ∧ length ids = 2%nat
               ∧ NoDup ids
               ∧ size (Mongo.autores d') = 4%nat).
Proof.
  destruct insertar_autores_one_per_name as [Hsql Hdoc]. split.
  - destruct (Hsql Muestra.sql_biblioteca ["A"; "A"])
      as (d' & Hrun & _ & _ & Hnew & _).
    exists d'. split; [exact Hrun|]. split.
    + exact (proj2 (Hnew 0%nat "A" eq_refl)).
    + exact (proj2 (Hnew 1%nat "A" eq_refl)).
  - destruct (Hdoc Muestra.doc_biblioteca ["A"; "A"])
      as (ids & d' & Hrun & _ & Hlen & Hnd & Hsz & _).
    + discriminate.
    + vm_compute. discriminate.
    + exists ids, d'. split; [exact Hrun|]. split; [exact Hlen|].
      split; [exact Hnd|]. exact Hsz.
Defined.

Lemma insertar_libros_unchecked_reference_witness :
  Sqlite.rows (Sqlite.autores Muestra.sql_biblioteca) !! 9%Z = None
  ∧ (∃ d', Ej3a1.insertar_libros [("Huérfano", None, 9%Z)]
             (Sqlite.clean Muestra.sql_biblioteca)
           = (Ok PyNone, Sqlite.clean d')
           ∧ Sqlite.rows (Sqlite.libros d') !! 7%Z
             = Some {| Sqlite.titulo := "Huérfano"; Sqlite.anio := Sqlite.VNull;
                       Sqlite.autor_id := Sqlite.VInt 9 |})
  ∧ Mongo.autores Muestra.doc_biblioteca !! 9%N = None
  ∧ (∃ ids d', Ej3a4.insertar_libros
                 [("Huérfano", None, Ej3a4.IdStr "000000000000000000000009")]
                 (Mongo.healthy Muestra.doc_biblioteca)
               = (Ok (PyList ((λ o, PyStr (Mongo.str_of_oid o)) <$> ids)),
                  Mongo.healthy d')
               ∧ size (Mongo.libros d') = 2%nat)
  ∧ Ej3b2.handle (Ej3b2.POST_books (Muestra.body_libro_t2 9)) Muestra.api_catalogo
    = (Ej3b2.not_found, Muestra.api_catalogo).
Proof.
  destruct insertar_libros_unchecked_reference as (Hsql & Hdoc & Hapi).
  split; [reflexivity|]. split; [|split; [reflexivity|split]].
  - destruct (Hsql Muestra.sql_biblioteca [("Huérfano", None, 9%Z)])
      as (d' & Hrun & _ & _ & Hnew).
    + repeat constructor.
    + exists d'. split; [exact Hrun|].
      exact (proj2 (Hnew 0%nat "Huérfano" None 9%Z eq_refl)).
  - destruct (Hdoc Muestra.doc_biblioteca
                [("Huérfano", None, Ej3a4.IdStr "000000000000000000000009")]
                [{| Mongo.titulo := "Huérfano"; Mongo.anio := None;
                    Mongo.autor_id := 9%N |}])
      as (ids & d' & Hrun & _ & _ & Hsz & _);
      [discriminate|reflexivity|repeat constructor|].
    exists ids, d'. split; [exact Hrun|exact Hsz].
  - exact (proj1 (Hapi Muestra.api_catalogo (Muestra.body_libro_t2 9) 9%Z
                    eq_refl eq_refl eq_refl)).
Defined.

(** ** The API: what the requests keep and undo *)

(** X1. Every book of the API refers to an author that is there, and no
    request breaks this: [POST /books] looks the author up before it
    stores the book, [PUT /books/<id>] never assigns [author_id], and no
    route removes an author. *)
Theorem handle_keeps_references (r : Ej3b2.request) (st : Ej3b2.store) :
  (∀ i b, Ej3b2.books st !! i = Some b
          → is_Some (Ej3b2.authors st !! Ej3b2.author_id b)) →
  ∀ i b, Ej3b2.books (Ej3b2.handle r st).2 !! i = Some b
         → is_Some (Ej3b2.authors (Ej3b2.handle r st).2 !! Ej3b2.author_id b).
Proof.
  intros Hst i b. destruct r as [|data|a| |data|k|k|k data]; cbn.
  - apply Hst.
  - unfold Ej3b2.add_author. destruct (Ej3b2.j_name data); cbn; try apply Hst.
    intros Hb. apply lookup_insert_is_Some'. right. eapply Hst, Hb.
  - unfold Ej3b2.get_author. destruct (Ej3b2.authors st !! a); apply Hst.
  - apply Hst.
  - unfold Ej3b2.add_book.
    destruct (Ej3b2.j_author_id data) as [a|]; [|apply Hst].
    destruct (Ej3b2.authors st !! a) as [x|] eqn:Ha; [|apply Hst].
    destruct (Ej3b2.j_title data); cbn; try apply Hst.
    destruct (Ej3b2.year_bindable (Ej3b2.j_year data)); cbn; [|apply Hst].
    intros Hb. apply lookup_insert_Some in Hb as [[_ <-]|[_ Hb]].
    + cbn. rewrite Ha. eexists; reflexivity.
    + eapply Hst, Hb.
  - unfold Ej3b2.get_book. destruct (Ej3b2.books st !! k); apply Hst.
  - unfold Ej3b2.delete_book. destruct (Ej3b2.books st !! k); cbn; [|apply Hst].
    destruct (Ej3b2.path_bindable k); cbn; [|apply Hst].
    intros Hb. apply lookup_delete_Some in Hb as [_ Hb]. eapply Hst, Hb.
  - unfold Ej3b2.update_book. destruct (Ej3b2.books st !! k) as [b0|] eqn:Hk; [|apply Hst].
    destruct (Ej3b2.j_title data); cbn; try apply Hst;
      (destruct (Ej3b2.year_bindable (Ej3b2.j_year data)); cbn; [|apply Hst]);
      (intros Hb; apply lookup_insert_Some in Hb as [[_ <-]|[_ Hb]];
       [cbn; eapply Hst, Hk | eapply Hst, Hb]).
Qed.

Lemma handle_keeps_references_witness :
  Ej3b2.books (Ej3b2.handle (Ej3b2.POST_books (Muestra.body_libro_t2 1))
                 Muestra.api_catalogo).2 !! 1%Z = Some Muestra.t1
  ∧ is_Some (Ej3b2.authors
               (Ej3b2.handle (Ej3b2.POST_books (Muestra.body_libro_t2 1))
                  Muestra.api_catalogo).2 !! Ej3b2.author_id Muestra.t1).
Proof.
  split; [reflexivity|].
  apply (handle_keeps_references (Ej3b2.POST_books (Muestra.body_libro_t2 1))
           Muestra.api_catalogo) with (i := 1%Z); [|reflexivity].
  intros i b Hb. cbn in Hb.
  apply lookup_insert_Some in Hb as [[_ <-]|[_ Hb]].
  - eexists; reflexivity.
  - rewrite lookup_empty in Hb. discriminate.
Defined.

(** X2. No request removes an author or changes one: an author that is
    there before a request is there, with the same name, after it. *)
Theorem handle_keeps_authors (r : Ej3b2.request) (st : Ej3b2.store)
    (a : Z) (x : Ej3b2.Author) :
  Ej3b2.authors st !! a = Some x →
  Ej3b2.authors (Ej3b2.handle r st).2 !! a = Some x.
Proof.
  intros Ha. destruct r as [|data|k| |data|k|k|k data]; cbn; try exact Ha.
  - unfold Ej3b2.add_author. destruct (Ej3b2.j_name data); cbn; try exact Ha.
    rewrite lookup_insert_ne; [exact Ha|].
    intros <-. rewrite new_id_fresh in Ha. discriminate.
  - unfold Ej3b2.get_author. destruct (Ej3b2.authors st !! k); exact Ha.
  - unfold Ej3b2.add_book.
    destruct (Ej3b2.j_author_id data) as [a'|]; [|exact Ha].
    destruct (Ej3b2.authors st !! a'); [|exact Ha].
    destruct (Ej3b2.j_title data); try exact Ha.
    destruct (Ej3b2.year_bindable (Ej3b2.j_year data)); exact Ha.
  - unfold Ej3b2.get_book. destruct (Ej3b2.books st !! k); exact Ha.
  - unfold Ej3b2.delete_book. destruct (Ej3b2.books st !! k); [|exact Ha].
    destruct (Ej3b2.path_bindable k); exact Ha.
  - unfold Ej3b2.update_book. destruct (Ej3b2.books st !! k); [|exact Ha].
    destruct (Ej3b2.j_title data); try exact Ha;
      destruct (Ej3b2.year_bindable (Ej3b2.j_year data)); exact Ha.
Qed.

Lemma handle_keeps_authors_witness :
  Ej3b2.authors (Ej3b2.handle (Ej3b2.POST_authors Muestra.body_autor_b)
                   Muestra.api_catalogo).2 !! 1%Z
  = Some {| Ej3b2.name := "A" |}.
Proof.
  apply (handle_keeps_authors (Ej3b2.POST_authors Muestra.body_autor_b)
           Muestra.api_catalogo 1%Z {| Ej3b2.name := "A" |}).
  reflexivity.
Defined.

(** X3. A request answered with an error status, whatever its route, has
    changed nothing; nor has any GET. *)
Theorem handle_error_or_get_changes_nothing (r : Ej3b2.request) (st : Ej3b2.store) :
  (400 ≤ Ej3b2.status (Ej3b2.handle r st).1)%Z
  ∨ r = Ej3b2.GET_authors ∨ r = Ej3b2.GET_books
  ∨ (∃ i, r = Ej3b2.GET_author i) ∨ (∃ i, r = Ej3b2.GET_book i) →
  (Ej3b2.handle r st).2 = st.
Proof.
  intros [Hs|[->|[->|[[i ->]|[i ->]]]]]; cbn; try reflexivity.
  - destruct r as [|data|k| |data|k|k|k data]; cbn in *; try reflexivity.
    + unfold Ej3b2.add_author in *. destruct (Ej3b2.j_name data); cbn in *;
        first [reflexivity | lia].
    + unfold Ej3b2.get_author. destruct (Ej3b2.authors st !! k); reflexivity.
    + unfold Ej3b2.add_book in *.
      destruct (Ej3b2.j_author_id data) as [a|]; [|reflexivity].
      destruct (Ej3b2.authors st !! a); [|reflexivity].
      destruct (Ej3b2.j_title data); try reflexivity.
      destruct (Ej3b2.year_bindable (Ej3b2.j_year data)); cbn in *;
        first [reflexivity | lia].
    + unfold Ej3b2.get_book. destruct (Ej3b2.books st !! k); reflexivity.
    + unfold Ej3b2.delete_book in *. destruct (Ej3b2.books st !! k); [|reflexivity].
      destruct (Ej3b2.path_bindable k); cbn in *; first [reflexivity | lia].
    + unfold Ej3b2.update_book in *. destruct (Ej3b2.books st !! k); [|reflexivity].
      destruct (Ej3b2.j_title data); try reflexivity;
        destruct (Ej3b2.year_bindable (Ej3b2.j_year data)); cbn in *;
        first [reflexivity | lia].
  - unfold Ej3b2.get_author. destruct (Ej3b2.authors st !! i); reflexivity.
  - unfold Ej3b2.get_book. destruct (Ej3b2.books st !! i); reflexivity.
Qed.

Lemma handle_error_or_get_changes_nothing_witness :
  (Ej3b2.handle (Ej3b2.PUT_book 1 {| Ej3b2.j_name := Ej3b2.Absent;
                                     Ej3b2.j_title := Ej3b2.Null;
                                     Ej3b2.j_year := Ej3b2.Val 2020%Z;
                                     Ej3b2.j_author_id := None |})
     Muestra.api_catalogo).2 = Muestra.api_catalogo.
Proof.
  apply handle_error_or_get_changes_nothing. left. vm_compute. discriminate.
Defined.

(** X4. A book created by [POST /books] can be read back: [GET /books/<id>]
    at the [id] of the answer gives 200 with the very JSON the POST gave,
    that [id] was free before, and the book at every other [id] reads as
    it did. *)
Theorem post_book_then_get (data : Ej3b2.body) (st : Ej3b2.store) :
  Ej3b2.status (Ej3b2.handle (Ej3b2.POST_books data) st).1 = 201%Z →
  ∃ i, Ej3b2.books st !! i = None
       ∧ Ej3b2.handle (Ej3b2.GET_book i) (Ej3b2.handle (Ej3b2.POST_books data) st).2
         = ({| Ej3b2.status := 200;
               Ej3b2.content := Ej3b2.content (Ej3b2.handle (Ej3b2.POST_books data) st).1 |},
            (Ej3b2.handle (Ej3b2.POST_books data) st).2)
       ∧ ∀ k, k ≠ i →
              (Ej3b2.handle (Ej3b2.GET_book k)
                 (Ej3b2.handle (Ej3b2.POST_books data) st).2).1
              = (Ej3b2.handle (Ej3b2.GET_book k) st).1.
Proof.
  cbn. unfold Ej3b2.add_book.
  destruct (Ej3b2.j_author_id data) as [a|]; [|discriminate].
  destruct (Ej3b2.authors st !! a);
    [|unfold Ej3b2.no_row; destruct (int64 a); discriminate].
  destruct (Ej3b2.j_title data) as [| |t]; try discriminate.
  destruct (Ej3b2.year_bindable (Ej3b2.j_year data)); [|discriminate].
  intros _. exists (Ej3b2.new_id (Ej3b2.books st)).
  split; [apply new_id_fresh|]. cbn. unfold Ej3b2.get_book. cbn. split.
  - now rewrite lookup_insert_eq.
  - intros k Hk. rewrite lookup_insert_ne by congruence.
    destruct (Ej3b2.books st !! k); reflexivity.
Qed.

Lemma post_book_then_get_witness :
  ∃ i, Ej3b2.books Muestra.api_catalogo !! i = None
       ∧ Ej3b2.handle (Ej3b2.GET_book i)
           (Ej3b2.handle (Ej3b2.POST_books (Muestra.body_libro_t2 1))
              Muestra.api_catalogo).2
         = ({| Ej3b2.status := 200;
               Ej3b2.content :=
                 Ej3b2.content (Ej3b2.handle (Ej3b2.POST_books (Muestra.body_libro_t2 1))
                                  Muestra.api_catalogo).1 |},
            (Ej3b2.handle (Ej3b2.POST_books (Muestra.body_libro_t2 1))
               Muestra.api_catalogo).2).
Proof.
  destruct (post_book_then_get (Muestra.body_libro_t2 1) Muestra.api_catalogo)
    as (i & Hfree & Hget & _); [reflexivity|].
  exists i. split; [exact Hfree|exact Hget].
Defined.

(** X5. An author created by [POST /authors] can be read back at the [id]
    of the answer, and, in a store whose books all refer to authors that
    are there, [GET /authors/<id>] shows the new author with an empty list
    of books. *)
Theorem post_author_then_get (data : Ej3b2.body) (st : Ej3b2.store) :
  (∀ i b, Ej3b2.books st !! i = Some b
          → is_Some (Ej3b2.authors st !! Ej3b2.author_id b)) →
  Ej3b2.status (Ej3b2.handle (Ej3b2.POST_authors data) st).1 = 201%Z →
  ∃ i n, Ej3b2.j_name data = Ej3b2.Val n
         ∧ Ej3b2.authors st !! i = None
         ∧ Ej3b2.content (Ej3b2.handle (Ej3b2.POST_authors data) st).1
           = Ej3b2.Json (Ej3b2.JObj [("id", Ej3b2.JInt i); ("name", Ej3b2.JStr n)])
         ∧ Ej3b2.handle (Ej3b2.GET_author i)
             (Ej3b2.handle (Ej3b2.POST_authors data) st).2
           = ({| Ej3b2.status := 200;
                 Ej3b2.content :=
                   Ej3b2.Json (Ej3b2.JObj [("id", Ej3b2.JInt i); ("name", Ej3b2.JStr n);
                                           ("books", Ej3b2.JArr [])]) |},
              (Ej3b2.handle (Ej3b2.POST_authors data) st).2).
Proof.
  intros Hst. cbn. unfold Ej3b2.add_author.
  destruct (Ej3b2.j_name data) as [| |n]; try discriminate.
  intros _. exists (Ej3b2.new_id (Ej3b2.authors st)), n.
  split; [reflexivity|]. split; [apply new_id_fresh|]. split; [reflexivity|].
  cbn. unfold Ej3b2.get_author. cbn. rewrite lookup_insert_eq.
  rewrite filter_none; [reflexivity|].
  intros [k b] Hkb Hb. cbn in Hb.
  apply elem_of_map_to_list in Hkb.
  destruct (Hst k b Hkb) as [x Hx].
  rewrite Hb, new_id_fresh in Hx. discriminate.
Qed.

Lemma post_author_then_get_witness :
  ∃ i, Ej3b2.handle (Ej3b2.GET_author i)
         (Ej3b2.handle (Ej3b2.POST_authors Muestra.body_autor_b)
            Muestra.api_catalogo).2
       = ({| Ej3b2.status := 200;
             Ej3b2.content :=
               Ej3b2.Json (Ej3b2.JObj [("id", Ej3b2.JInt i); ("name", Ej3b2.JStr "B");
                                       ("books", Ej3b2.JArr [])]) |},
          (Ej3b2.handle (Ej3b2.POST_authors Muestra.body_autor_b)
             Muestra.api_catalogo).2).
Proof.
  destruct (post_author_then_get Muestra.body_autor_b Muestra.api_catalogo)
    as (i & n & Hn & _ & _ & Hget).
  - intros i b Hb. cbn in Hb.
    apply lookup_insert_Some in Hb as [[_ <-]|[_ Hb]].
    + eexists; reflexivity.
    + rewrite lookup_empty in Hb. discriminate.
  - reflexivity.
  - exists i. injection Hn as <-. exact Hget.
Defined.

(** X6. After [DELETE /books/<id>] has answered 204 the book is gone for
    every route: GET, PUT and a second DELETE of that [id] answer 404 and
    change nothing, the other books read as before, and the authors are
    left as they were. *)
Theorem delete_book_then_gone (i : Z) (st : Ej3b2.store) :
  Ej3b2.status (Ej3b2.handle (Ej3b2.DELETE_book i) st).1 = 204%Z →
  let st' := (Ej3b2.handle (Ej3b2.DELETE_book i) st).2 in
  Ej3b2.handle (Ej3b2.GET_book i) st' = (Ej3b2.not_found, st')
  ∧ Ej3b2.handle (Ej3b2.DELETE_book i) st' = (Ej3b2.not_found, st')
  ∧ (∀ data, Ej3b2.handle (Ej3b2.PUT_book i data) st' = (Ej3b2.not_found, st'))
  ∧ (∀ k, k ≠ i → (Ej3b2.handle (Ej3b2.GET_book k) st').1
                  = (Ej3b2.handle (Ej3b2.GET_book k) st).1)
  ∧ Ej3b2.authors st' = Ej3b2.authors st.
Proof.
  intros Hs st'. subst st'. cbn in *.
  unfold Ej3b2.get_book, Ej3b2.delete_book, Ej3b2.update_book in *.
  destruct (Ej3b2.books st !! i) as [b|] eqn:Hb.
  - destruct (Ej3b2.path_bindable i) eqn:Hi; [|discriminate].
    cbn. rewrite lookup_delete_eq. cbn. repeat split.
    intros k Hk. rewrite lookup_delete_ne by congruence.
    destruct (Ej3b2.books st !! k); reflexivity.
  - destruct (Ej3b2.path_bindable i); discriminate.
Qed.

Lemma delete_book_then_gone_witness :
  Ej3b2.handle (Ej3b2.GET_book 1)
    (Ej3b2.handle (Ej3b2.DELETE_book 1) Muestra.api_catalogo).2
  = (Ej3b2.not_found, (Ej3b2.handle (Ej3b2.DELETE_book 1) Muestra.api_catalogo).2).
Proof.
  exact (proj1 (delete_book_then_gone 1 Muestra.api_catalogo eq_refl)).
Defined.

(** X7. [PUT /books/<id>] is idempotent: sending the same body a second
    time gives the same answer and leaves the store as the first request
    left it, whether the first was answered 200, 404 or 500. *)
Theorem put_book_idempotent (i : Z) (data : Ej3b2.body) (st : Ej3b2.store) :
  Ej3b2.handle (Ej3b2.PUT_book i data) (Ej3b2.handle (Ej3b2.PUT_book i data) st).2
  = Ej3b2.handle (Ej3b2.PUT_book i data) st.
Proof.
  cbn. unfold Ej3b2.update_book at 2.
  destruct (Ej3b2.books st !! i) as [b|] eqn:Hb.
  - destruct (Ej3b2.j_title data) as [| |t] eqn:Ht; cbn.
    + destruct (Ej3b2.year_bindable (Ej3b2.j_year data)) eqn:Hy; cbn.
      * unfold Ej3b2.update_book. cbn. rewrite lookup_insert_eq, Hb, Ht, Hy. cbn.
        rewrite insert_insert_eq.
        destruct (Ej3b2.j_year data); reflexivity.
      * unfold Ej3b2.update_book. rewrite Hb, Ht, Hy. reflexivity.
    + unfold Ej3b2.update_book. rewrite Hb, Ht. reflexivity.
    + destruct (Ej3b2.year_bindable (Ej3b2.j_year data)) eqn:Hy; cbn.
      * unfold Ej3b2.update_book. cbn. rewrite lookup_insert_eq, Hb, Ht, Hy. cbn.
        rewrite insert_insert_eq.
        destruct (Ej3b2.j_year data); reflexivity.
      * unfold Ej3b2.update_book. rewrite Hb, Ht, Hy. reflexivity.
  - cbn. unfold Ej3b2.update_book. rewrite Hb. reflexivity.
Qed.

(** The JSON of a book tells the book and its [id]; that of an author, the
    author and its [id]. *)
Lemma book_to_dict_inj (i k : Z) (b c : Ej3b2.Book) :
  Ej3b2.JObj (Ej3b2.book_to_dict i b) = Ej3b2.JObj (Ej3b2.book_to_dict k c) →
  i = k ∧ b = c.
Proof.
  destruct b as [t y a], c as [t' y' a']. unfold Ej3b2.book_to_dict. cbn.
  intros [= -> -> Hy ->]. split; [reflexivity|]. f_equal.
  destruct y, y'; cbn in Hy; congruence.
Qed.

Lemma author_to_dict_inj (i k : Z) (a c : Ej3b2.Author) :
  Ej3b2.JObj (Ej3b2.author_to_dict i a) = Ej3b2.JObj (Ej3b2.author_to_dict k c) →
  i = k ∧ a = c.
Proof.
  destruct a as [n], c as [n']. unfold Ej3b2.author_to_dict. cbn.
  intros [= -> ->]. split; reflexivity.
Qed.

Lemma NoDup_fmap_map_to_list {V B} (f : Z * V → B) (P : Z * V → Prop)
    `{∀ x, Decision (P x)} (m : gmap Z V) :
  (∀ x y, f x = f y → x = y) →
  NoDup (f <$> filter P (map_to_list m)).
Proof.
  intros Hf. apply NoDup_fmap_2_strong.
  - intros x y _ _. apply Hf.
  - apply NoDup_filter, NoDup_map_to_list.
Qed.

(** X8. [GET /authors/<id>] of an author that is there answers 200 with
    the author and, under ["books"], the books whose [author_id] is that
    [id]: each of them once, and no other. *)
Theorem get_author_lists_own_books (a : Z) (x : Ej3b2.Author) (st : Ej3b2.store) :
  Ej3b2.authors st !! a = Some x →
  ∃ l, Ej3b2.handle (Ej3b2.GET_author a) st
       = ({| Ej3b2.status := 200;
             Ej3b2.content :=
               Ej3b2.Json (Ej3b2.JObj [("id", Ej3b2.JInt a);
                                       ("name", Ej3b2.JStr (Ej3b2.name x));
                                       ("books", Ej3b2.JArr l)]) |}, st)
       ∧ NoDup l
       ∧ ∀ j, j ∈ l ↔ ∃ i b, Ej3b2.books st !! i = Some b
                             ∧ Ej3b2.author_id b = a
                             ∧ j = Ej3b2.JObj (Ej3b2.book_to_dict i b).
Proof.
  intros Ha. eexists. split; [|split].
  - cbn. unfold Ej3b2.get_author. rewrite Ha. reflexivity.
  - apply NoDup_fmap_map_to_list. intros [i b] [k c] Heq. cbn in Heq.
    apply book_to_dict_inj in Heq as [-> ->]. reflexivity.
  - intros j. rewrite list_elem_of_fmap. split.
    + intros ([i b] & -> & Hin). apply list_elem_of_filter in Hin as [Hb Hin].
      apply elem_of_map_to_list in Hin. exists i, b. auto.
    + intros (i & b & Hb & Hab & ->). exists (i, b). split; [reflexivity|].
      apply list_elem_of_filter. split; [exact Hab|].
      apply elem_of_map_to_list, Hb.
Qed.

Lemma get_author_lists_own_books_witness :
  ∃ l, Ej3b2.handle (Ej3b2.GET_author 1) Muestra.api_catalogo
       = ({| Ej3b2.status := 200;
             Ej3b2.content :=
               Ej3b2.Json (Ej3b2.JObj [("id", Ej3b2.JInt 1); ("name", Ej3b2.JStr "A");
                                       ("books", Ej3b2.JArr l)]) |},
          Muestra.api_catalogo)
       ∧ Ej3b2.JObj (Ej3b2.book_to_dict 1 Muestra.t1) ∈ l.
Proof.
  destruct (get_author_lists_own_books 1 {| Ej3b2.name := "A" |} Muestra.api_catalogo)
    as (l & Hrun & _ & Hl); [reflexivity|].
  exists l. split; [exact Hrun|].
  apply Hl. exists 1%Z, Muestra.t1. repeat split; reflexivity.
Defined.

(** X9. [GET /books] and [GET /authors] answer 200 with one JSON object
    per row of the table: as many as there are rows, no object twice, and
    an object is listed exactly when a row with that [id] and those values
    is there. *)
Theorem get_books_get_authors_list_every_row (st : Ej3b2.store) :
  (∃ l, Ej3b2.handle Ej3b2.GET_books st
        = ({| Ej3b2.status := 200; Ej3b2.content := Ej3b2.Json (Ej3b2.JArr l) |}, st)
        ∧ length l = size (Ej3b2.books st)
        ∧ NoDup l
        ∧ ∀ i b, Ej3b2.JObj (Ej3b2.book_to_dict i b) ∈ l ↔ Ej3b2.books st !! i = Some b)
  ∧ (∃ l, Ej3b2.handle Ej3b2.GET_authors st
          = ({| Ej3b2.status := 200; Ej3b2.content := Ej3b2.Json (Ej3b2.JArr l) |}, st)
          ∧ length l = size (Ej3b2.authors st)
          ∧ NoDup l
          ∧ ∀ i a, Ej3b2.JObj (Ej3b2.author_to_dict i a) ∈ l
                   ↔ Ej3b2.authors st !! i = Some a).
Proof.
  split; eexists; (split; [reflexivity|]); (split; [|split]).
  - now rewrite length_fmap, length_map_to_list.
  - apply NoDup_fmap_2_strong; [|apply NoDup_map_to_list].
    intros [i b] [k c] _ _ Heq. cbn in Heq.
    apply book_to_dict_inj in Heq as [-> ->]. reflexivity.
  - intros i b. rewrite list_elem_of_fmap. split.
    + intros ([k c] & Heq & Hin). cbn in Heq.
      apply book_to_dict_inj in Heq as [-> ->]. apply elem_of_map_to_list, Hin.
    + intros Hb. exists (i, b). split; [reflexivity|]. apply elem_of_map_to_list, Hb.
  - now rewrite length_fmap, length_map_to_list.
  - apply NoDup_fmap_2_strong; [|apply NoDup_map_to_list].
    intros [i b] [k c] _ _ Heq. cbn in Heq.
    apply author_to_dict_inj in Heq as [-> ->]. reflexivity.
  - intros i b. rewrite list_elem_of_fmap. split.
    + intros ([k c] & Heq & Hin). cbn in Heq.
      apply author_to_dict_inj in Heq as [-> ->]. apply elem_of_map_to_list, Hin.
    + intros Hb. exists (i, b). split; [reflexivity|]. apply elem_of_map_to_list, Hb.
Qed.

(** ** The document variant: identifiers, updates, searches *)

(** [ObjectId] of a string raises nothing but [InvalidId], and raises it
    for every string that is not twenty-four characters long. *)
Lemma ObjectId_raises (s : string) (e : exn) :
  Mongo.ObjectId s = Raise e → e = InvalidId.
Proof.
  unfold Mongo.ObjectId. destruct (String.length s =? 24)%nat; [|congruence].
  destruct (Mongo.hex_parse s 0); congruence.
Qed.

Lemma ObjectId_wrong_length (s : string) :
  String.length s ≠ 24%nat → Mongo.ObjectId s = Raise InvalidId.
Proof.
  intros Hs. unfold Mongo.ObjectId.
  destruct (Nat.eqb_spec (String.length s) 24); [contradiction|reflexivity].
Qed.

Lemma dict_libros_invalid (ls : list (string * option Z * Ej3a4.id_arg)) :
  ∀ k t y s, ls !! k = Some (t, y, Ej3a4.IdStr s) →
             Mongo.ObjectId s = Raise InvalidId →
             Ej3a4.dict_libros ls = Raise InvalidId.
Proof.
  induction ls as [|[[t0 y0] r0] ls IH]; intros k t y s Hk Hs; [discriminate|].
  cbn [Ej3a4.dict_libros]. destruct k as [|k].
  - injection Hk as -> -> ->. cbn. now rewrite Hs.
  - cbn in Hk. specialize (IH k t y s Hk Hs). rewrite IH.
    destruct (Ej3a4.oid_of_arg r0) as [a|e] eqn:Hr; [reflexivity|].
    destruct r0 as [s0|o0]; cbn in Hr; [|discriminate].
    now rewrite (ObjectId_raises _ _ Hr).
Qed.

(** X10. What [actualizar_libro] of the document variant returns when at
    least one field is supplied, the identifier is well formed and the
    year, if one is supplied, is within sixty-four bits: [True] exactly
    when the book is there and a supplied value differs from the stored
    one. The book then holds the supplied values, keeps its author, and
    nothing else in the database changes; a book that is not there gives
    [False] and leaves the database as it was. *)
Theorem actualizar_libro_doc_flag (d : Mongo.database) (id_libro : string)
    (o : Mongo.oid) (t : option string) (y : option Z) :
  Mongo.ObjectId id_libro = Ok o →
  (∀ z, y = Some z → int64 z = true) →
  is_Some t ∨ is_Some y →
  ∃ flag d',
    Ej3a4.actualizar_libro id_libro t y (Mongo.healthy d)
    = (Ok (PyBool flag), Mongo.healthy d')
    ∧ Mongo.autores d' = Mongo.autores d
    ∧ (flag = true ↔
       ∃ b, Mongo.libros d !! o = Some b
            ∧ ((∃ s, t = Some s ∧ s ≠ Mongo.titulo b)
               ∨ (∃ z, y = Some z ∧ Mongo.anio b ≠ Some z)))
    ∧ (∀ b, Mongo.libros d !! o = Some b →
            Mongo.libros d' !! o
            = Some {| Mongo.titulo := default (Mongo.titulo b) t;
                      Mongo.anio := match y with
                                    | Some z => Some z
                                    | None => Mongo.anio b
                                    end;
                      Mongo.autor_id := Mongo.autor_id b |})
    ∧ (Mongo.libros d !! o = None → d' = d)
    ∧ ∀ k, k ≠ o → Mongo.libros d' !! k = Mongo.libros d !! k.
Proof.
  intros Hid _ Hty. unfold Ej3a4.actualizar_libro.
  assert (Hne : Mongo.set_doc_empty {| Mongo.set_titulo := t; Mongo.set_anio := y |}
                = false).
  { destruct Hty as [[s ->]|[z ->]]; [reflexivity|]. destruct t; reflexivity. }
  rewrite Hne, Hid. unfold Mongo.update_one_libro. run.
  destruct (Mongo.libros d !! o) as [b|] eqn:Hb.
  - set (u := {| Mongo.set_titulo := t; Mongo.set_anio := y |}).
    destruct (decide (Mongo.apply_set u b = b)) as [Heq|Hdiff]; cbn.
    + exists false, d. split; [reflexivity|]. split; [reflexivity|].
      split; [|split; [|split; [discriminate|reflexivity]]].
      * split; [discriminate|].
        intros (b' & [= <-] & Hch). exfalso.
        destruct b as [bt by_ ba]. unfold Mongo.apply_set, u in Heq. cbn in *.
        injection Heq as Ht Hy.
        destruct Hch as [(s & -> & Hs)|(z & -> & Hz)]; cbn in *; congruence.
      * intros b' [= <-]. rewrite Hb. f_equal. symmetry. exact Heq.
    + eexists true, _. split; [reflexivity|]. cbn. split; [reflexivity|].
      split; [|split; [|split; [discriminate|]]].
      * split; [|reflexivity]. intros _. exists b. split; [reflexivity|].
        destruct b as [bt by_ ba]. unfold Mongo.apply_set, u in Hdiff. cbn in *.
        destruct t as [s|]; cbn in *.
        -- destruct (decide (s = bt)) as [->|Hs]; [|left; eauto].
           destruct y as [z|]; [|congruence].
           right. exists z. split; [reflexivity|]. congruence.
        -- destruct y as [z|]; [|congruence].
           right. exists z. split; [reflexivity|]. congruence.
      * intros b' [= <-]. now rewrite lookup_insert_eq.
      * intros k Hk. now rewrite lookup_insert_ne by congruence.
  - exists false, d. split; [reflexivity|]. split; [reflexivity|].
    split; [|split; [discriminate|split; reflexivity]].
    split; [discriminate|]. intros (b & Hb' & _). discriminate.
Qed.

Lemma actualizar_libro_doc_flag_witness :
  ∃ d', Ej3a4.actualizar_libro Muestra.id_el_aleph None (Some 1950%Z)
          (Mongo.healthy Muestra.doc_biblioteca)
        = (Ok (PyBool true), Mongo.healthy d')
        ∧ Mongo.libros d' !! 3%N
          = Some {| Mongo.titulo := "El Aleph"; Mongo.anio := Some 1950%Z;
                    Mongo.autor_id := 1%N |}.
Proof.
  destruct (actualizar_libro_doc_flag Muestra.doc_biblioteca Muestra.id_el_aleph
              3%N None (Some 1950%Z))
    as (flag & d' & Hrun & _ & Hflag & Hrow & _).
  - reflexivity.
  - intros z [= <-]. reflexivity.
  - right. eexists; reflexivity.
  - exists d'. split.
    + replace flag with true in Hrun; [exact Hrun|].
      symmetry. apply Hflag. exists Muestra.el_aleph. split; [reflexivity|].
      right. exists 1950%Z. split; [reflexivity|]. discriminate.
    + exact (Hrow Muestra.el_aleph eq_refl).
Defined.

(** X11. An identifier that is not twenty-four characters long makes
    [eliminar_libro], and [actualizar_libro] with a field to set, raise
    [InvalidId] before anything is sent to the server: the database and
    the connection are as they were. *)
Theorem malformed_id_raises (id_libro : string) (w : Mongo.world) :
  String.length id_libro ≠ 24%nat →
  Ej3a4.eliminar_libro id_libro w = (Raise InvalidId, w)
  ∧ ∀ t y, is_Some t ∨ is_Some y →
           Ej3a4.actualizar_libro id_libro t y w = (Raise InvalidId, w).
Proof.
  intros Hlen. apply ObjectId_wrong_length in Hlen. split.
  - unfold Ej3a4.eliminar_libro. now rewrite Hlen.
  - intros t y Hty. unfold Ej3a4.actualizar_libro. rewrite Hlen.
    destruct Hty as [[s ->]|[z ->]]; [reflexivity|]. destruct t; reflexivity.
Qed.

Lemma malformed_id_raises_witness :
  Ej3a4.eliminar_libro "3" (Mongo.healthy Muestra.doc_biblioteca)
  = (Raise InvalidId, Mongo.healthy Muestra.doc_biblioteca).
Proof.
  apply (malformed_id_raises "3" (Mongo.healthy Muestra.doc_biblioteca)).
  cbn. lia.
Defined.

(** X12. [insertar_libros] converts every author reference before it
    inserts anything: one reference given as a string that is not
    twenty-four characters long, at whatever place in the list, makes the
    call raise [InvalidId] with no book stored and no request sent. *)
Theorem insertar_libros_malformed_reference
    (ls : list (string * option Z * Ej3a4.id_arg)) (k : nat)
    (t : string) (y : option Z) (s : string) (w : Mongo.world) :
  ls !! k = Some (t, y, Ej3a4.IdStr s) →
  String.length s ≠ 24%nat →
  Ej3a4.insertar_libros ls w = (Raise InvalidId, w).
Proof.
  intros Hk Hs. unfold Ej3a4.insertar_libros.
  rewrite (dict_libros_invalid ls k t y s Hk (ObjectId_wrong_length s Hs)).
  reflexivity.
Qed.

Lemma insertar_libros_malformed_reference_witness :
  Ej3a4.insertar_libros
    [("Ficciones", Some 1944%Z, Ej3a4.IdOid 1%N); ("El Aleph", Some 1949%Z, Ej3a4.IdStr "1")]
    (Mongo.healthy Muestra.doc_biblioteca)
  = (Raise InvalidId, Mongo.healthy Muestra.doc_biblioteca).
Proof.
  apply (insertar_libros_malformed_reference _ 1%nat "El Aleph" (Some 1949%Z) "1").
  - reflexivity.
  - cbn. lia.
Defined.

(** [$sort] keeps the documents it is given and puts them in the order of
    their years. *)
Lemma insert_by_anio_perm (b : Mongo.libro) (l : list Mongo.libro) :
  Mongo.insert_by_anio b l ≡ₚ b :: l.
Proof.
  induction l as [|c l IH]; [reflexivity|]. cbn.
  destruct (Mongo.anio_le (Mongo.anio c) (Mongo.anio b)); [|reflexivity].
  rewrite IH. apply Permutation_swap.
Qed.

Lemma sort_by_anio_perm (l : list Mongo.libro) : Mongo.sort_by_anio l ≡ₚ l.
Proof.
  unfold Mongo.sort_by_anio.
  enough (H : ∀ acc, foldl (λ acc b, Mongo.insert_by_anio b acc) acc l ≡ₚ acc ++ l)
    by apply (H []).
  induction l as [|b l IH]; intros acc; cbn.
  - now rewrite app_nil_r.
  - rewrite IH, insert_by_anio_perm. cbn. apply Permutation_middle.
Qed.

Lemma anio_le_total (x y : option Z) :
  Mongo.anio_le x y = false → Mongo.anio_le y x = true.
Proof.
  destruct x as [a|], y as [b|]; cbn; try congruence.
  intros H. apply Z.leb_gt in H. apply Z.leb_le. lia.
Qed.

Lemma insert_by_anio_sorted (b : Mongo.libro) (l : list Mongo.libro) :
  Sorted (λ x y, Mongo.anio_le (Mongo.anio x) (Mongo.anio y) = true) l →
  Sorted (λ x y, Mongo.anio_le (Mongo.anio x) (Mongo.anio y) = true)
    (Mongo.insert_by_anio b l).
Proof.
  induction l as [|c l IH]; intros Hl; cbn.
  - repeat constructor.
  - destruct (Mongo.anio_le (Mongo.anio c) (Mongo.anio b)) eqn:Hcb.
    + apply Sorted_inv in Hl as [Hl Hhd]. constructor; [apply IH, Hl|].
      destruct l as [|e l]; cbn.
      * constructor. exact Hcb.
      * destruct (Mongo.anio_le (Mongo.anio e) (Mongo.anio b)); constructor;
          [now apply HdRel_inv in Hhd | exact Hcb].
    + constructor; [exact Hl|]. constructor. apply anio_le_total, Hcb.
Qed.

Lemma sort_by_anio_sorted (l : list Mongo.libro) :
  Sorted (λ x y, Mongo.anio_le (Mongo.anio x) (Mongo.anio y) = true)
    (Mongo.sort_by_anio l).
Proof.
  unfold Mongo.sort_by_anio.
  enough (H : ∀ acc,
             Sorted (λ x y, Mongo.anio_le (Mongo.anio x) (Mongo.anio y) = true) acc →
             Sorted (λ x y, Mongo.anio_le (Mongo.anio x) (Mongo.anio y) = true)
               (foldl (λ acc b, Mongo.insert_by_anio b acc) acc l))
    by (apply H; constructor).
  induction l as [|b l IH]; intros acc Hacc; cbn; [exact Hacc|].
  apply IH, insert_by_anio_sorted, Hacc.
Qed.

Lemma Sorted_fmap_anio (l : list Mongo.libro) :
  Sorted (λ x y, Mongo.anio_le (Mongo.anio x) (Mongo.anio y) = true) l →
  Sorted (λ p q : string * option Z, Mongo.anio_le p.2 q.2 = true)
    ((λ b, (Mongo.titulo b, Mongo.anio b)) <$> l).
Proof.
  induction 1 as [|b l Hl IH Hhd]; cbn; constructor; [exact IH|].
  destruct Hhd; cbn; constructor. assumption.
Qed.

(** [find_one] on a name that one author has, and no other. *)
Lemma find_one_autor_unique (d : Mongo.database) (n : string) (o : Mongo.oid) :
  Mongo.autores d !! o = Some {| Mongo.nombre := n |} →
  (∀ o' a', Mongo.autores d !! o' = Some a' → Mongo.nombre a' = n → o' = o) →
  Mongo.find_one_autor n (Mongo.healthy d) = (Ok (Some o), Mongo.healthy d).
Proof.
  intros Ho Huniq. unfold Mongo.find_one_autor. run.
  destruct (filter (λ ka, Mongo.nombre ka.2 = n) (map_to_list (Mongo.autores d)))
    as [|[k a] l] eqn:Hf.
  - exfalso.
    assert (Hin : (o, {| Mongo.nombre := n |})
                  ∈ filter (λ ka, Mongo.nombre ka.2 = n)
                      (map_to_list (Mongo.autores d))).
    { apply list_elem_of_filter. split; [reflexivity|].
      apply elem_of_map_to_list, Ho. }
    rewrite Hf in Hin. inversion Hin.
  - assert (Hin : (k, a) ∈ filter (λ ka, Mongo.nombre ka.2 = n)
                             (map_to_list (Mongo.autores d)))
      by (rewrite Hf; left).
    apply list_elem_of_filter in Hin as [Hn Hin].
    apply elem_of_map_to_list in Hin. cbn in *.
    now rewrite (Huniq k a Hin Hn).
Qed.

(** The pipeline of [buscar_libros_por_autor]. *)
Lemma aggregate_libros_de_run (d : Mongo.database) (o : Mongo.oid) :
  ∃ l, Mongo.aggregate_libros_de o (Mongo.healthy d) = (Ok l, Mongo.healthy d)
       ∧ Sorted (λ p q : string * option Z, Mongo.anio_le p.2 q.2 = true) l
       ∧ l ≡ₚ (λ kb, (Mongo.titulo kb.2, Mongo.anio kb.2))
               <$> filter (λ kb, Mongo.autor_id kb.2 = o)
                     (map_to_list (Mongo.libros d)).
Proof.
  eexists. split; [reflexivity|]. split.
  - apply Sorted_fmap_anio, sort_by_anio_sorted.
  - rewrite sort_by_anio_perm, <- list_fmap_compose. reflexivity.
Qed.

(** [find_one] on a name that some author has finds an author of that
    name. *)
Lemma find_one_autor_some (d : Mongo.database) (n : string) (o0 : Mongo.oid) :
  Mongo.autores d !! o0 = Some {| Mongo.nombre := n |} →
  ∃ o, Mongo.find_one_autor n (Mongo.healthy d) = (Ok (Some o), Mongo.healthy d)
       ∧ Mongo.autores d !! o = Some {| Mongo.nombre := n |}.
Proof.
  intros Ho. unfold Mongo.find_one_autor. run.
  destruct (filter (λ ka, Mongo.nombre ka.2 = n) (map_to_list (Mongo.autores d)))
    as [|[k a] l] eqn:Hf.
  - exfalso.
    assert (Hin : (o0, {| Mongo.nombre := n |})
                  ∈ filter (λ ka, Mongo.nombre ka.2 = n)
                      (map_to_list (Mongo.autores d))).
    { apply list_elem_of_filter. split; [reflexivity|].
      apply elem_of_map_to_list, Ho. }
    rewrite Hf in Hin. inversion Hin.
  - assert (Hin : (k, a) ∈ filter (λ ka, Mongo.nombre ka.2 = n)
                             (map_to_list (Mongo.autores d)))
      by (rewrite Hf; left).
    apply list_elem_of_filter in Hin as [Hn Hin].
    apply elem_of_map_to_list in Hin. cbn in *.
    exists k. split; [reflexivity|]. rewrite Hin. destruct a; cbn in *. now subst.
Qed.

(** X13. [buscar_libros_por_autor] of the document variant, for a name
    that some author has: the result is made of the books of one author
    of that name, the one [find_one] meets, and of no other author, even
    when several share the name. It holds one pair (title, year) for each
    book whose [autor_id] is that author's [_id], in ascending order of
    the year, a missing year first. The database is left as it was. *)
Theorem buscar_libros_por_autor_doc_sorted (d : Mongo.database) (n : string)
    (o0 : Mongo.oid) :
  Mongo.autores d !! o0 = Some {| Mongo.nombre := n |} →
  ∃ o l,
    Mongo.autores d !! o = Some {| Mongo.nombre := n |}
    ∧ Ej3a4.buscar_libros_por_autor n (Mongo.healthy d)
      = (Ok (PyList ((λ r, PyTuple [PyStr r.1; Ej3a4.py_anio r.2]) <$> l)),
         Mongo.healthy d)
    ∧ Sorted (λ p q : string * option Z, Mongo.anio_le p.2 q.2 = true) l
    ∧ l ≡ₚ (λ kb, (Mongo.titulo kb.2, Mongo.anio kb.2))
            <$> filter (λ kb, Mongo.autor_id kb.2 = o)
                  (map_to_list (Mongo.libros d))
    ∧ ∀ t y, (t, y) ∈ l
             ↔ ∃ k, Mongo.libros d !! k
                    = Some {| Mongo.titulo := t; Mongo.anio := y;
                              Mongo.autor_id := o |}.
Proof.
  intros Ho0.
  destruct (find_one_autor_some d n o0 Ho0) as (o & Hfind & Ho).
  destruct (aggregate_libros_de_run d o) as (l & Hagg & Hsorted & Hperm).
  exists o, l. split; [exact Ho|].
  split; [|split; [exact Hsorted|split; [exact Hperm|]]].
  - unfold Ej3a4.buscar_libros_por_autor. unfold mbind, M_bind, Py.bind.
    rewrite Hfind, Hagg. reflexivity.
  - intros t y. rewrite Hperm, list_elem_of_fmap. split.
    + intros ([k b] & [= -> ->] & Hin).
      apply list_elem_of_filter in Hin as [Hb Hin].
      apply elem_of_map_to_list in Hin. cbn in *.
      exists k. rewrite Hin. destruct b; cbn in *. now subst.
    + intros (k & Hk). eexists (k, _). split; [|apply list_elem_of_filter; split;
        [|apply elem_of_map_to_list, Hk]]; reflexivity.
Qed.

Lemma buscar_libros_por_autor_doc_sorted_witness :
  ∃ l, Ej3a4.buscar_libros_por_autor "Jorge Luis Borges"
         (Mongo.healthy Muestra.doc_biblioteca)
       = (Ok (PyList ((λ r, PyTuple [PyStr r.1; Ej3a4.py_anio r.2]) <$> l)),
          Mongo.healthy Muestra.doc_biblioteca)
       ∧ ("El Aleph", Some 1949%Z) ∈ l.
Proof.
  destruct (buscar_libros_por_autor_doc_sorted Muestra.doc_biblioteca
              "Jorge Luis Borges" 1%N) as (o & l & Ho & Hrun & _ & _ & Hin).
  - reflexivity.
  - exists l. split; [exact Hrun|]. apply Hin. exists 3%N.
    assert (o = 1%N) as ->; [|reflexivity].
    cbn in Ho.
    apply lookup_insert_Some in Ho as [[<- _]|[_ Ho]]; [reflexivity|].
    apply lookup_insert_Some in Ho as [[_ [=]]|[_ Ho]].
    rewrite lookup_empty in Ho. discriminate.
Defined.

(** X14. A book inserted by [insertar_libros], with a year within
    sixty-four bits if it has one, can be deleted through the string the
    insertion returned: [eliminar_libro] on that string answers [True] and
    the database is again what it was before the insertion. *)
Theorem insertar_libros_then_eliminar (d : Mongo.database) (t : string)
    (y : option Z) (r : Ej3a4.id_arg) (a : Mongo.oid) :
  Ej3a4.oid_of_arg r = Ok a →
  (∀ z, y = Some z → int64 z = true) →
  (Mongo.new_oid d < 2 ^ 96)%N →
  ∃ s o d1,
    Ej3a4.insertar_libros [(t, y, r)] (Mongo.healthy d)
    = (Ok (PyList [PyStr s]), Mongo.healthy d1)
    ∧ Mongo.libros d !! o = None
    ∧ Mongo.libros d1 !! o
      = Some {| Mongo.titulo := t; Mongo.anio := y; Mongo.autor_id := a |}
    ∧ Ej3a4.eliminar_libro s (Mongo.healthy d1) = (Ok (PyBool true), Mongo.healthy d).
Proof.
  intros Hr _ Hsmall.
  exists (Mongo.str_of_oid (Mongo.new_oid d)), (Mongo.new_oid d).
  eexists. split; [|split; [|split]].
  - unfold Ej3a4.insertar_libros. cbn [Ej3a4.dict_libros]. rewrite Hr.
    unfold Mongo.insert_many, Mongo.insert_each, Mongo.healthy.
    unfold mbind, M_bind, Py.bind. rewrite insert_one_libro_run. reflexivity.
  - apply new_oid_fresh.
  - cbn. apply lookup_insert_eq.
  - rewrite (eliminar_libro_doc_run _ _ (Mongo.new_oid d))
      by (apply ObjectId_str_of_oid, Hsmall).
    cbn. rewrite lookup_insert_eq, delete_insert_id by apply new_oid_fresh.
    destruct d; reflexivity.
Qed.

Lemma insertar_libros_then_eliminar_witness :
  ∃ s d1,
    Ej3a4.insertar_libros [("Ficciones", Some 1944%Z, Ej3a4.IdOid 1%N)]
      (Mongo.healthy Muestra.doc_biblioteca)
    = (Ok (PyList [PyStr s]), Mongo.healthy d1)
    ∧ Ej3a4.eliminar_libro s (Mongo.healthy d1)
      = (Ok (PyBool true), Mongo.healthy Muestra.doc_biblioteca).
Proof.
  destruct (insertar_libros_then_eliminar Muestra.doc_biblioteca "Ficciones"
              (Some 1944%Z) (Ej3a4.IdOid 1%N) 1%N)
    as (s & o & d1 & Hins & _ & _ & Hdel).
  - reflexivity.
  - intros z [= <-]. reflexivity.
  - vm_compute. reflexivity.
  - exists s, d1. split; [exact Hins|exact Hdel].
Defined.

(** X15. [eliminar_libro] of the document variant, called a second time
    with the same identifier, answers [False] and changes nothing,
    whatever the first call answered. *)
Theorem eliminar_libro_doc_twice (d : Mongo.database) (id_libro : string)
    (o : Mongo.oid) :
  Mongo.ObjectId id_libro = Ok o →
  ∃ flag d1,
    Ej3a4.eliminar_libro id_libro (Mongo.healthy d)
    = (Ok (PyBool flag), Mongo.healthy d1)
    ∧ Ej3a4.eliminar_libro id_libro (Mongo.healthy d1)
      = (Ok (PyBool false), Mongo.healthy d1).
Proof.
  intros Hid. rewrite (eliminar_libro_doc_run d _ o Hid).
  destruct (Mongo.libros d !! o) as [b|] eqn:Hb.
  - eexists true, _. split; [reflexivity|].
    rewrite (eliminar_libro_doc_run _ _ o Hid). cbn.
    now rewrite lookup_delete_eq.
  - exists false, d. split; [reflexivity|].
    rewrite (eliminar_libro_doc_run d _ o Hid). now rewrite Hb.
Qed.

Lemma eliminar_libro_doc_twice_witness :
  ∃ d1,
    Ej3a4.eliminar_libro Muestra.id_el_aleph (Mongo.healthy Muestra.doc_biblioteca)
    = (Ok (PyBool true), Mongo.healthy d1)
    ∧ Ej3a4.eliminar_libro Muestra.id_el_aleph (Mongo.healthy d1)
      = (Ok (PyBool false), Mongo.healthy d1).
Proof.
  destruct (eliminar_libro_doc_twice Muestra.doc_biblioteca Muestra.id_el_aleph 3%N
              eq_refl) as (flag & d1 & Hfirst & Hsecond).
  exists d1. split; [|exact Hsecond].
  rewrite Hfirst. vm_compute in Hfirst. injection Hfirst as <- _. reflexivity.
Defined.

(** [ejemplo_transaccion] on a server that answers: the author and the two
    books are written one after the other, each under a new identifier. *)
Lemma ejemplo_transaccion_doc_healthy (d : Mongo.database) :
  ∃ o o1 o2,
    Mongo.autores d !! o = None
    ∧ (∀ k b, Mongo.libros d !! k = Some b → Mongo.autor_id b ≠ o)
    ∧ Mongo.libros d !! o1 = None
    ∧ Mongo.libros d !! o2 = None
    ∧ o1 ≠ o2
    ∧ Ej3a4.ejemplo_transaccion (Mongo.healthy d)
      = (Ok (PyBool true),
         Mongo.healthy
           {| Mongo.autores :=
                <[o := {| Mongo.nombre := "J.R.R. Tolkien" |}]> (Mongo.autores d);
              Mongo.libros :=
                <[o2 := {| Mongo.titulo := "El Señor de los Anillos";
                           Mongo.anio := Some 1954%Z; Mongo.autor_id := o |}]>
                  (<[o1 := {| Mongo.titulo := "El hobbit";
                              Mongo.anio := Some 1937%Z; Mongo.autor_id := o |}]>
                     (Mongo.libros d)) |}).
Proof.
  set (d1 := {| Mongo.autores :=
                  <[Mongo.new_oid d := {| Mongo.nombre := "J.R.R. Tolkien" |}]>
                    (Mongo.autores d);
                Mongo.libros := Mongo.libros d |}).
  set (d2 := {| Mongo.autores := Mongo.autores d1;
                Mongo.libros :=
                  <[Mongo.new_oid d1 := {| Mongo.titulo := "El hobbit";
                                           Mongo.anio := Some 1937%Z;
                                           Mongo.autor_id := Mongo.new_oid d |}]>
                    (Mongo.libros d) |}).
  exists (Mongo.new_oid d), (Mongo.new_oid d1), (Mongo.new_oid d2).
  destruct (new_oid_fresh d) as (Ha & _ & Href).
  destruct (new_oid_fresh d1) as (_ & Hb1 & _).
  destruct (new_oid_fresh d2) as (_ & Hb2 & _).
  split; [exact Ha|]. split; [exact Href|]. split; [exact Hb1|].
  cbn in Hb2. split; [|split].
  - apply lookup_insert_None in Hb2 as [Hb2 _]. exact Hb2.
  - apply lookup_insert_None in Hb2 as [_ Hb2]. exact Hb2.
  - unfold Ej3a4.ejemplo_transaccion, Mongo.insert_many, Mongo.insert_each,
      Mongo.healthy.
    unfold mbind, M_bind, Py.bind, Py.attempt.
    rewrite insert_one_autor_run. cbn.
    rewrite insert_one_libro_run. cbn.
    rewrite insert_one_libro_run. reflexivity.
Qed.

(** X16. On a server that answers, and in a database where no author is
    called J.R.R. Tolkien yet, [ejemplo_transaccion] returns [True], and
    [buscar_libros_por_autor] for that name then gives the two books it
    wrote, and only them, the earlier first. *)
Theorem ejemplo_transaccion_then_buscar (d : Mongo.database) :
  (∀ o a, Mongo.autores d !! o = Some a → Mongo.nombre a ≠ "J.R.R. Tolkien") →
  ∃ d', Ej3a4.ejemplo_transaccion (Mongo.healthy d)
        = (Ok (PyBool true), Mongo.healthy d')
        ∧ size (Mongo.autores d') = S (size (Mongo.autores d))
        ∧ size (Mongo.libros d') = S (S (size (Mongo.libros d)))
        ∧ Ej3a4.buscar_libros_por_autor "J.R.R. Tolkien" (Mongo.healthy d')
          = (Ok (PyList [PyTuple [PyStr "El hobbit"; PyInt 1937];
                         PyTuple [PyStr "El Señor de los Anillos"; PyInt 1954]]),
             Mongo.healthy d').
Proof.
  intros Hnew.
  destruct (ejemplo_transaccion_doc_healthy d)
    as (o & o1 & o2 & Ha & Href & Hb1 & Hb2 & Hne & Hrun).
  eexists. split; [exact Hrun|]. cbn [Mongo.autores Mongo.libros].
  split; [now rewrite map_size_insert_None|].
  split.
  { rewrite map_size_insert_None by (rewrite lookup_insert_ne by congruence; exact Hb2).
    now rewrite map_size_insert_None. }
  match goal with
  | |- _ (Mongo.healthy ?x) = _ => set (d' := x)
  end.
  destruct (aggregate_libros_de_run d' o) as (l & Hagg & Hsorted & Hperm).
  unfold Ej3a4.buscar_libros_por_autor. unfold mbind, M_bind, Py.bind.
  rewrite (find_one_autor_unique d' "J.R.R. Tolkien" o).
  - rewrite Hagg. cbn.
    assert (Hl : l ≡ₚ [("El Señor de los Anillos", Some 1954%Z);
                       ("El hobbit", Some 1937%Z)]).
    { rewrite Hperm. unfold d'. cbn [Mongo.libros].
      rewrite map_to_list_insert
        by (rewrite lookup_insert_ne by congruence; exact Hb2).
      rewrite filter_cons_True by reflexivity.
      rewrite map_to_list_insert by exact Hb1.
      rewrite filter_cons_True by reflexivity.
      rewrite filter_none; [reflexivity|].
      intros [k b] Hkb Hb. apply elem_of_map_to_list in Hkb.
      exact (Href k b Hkb Hb). }
    symmetry in Hl. apply Permutation_length_2_inv in Hl as [-> | ->].
    + exfalso. apply Sorted_inv in Hsorted as [_ Hhd].
      apply HdRel_inv in Hhd. discriminate Hhd.
    + reflexivity.
  - unfold d'. cbn. apply lookup_insert_eq.
  - intros o' a' Ho' Hn. unfold d' in Ho'. cbn in Ho'.
    apply lookup_insert_Some in Ho' as [[<- _]|[_ Ho']]; [reflexivity|].
    destruct (Hnew o' a' Ho' Hn).
Qed.

Lemma ejemplo_transaccion_then_buscar_witness :
  ∃ d', Ej3a4.ejemplo_transaccion (Mongo.healthy Muestra.doc_biblioteca)
        = (Ok (PyBool true), Mongo.healthy d')
        ∧ Ej3a4.buscar_libros_por_autor "J.R.R. Tolkien" (Mongo.healthy d')
          = (Ok (PyList [PyTuple [PyStr "El hobbit"; PyInt 1937];
                         PyTuple [PyStr "El Señor de los Anillos"; PyInt 1954]]),
             Mongo.healthy d').
Proof.
  destruct (ejemplo_transaccion_then_buscar Muestra.doc_biblioteca)
    as (d' & Hrun & _ & _ & Hfind).
  - intros o a Ho. cbn in Ho.
    apply lookup_insert_Some in Ho as [[_ <-]|[_ Ho]]; [discriminate|].
    apply lookup_insert_Some in Ho as [[_ <-]|[_ Ho]]; [discriminate|].
    rewrite lookup_empty in Ho. discriminate.
  - exists d'. split; [exact Hrun|exact Hfind].
Defined.

(** ** The SQL variant: joins, new rows, the flag of an update *)

#[local] Existing Instance Sqlite.sqlval_eq_dec.

Lemma bind_app_perm {A B} (g h : A → list B) (l : list A) :
  l ≫= (λ x, (g x ++ h x)%list) ≡ₚ ((l ≫= g) ++ (l ≫= h))%list.
Proof.
  induction l as [|x l IH]; [reflexivity|].
  rewrite !bind_cons, IH, <- !app_assoc. apply Permutation_app_head.
  rewrite !app_assoc. apply Permutation_app_tail, Permutation_app_comm.
Qed.

Lemma fmap_list_bind {A B C} (f : B → C) (g : A → list B) (l : list A) :
  f <$> (l ≫= g) = l ≫= (λ x, f <$> g x).
Proof.
  induction l as [|x l IH]; [reflexivity|].
  now rewrite !bind_cons, fmap_app, IH.
Qed.

(** Two nested loops give the same rows, up to their order, whichever
    loop is the outer one. *)
Lemma bind_swap_perm {A B C} (f : A → B → list C) (l1 : list A) (l2 : list B) :
  l1 ≫= (λ x, l2 ≫= f x) ≡ₚ l2 ≫= (λ y, l1 ≫= (λ x, f x y)).
Proof.
  induction l1 as [|x l1 IH].
  - rewrite (list_bind_none _ l2) by reflexivity. reflexivity.
  - rewrite bind_cons, IH, <- bind_app_perm. reflexivity.
Qed.

(** The authors whose [id] a value equals: the one with that [id] when
    the value is an integer and the author is there, none otherwise. *)
Lemma bind_autor_of {B} (m : gmap Z Sqlite.autor) (v : Sqlite.sqlval)
    (g : Z → Sqlite.autor → list B) :
  map_to_list m ≫= (λ ia, if decide (v = Sqlite.VInt ia.1) then g ia.1 ia.2 else [])
  ≡ₚ match v with
     | Sqlite.VInt i => match m !! i with
                        | Some a => g i a
                        | None => []
                        end
     | _ => []
     end.
Proof.
  induction m as [|i a m Hi _ IH] using map_first_key_ind.
  - rewrite map_to_list_empty. destruct v as [|j|]; try reflexivity.
    all: now rewrite lookup_empty.
  - rewrite map_to_list_insert by exact Hi. rewrite bind_cons, IH. cbn [fst snd].
    destruct (decide (v = Sqlite.VInt i)) as [->|Hne].
    + now rewrite lookup_insert_eq, Hi, app_nil_r.
    + destruct v as [|j|]; try reflexivity.
      rewrite lookup_insert_ne by congruence. reflexivity.
Qed.

(** The join [FROM autores JOIN libros ON autores.id = libros.autor_id],
    read from the side of the books: each book gives one row when its
    [autor_id] is the [id] of an author, and none when it is [NULL], text,
    or the [id] of no author. *)
Lemma join_autores_libros {X} (g : Z → Sqlite.autor → Sqlite.libro → list X)
    (d : Sqlite.database) :
  ('(i, a) ← map_to_list (Sqlite.rows (Sqlite.autores d));
   '(_, b) ← map_to_list (Sqlite.rows (Sqlite.libros d));
   if decide (Sqlite.autor_id b = Sqlite.VInt i) then g i a b else [])
  ≡ₚ map_to_list (Sqlite.rows (Sqlite.libros d))
     ≫= (λ kb, match Sqlite.autor_id kb.2 with
               | Sqlite.VInt i =>
                   match Sqlite.rows (Sqlite.autores d) !! i with
                   | Some a => g i a kb.2
                   | None => []
                   end
               | _ => []
               end).
Proof.
  transitivity
    (map_to_list (Sqlite.rows (Sqlite.autores d))
     ≫= (λ ia, map_to_list (Sqlite.rows (Sqlite.libros d))
               ≫= (λ kb, if decide (Sqlite.autor_id kb.2 = Sqlite.VInt ia.1)
                         then g ia.1 ia.2 kb.2 else []))).
  { apply reflexive_eq, list_bind_ext; [|reflexivity].
    intros [i a]. apply list_bind_ext; [|reflexivity]. intros [k b]. reflexivity. }
  rewrite (bind_swap_perm
             (λ (ia : Z * Sqlite.autor) (kb : Z * Sqlite.libro),
                if decide (Sqlite.autor_id kb.2 = Sqlite.VInt ia.1)
                then g ia.1 ia.2 kb.2 else [])).
  induction (map_to_list (Sqlite.rows (Sqlite.libros d))) as [|[k b] l IH];
    [reflexivity|].
  rewrite !bind_cons, IH. apply Permutation_app_tail. cbn [snd].
  apply (bind_autor_of _ (Sqlite.autor_id b) (λ i a, g i a b)).
Qed.

(** X17. [agregar_libro], given a year and an author reference within
    sixty-four bits and an author that is there, stores the book under an
    [id] larger than that of every book present, returns that [id], and
    changes nothing else. A second call returns the next [id]. *)
Theorem agregar_libro_stores_row (d : Sqlite.database) (t : string)
    (y : option Z) (a : Z) :
  Sqlite.params_bindable (t, y, a) = true →
  is_Some (Sqlite.rows (Sqlite.autores d) !! a) →
  ∃ i d',
    Ej3a2.agregar_libro t y a (Sqlite.clean d) = (Ok (PyInt i), Sqlite.clean d')
    ∧ (∀ k b, Sqlite.rows (Sqlite.libros d) !! k = Some b → (k < i)%Z)
    ∧ Sqlite.rows (Sqlite.libros d')
      = <[i := {| Sqlite.titulo := t;
                  Sqlite.anio := from_option Sqlite.VInt Sqlite.VNull y;
                  Sqlite.autor_id := Sqlite.VInt a |}]> (Sqlite.rows (Sqlite.libros d))
    ∧ Sqlite.autores d' = Sqlite.autores d
    ∧ ∀ t2 y2, Sqlite.params_bindable (t2, y2, a) = true →
               ∃ d'', Ej3a2.agregar_libro t2 y2 a (Sqlite.clean d')
                      = (Ok (PyInt (i + 1)), Sqlite.clean d'').
Proof.
  intros Hr _. exists (Sqlite.next_id (Sqlite.libros d)). eexists.
  split; [|split; [|split; [|split]]].
  - unfold Ej3a2.agregar_libro, Sqlite.insert_libro_lastrowid, Sqlite.dml_bound.
    rewrite Hr. reflexivity.
  - intros k b Hk. apply max_rowid_ge in Hk. unfold Sqlite.next_id. lia.
  - cbn. destruct y; reflexivity.
  - reflexivity.
  - intros t2 y2 Hr2. eexists.
    unfold Ej3a2.agregar_libro, Sqlite.insert_libro_lastrowid, Sqlite.dml_bound.
    rewrite Hr2.
    rewrite <- (next_id_table_insert (Sqlite.libro_of_params (t, y, a)) (Sqlite.libros d)).
    reflexivity.
Qed.

Lemma agregar_libro_stores_row_witness :
  ∃ d', Ej3a2.agregar_libro "Violeta" (Some 2022%Z) 2 (Sqlite.clean Muestra.sql_biblioteca)
        = (Ok (PyInt 7), Sqlite.clean d')
        ∧ Sqlite.rows (Sqlite.libros d') !! 7%Z
          = Some {| Sqlite.titulo := "Violeta"; Sqlite.anio := Sqlite.VInt 2022;
                    Sqlite.autor_id := Sqlite.VInt 2 |}.
Proof.
  destruct (agregar_libro_stores_row Muestra.sql_biblioteca "Violeta" (Some 2022%Z) 2)
    as (i & d' & Hrun & _ & Hrows & _).
  - reflexivity.
  - eexists; reflexivity.
  - assert (Hi : i = 7%Z).
    { vm_compute in Hrun. injection Hrun as <- _. reflexivity. }
    subst i. exists d'. split; [exact Hrun|].
    rewrite Hrows. apply lookup_insert_eq.
Defined.

(** X18. [obtener_libros] returns one tuple for each book whose
    [autor_id] is the [id] of an author, and none for the other books.
    The first component of the tuple is that author's [id], as the
    statement selects [libros.autor_id]; the [id] of the book is not in
    the tuple. *)
Theorem obtener_libros_rows (d : Sqlite.database) :
  ∃ filas,
    Ej3a2.obtener_libros (Sqlite.clean d) = (Ok (PyList filas), Sqlite.clean d)
    ∧ filas
      ≡ₚ map_to_list (Sqlite.rows (Sqlite.libros d))
         ≫= (λ kb, match Sqlite.autor_id kb.2 with
                   | Sqlite.VInt i =>
                       match Sqlite.rows (Sqlite.autores d) !! i with
                       | Some a =>
                           [PyTuple [PyInt i; PyStr (Sqlite.titulo kb.2);
                                     Sqlite.py_of_sqlval (Sqlite.anio kb.2);
                                     PyStr (Sqlite.nombre a)]]
                       | None => []
                       end
                   | _ => []
                   end).
Proof.
  eexists. split; [reflexivity|].
  rewrite (join_autores_libros
             (λ i a b, [(Sqlite.autor_id b, Sqlite.titulo b, Sqlite.anio b,
                         Sqlite.nombre a)]) d).
  rewrite fmap_list_bind.
  apply reflexive_eq, list_bind_ext; [|reflexivity].
  intros [k b]. cbn. destruct (Sqlite.autor_id b) as [|i|]; try reflexivity.
  destruct (Sqlite.rows (Sqlite.autores d) !! i); reflexivity.
Qed.

(** X19. [consultar_libros] prints one line for each book whose
    [autor_id] is the [id] of an author, with the title, the year as
    Python writes it ([None] for [NULL]) and the author's name; a book
    with no such author is not printed. *)
Theorem consultar_libros_lines (d : Sqlite.database) :
  ∃ lines,
    Ej3a1.consultar_libros (Sqlite.clean d) = (Ok lines, Sqlite.clean d)
    ∧ lines
      ≡ₚ map_to_list (Sqlite.rows (Sqlite.libros d))
         ≫= (λ kb, match Sqlite.autor_id kb.2 with
                   | Sqlite.VInt i =>
                       match Sqlite.rows (Sqlite.autores d) !! i with
                       | Some a =>
                           [" Titulo: " ++ Sqlite.titulo kb.2
                            ++ " | Año: " ++ Ej3a1.str_of_sqlval (Sqlite.anio kb.2)
                            ++ " | Autor: " ++ Sqlite.nombre a]
                       | None => []
                       end
                   | _ => []
                   end).
Proof.
  eexists. split; [reflexivity|].
  rewrite (join_autores_libros
             (λ i a b, [(Sqlite.titulo b, Sqlite.anio b, Sqlite.nombre a)]) d).
  rewrite fmap_list_bind.
  apply reflexive_eq, list_bind_ext; [|reflexivity].
  intros [k b]. cbn. destruct (Sqlite.autor_id b) as [|i|]; try reflexivity.
  destruct (Sqlite.rows (Sqlite.autores d) !! i); reflexivity.
Qed.

(** X20. [obtener_autores] returns one tuple [(id, nombre)] for each
    author: as many tuples as authors, none twice, and a tuple is in the
    list exactly when the author with that [id] has that name. *)
Theorem obtener_autores_rows (d : Sqlite.database) :
  ∃ filas,
    Ej3a2.obtener_autores (Sqlite.clean d) = (Ok (PyList filas), Sqlite.clean d)
    ∧ length filas = size (Sqlite.rows (Sqlite.autores d))
    ∧ NoDup filas
    ∧ ∀ i n, PyTuple [PyInt i; PyStr n] ∈ filas
             ↔ Sqlite.rows (Sqlite.autores d) !! i = Some {| Sqlite.nombre := n |}.
Proof.
  eexists. split; [reflexivity|]. rewrite <- list_fmap_compose.
  split; [|split].
  - now rewrite length_fmap, length_map_to_list.
  - apply NoDup_fmap_2_strong; [|apply NoDup_map_to_list].
    intros [i [n]] [k [n']] _ _ [= -> ->]. reflexivity.
  - intros i n. rewrite list_elem_of_fmap. split.
    + intros ([k [n']] & [= -> ->] & Hin). apply elem_of_map_to_list, Hin.
    + intros Hi. exists (i, {| Sqlite.nombre := n |}). split; [reflexivity|].
      apply elem_of_map_to_list, Hi.
Qed.

(** The other shapes of statement that [actualizar_libro] of [ej3a2.py]
    writes, those with an assignment to [autor_id]. *)
Lemma parse_update_autor (sa sid : string) :
  Sqlite.plain sa = true → Sqlite.plain sid = true →
  Sqlite.parse_update
    ("UPDATE libros SET autor_id = '"
     ++ (sa ++ String "'" ("WHERE libros.id = '" ++ (sid ++ String "'" ""))))
  = Some {| Sqlite.assignments := [(Sqlite.ColAutorId, sa)];
            Sqlite.where_id := Some sid |}.
Proof.
  intros Ha Hi. unfold Sqlite.parse_update, Sqlite.lex.
  do 2 read_literal. vm_compute. reflexivity.
Qed.

Lemma parse_update_titulo_autor (s sa sid : string) :
  Sqlite.plain s = true → Sqlite.plain sa = true →
  Sqlite.plain sid = true →
  Sqlite.parse_update
    ("UPDATE libros SET titulo = '"
     ++ (s ++ String "'" (", autor_id = '"
     ++ (sa ++ String "'" ("WHERE libros.id = '" ++ (sid ++ String "'" ""))))))
  = Some {| Sqlite.assignments := [(Sqlite.ColTitulo, s); (Sqlite.ColAutorId, sa)];
            Sqlite.where_id := Some sid |}.
Proof.
  intros Hs Ha Hi. unfold Sqlite.parse_update, Sqlite.lex.
  do 3 read_literal. vm_compute. reflexivity.
Qed.

Lemma parse_update_anio_autor (sy sa sid : string) :
  Sqlite.plain sy = true → Sqlite.plain sa = true →
  Sqlite.plain sid = true →
  Sqlite.parse_update
    ("UPDATE libros SET anio = '"
     ++ (sy ++ String "'" (", autor_id = '"
     ++ (sa ++ String "'" ("WHERE libros.id = '" ++ (sid ++ String "'" ""))))))
  = Some {| Sqlite.assignments := [(Sqlite.ColAnio, sy); (Sqlite.ColAutorId, sa)];
            Sqlite.where_id := Some sid |}.
Proof.
  intros Hy Ha Hi. unfold Sqlite.parse_update, Sqlite.lex.
  do 3 read_literal. vm_compute. reflexivity.
Qed.

Lemma parse_update_titulo_anio_autor (s sy sa sid : string) :
  Sqlite.plain s = true → Sqlite.plain sy = true →
  Sqlite.plain sa = true → Sqlite.plain sid = true →
  Sqlite.parse_update
    ("UPDATE libros SET titulo = '"
     ++ (s ++ String "'" (", anio = '"
     ++ (sy ++ String "'" (", autor_id = '"
     ++ (sa ++ String "'" ("WHERE libros.id = '" ++ (sid ++ String "'" ""))))))))
  = Some {| Sqlite.assignments :=
              [(Sqlite.ColTitulo, s); (Sqlite.ColAnio, sy); (Sqlite.ColAutorId, sa)];
            Sqlite.where_id := Some sid |}.
Proof.
  intros Hs Hy Ha Hi. unfold Sqlite.parse_update, Sqlite.lex.
  do 4 read_literal. vm_compute. reflexivity.
Qed.

Lemma parse_consulta_actualizar_ej3a2 (i : Z) (t : option string) (y a : option Z) :
  (∀ s, t = Some s → Sqlite.plain s = true) →
  is_Some t ∨ is_Some y ∨ is_Some a →
  Sqlite.parse_update (Ej3a2.consulta_actualizar i t y a)
  = Some {| Sqlite.assignments :=
              (from_option (λ s, [(Sqlite.ColTitulo, s)]) [] t
               ++ from_option (λ z, [(Sqlite.ColAnio, str_of_int z)]) [] y
               ++ from_option (λ z, [(Sqlite.ColAutorId, str_of_int z)]) [] a)%list;
            Sqlite.where_id := Some (str_of_int i) |}.
Proof.
  intros Ht Hsome. pose proof (plain_str_of_int i) as Hi.
  unfold Ej3a2.consulta_actualizar.
  destruct t as [s|], y as [z|], a as [r|];
    cbn [concat app String.concat from_option];
    try pose proof (plain_str_of_int z); try pose proof (plain_str_of_int r).
  - rewrite <- (parse_update_titulo_anio_autor s (str_of_int z) (str_of_int r)
                  (str_of_int i)) by auto.
    f_equal. rewrite !string_app_assoc. reflexivity.
  - rewrite <- (parse_update_titulo_anio s (str_of_int z) (str_of_int i)) by auto.
    f_equal. rewrite !string_app_assoc. reflexivity.
  - rewrite <- (parse_update_titulo_autor s (str_of_int r) (str_of_int i)) by auto.
    f_equal. rewrite !string_app_assoc. reflexivity.
  - rewrite <- (parse_update_titulo s (str_of_int i)) by auto.
    f_equal. rewrite !string_app_assoc. reflexivity.
  - rewrite <- (parse_update_anio_autor (str_of_int z) (str_of_int r) (str_of_int i))
      by auto.
    f_equal. rewrite !string_app_assoc. reflexivity.
  - rewrite <- (parse_update_anio (str_of_int z) (str_of_int i)) by auto.
    f_equal. rewrite !string_app_assoc. reflexivity.
  - rewrite <- (parse_update_autor (str_of_int r) (str_of_int i)) by auto.
    f_equal. rewrite !string_app_assoc. reflexivity.
  - destruct Hsome as [[? [=]]|[[? [=]]|[? [=]]]].
Qed.

(** The rows an [UPDATE ... WHERE id = i] touches: one when the row is
    there, none when it is not. *)
Lemma size_filter_key {V} (m : gmap Z V) (P : Z → bool) (i : Z) :
  (∀ k, P k = bool_decide (i = k)) →
  size (filter (λ kv : Z * V, P kv.1 = true) m)
  = match m !! i with Some _ => 1%nat | None => 0%nat end.
Proof.
  intros HP.
  assert (Hf : filter (λ kv : Z * V, P kv.1 = true) m
               = match m !! i with Some v => {[i := v]} | None => ∅ end).
  { apply map_eq. intros k. destruct (decide (k = i)) as [->|Hne].
    - destruct (m !! i) as [v|] eqn:Hi.
      + rewrite lookup_singleton_eq. apply map_lookup_filter_Some.
        split; [exact Hi|]. cbn. rewrite HP. now apply bool_decide_eq_true_2.
      + rewrite lookup_empty. apply map_lookup_filter_None. left. exact Hi.
    - transitivity (@None V).
      + apply map_lookup_filter_None. right. intros v' _ HPk. cbn in HPk.
        rewrite HP in HPk. apply bool_decide_eq_true_1 in HPk. congruence.
      + destruct (m !! i); [now rewrite lookup_singleton_ne by congruence|].
        now rewrite lookup_empty. }
  rewrite Hf. destruct (m !! i); [apply map_size_singleton|apply map_size_empty].
Qed.

(** X21. [actualizar_libro] of [ej3a2.py], with at least one field to set,
    neither a quote nor a NUL in the title, an [id], a year and an author
    reference within sixty-four bits, and an author reference, when one is
    passed, to an author that is there: it returns [True] exactly when a
    book has the [id], also when the values passed are the ones the book
    already holds; the book then holds what was passed; every other book,
    and the authors, are as before. *)
Theorem actualizar_libro_ej3a2_flag (d : Sqlite.database) (i : Z)
    (t : option string) (y a : option Z) :
  int64 i = true →
  (∀ s, t = Some s → Sqlite.plain s = true) →
  (∀ z, y = Some z → int64 z = true) →
  (∀ r, a = Some r →
        int64 r = true ∧ is_Some (Sqlite.rows (Sqlite.autores d) !! r)) →
  is_Some t ∨ is_Some y ∨ is_Some a →
  ∃ d',
    Ej3a2.actualizar_libro i t y a (Sqlite.clean d)
    = (Ok (PyBool (bool_decide (is_Some (Sqlite.rows (Sqlite.libros d) !! i)))),
       Sqlite.clean d')
    ∧ Sqlite.autores d' = Sqlite.autores d
    ∧ ∀ k, Sqlite.rows (Sqlite.libros d') !! k
           = (λ b, if bool_decide (i = k)
                   then {| Sqlite.titulo := default (Sqlite.titulo b) t;
                           Sqlite.anio := from_option Sqlite.VInt (Sqlite.anio b) y;
                           Sqlite.autor_id :=
                             from_option Sqlite.VInt (Sqlite.autor_id b) a |}
                   else b)
             <$> Sqlite.rows (Sqlite.libros d) !! k.
Proof.
  intros Hi Ht _ _ Hsome.
  unfold Ej3a2.actualizar_libro, Sqlite.select_libro_exists, Sqlite.execute_update.
  rewrite Hi.
  rewrite (parse_consulta_actualizar_ej3a2 i t y a Ht Hsome).
  set (u := {| Sqlite.assignments := _; Sqlite.where_id := Some (str_of_int i) |}).
  exists {| Sqlite.autores := Sqlite.autores d;
            Sqlite.libros := (Sqlite.run_update u (Sqlite.libros d)).1 |}.
  split; [|split; [reflexivity|]].
  - assert (Hcount : (Sqlite.run_update u (Sqlite.libros d)).2
                     = match Sqlite.rows (Sqlite.libros d) !! i with
                       | Some _ => 1%nat
                       | None => 0%nat
                       end).
    { apply (size_filter_key _ (Sqlite.id_matches (Some (str_of_int i)))).
      apply id_matches_str_of_int. }
    assert (Hflag : (0 <? (Sqlite.run_update u (Sqlite.libros d)).2)%nat
                    = bool_decide (is_Some (Sqlite.rows (Sqlite.libros d) !! i))).
    { rewrite Hcount. destruct (Sqlite.rows (Sqlite.libros d) !! i); reflexivity. }
    rewrite <- Hflag. reflexivity.
  - intros k. cbn [Sqlite.libros]. rewrite run_update_lookup.
    unfold u. cbn [Sqlite.where_id Sqlite.assignments].
    rewrite id_matches_str_of_int.
    destruct (Sqlite.rows (Sqlite.libros d) !! k) as [b|]; [|reflexivity].
    cbn [fmap option_fmap option_map]. f_equal.
    destruct (bool_decide (i = k)); [|reflexivity].
    destruct b as [bt ba bi], t as [s|], y as [z|], a as [r|]; cbn;
      rewrite ?int_of_text_str_of_int; reflexivity.
Qed.

Lemma actualizar_libro_ej3a2_flag_witness :
  ∃ d', Ej3a2.actualizar_libro 5 (Some "Ficciones") None None
          (Sqlite.clean Muestra.sql_biblioteca)
        = (Ok (PyBool true), Sqlite.clean d')
        ∧ Sqlite.rows (Sqlite.libros d') !! 5%Z = Some Muestra.ficciones.
Proof.
  destruct (actualizar_libro_ej3a2_flag Muestra.sql_biblioteca 5
              (Some "Ficciones") None None) as (d' & Hrun & _ & Hrows).
  - reflexivity.
  - intros s [= <-]. reflexivity.
  - discriminate.
  - discriminate.
  - left. eexists; reflexivity.
  - exists d'. split; [exact Hrun|]. rewrite Hrows. reflexivity.
Defined.

(** The rows the join of [buscar_libros_por_autor] finds for the author
    that [ejemplo_transaccion] writes: the book goes under author 4,
    whatever [id] the author was given. *)
Lemma select_libros_de_con_tolkien (d : Sqlite.database) :
  (∀ i a, Sqlite.rows (Sqlite.autores d) !! i = Some a
          → Sqlite.nombre a ≠ "J.R.R. Tolkien") →
  (∀ k b, Sqlite.rows (Sqlite.libros d) !! k = Some b
          → Sqlite.autor_id b ≠ Sqlite.VInt (Sqlite.next_id (Sqlite.autores d))) →
  Sqlite.select_libros_de "J.R.R. Tolkien" (Sqlite.clean (Ej3a1.con_tolkien d))
  = (Ok (if decide (Sqlite.next_id (Sqlite.autores d) = 4%Z)
         then [("El hobbit", Sqlite.VInt 1937)] else []),
     Sqlite.clean (Ej3a1.con_tolkien d)).
Proof.
  intros Hname Href.
  set (filas :=
         '(i, a) ← map_to_list (Sqlite.rows (Sqlite.autores (Ej3a1.con_tolkien d)));
         if decide (Sqlite.nombre a = "J.R.R. Tolkien") then
           '(_, b) ← map_to_list (Sqlite.rows (Sqlite.libros (Ej3a1.con_tolkien d)));
           if decide (Sqlite.autor_id b = Sqlite.VInt i)
           then [(Sqlite.titulo b, Sqlite.anio b)] else []
         else []).
  change (Sqlite.select_libros_de "J.R.R. Tolkien" (Sqlite.clean (Ej3a1.con_tolkien d)))
    with (@Ok (list (string * Sqlite.sqlval)) filas, Sqlite.clean (Ej3a1.con_tolkien d)).
  f_equal. f_equal.
  assert (Hperm : filas ≡ₚ if decide (Sqlite.next_id (Sqlite.autores d) = 4%Z)
                           then [("El hobbit", Sqlite.VInt 1937)] else []).
  { unfold filas, Ej3a1.con_tolkien, Sqlite.table_insert.
    cbn [Sqlite.autores Sqlite.libros Sqlite.rows].
    rewrite (map_to_list_insert _ _ _ (next_id_fresh (Sqlite.autores d))).
    rewrite bind_cons. cbn [Sqlite.nombre].
    rewrite decide_True by reflexivity.
    rewrite (list_bind_none _ (map_to_list (Sqlite.rows (Sqlite.autores d)))).
    2:{ intros [i a] Hia. apply elem_of_map_to_list in Hia.
        rewrite decide_False; [reflexivity|]. exact (Hname i a Hia). }
    rewrite app_nil_r.
    rewrite (map_to_list_insert _ _ _ (next_id_fresh (Sqlite.libros d))).
    rewrite bind_cons.
    rewrite (list_bind_none _ (map_to_list (Sqlite.rows (Sqlite.libros d)))).
    2:{ intros [k b] Hkb. apply elem_of_map_to_list in Hkb.
        rewrite decide_False; [reflexivity|]. exact (Href k b Hkb). }
    rewrite app_nil_r. cbn [Sqlite.libro_of_params Sqlite.autor_id fst snd].
    destruct (decide (Sqlite.next_id (Sqlite.autores d) = 4%Z)) as [->|Hne].
    - rewrite decide_True by reflexivity. reflexivity.
    - rewrite decide_False by congruence. reflexivity. }
  destruct (decide (Sqlite.next_id (Sqlite.autores d) = 4%Z)).
  - symmetry in Hperm. apply Permutation_length_1_inv in Hperm. exact Hperm.
  - apply Permutation_nil_r in Hperm. exact Hperm.
Qed.

(** X22. [ejemplo_transaccion] of the SQL variant writes its book with
    the author reference 4, a constant of the statement, while the author
    it writes gets the next free [id]. So, on a connection with nothing
    pending and a database where no author is called J.R.R. Tolkien and
    no book refers to the next free [id], a later search by that name
    finds the book only if the next free [id] was 4; otherwise the search
    finds nothing. *)
Theorem ejemplo_transaccion_sql_then_buscar (d : Sqlite.database) :
  (∀ i a, Sqlite.rows (Sqlite.autores d) !! i = Some a
          → Sqlite.nombre a ≠ "J.R.R. Tolkien") →
  (∀ k b, Sqlite.rows (Sqlite.libros d) !! k = Some b
          → Sqlite.autor_id b ≠ Sqlite.VInt (Sqlite.next_id (Sqlite.autores d))) →
  ∃ d',
    Ej3a1.ejemplo_transaccion (Sqlite.clean d) = (Ok PyNone, Sqlite.clean d')
    ∧ Sqlite.rows (Sqlite.autores d') !! Sqlite.next_id (Sqlite.autores d)
      = Some {| Sqlite.nombre := "J.R.R. Tolkien" |}
    ∧ Sqlite.rows (Sqlite.libros d') !! Sqlite.next_id (Sqlite.libros d)
      = Some {| Sqlite.titulo := "El hobbit"; Sqlite.anio := Sqlite.VInt 1937;
                Sqlite.autor_id := Sqlite.VInt 4 |}
    ∧ Ej3a1.buscar_libros_por_autor "J.R.R. Tolkien" (Sqlite.clean d')
      = (Ok (if decide (Sqlite.next_id (Sqlite.autores d) = 4%Z)
             then PyList [PyTuple [PyStr "El hobbit"; PyInt 1937]]
             else PyNone),
         Sqlite.clean d').
Proof.
  intros Hname Href. exists (Ej3a1.con_tolkien d).
  split; [reflexivity|]. split; [apply lookup_insert_eq|].
  split; [apply lookup_insert_eq|].
  unfold Ej3a1.buscar_libros_por_autor. unfold mbind, M_bind, Py.bind.
  rewrite (select_libros_de_con_tolkien d Hname Href).
  destruct (decide (Sqlite.next_id (Sqlite.autores d) = 4%Z)); reflexivity.
Qed.

Lemma ejemplo_transaccion_sql_then_buscar_witness :
  ∃ d',
    Ej3a1.ejemplo_transaccion (Sqlite.clean Muestra.sql_vacia)
    = (Ok PyNone, Sqlite.clean d')
    ∧ Sqlite.rows (Sqlite.autores d') !! 1%Z
      = Some {| Sqlite.nombre := "J.R.R. Tolkien" |}
    ∧ Ej3a1.buscar_libros_por_autor "J.R.R. Tolkien" (Sqlite.clean d')
      = (Ok PyNone, Sqlite.clean d').
Proof.
  destruct (ejemplo_transaccion_sql_then_buscar Muestra.sql_vacia)
    as (d' & Hrun & Hautor & _ & Hfind).
  - intros i a Hi. cbn in Hi. rewrite lookup_empty in Hi. discriminate.
  - intros k b Hk. cbn in Hk. rewrite lookup_empty in Hk. discriminate.
  - exists d'. split; [exact Hrun|]. split; [exact Hautor|exact Hfind].
Defined.

(** X23. [buscar_libros_por_autor] of the SQL variant gives one pair
    (title, year) for each book whose [autor_id] is the [id] of an author
    with the name asked for, the books of every author of that name when
    several share it, and [None] in place of the list when there is no
    such book. *)
Theorem buscar_libros_por_autor_sql_rows (d : Sqlite.database) (n : string) :
  ∃ filas,
    Ej3a1.buscar_libros_por_autor n (Sqlite.clean d)
    = (Ok match filas with
          | [] => PyNone
          | _ => PyList ((λ r, PyTuple [PyStr r.1; Sqlite.py_of_sqlval r.2]) <$> filas)
          end,
       Sqlite.clean d)
    ∧ filas
      ≡ₚ map_to_list (Sqlite.rows (Sqlite.libros d))
         ≫= (λ kb, match Sqlite.autor_id kb.2 with
                   | Sqlite.VInt i =>
                       match Sqlite.rows (Sqlite.autores d) !! i with
                       | Some a =>
                           if decide (Sqlite.nombre a = n)
                           then [(Sqlite.titulo kb.2, Sqlite.anio kb.2)] else []
                       | None => []
                       end
                   | _ => []
                   end).
Proof.
  set (filas :=
         '(i, a) ← map_to_list (Sqlite.rows (Sqlite.autores d));
         if decide (Sqlite.nombre a = n) then
           '(_, b) ← map_to_list (Sqlite.rows (Sqlite.libros d));
           if decide (Sqlite.autor_id b = Sqlite.VInt i)
           then [(Sqlite.titulo b, Sqlite.anio b)] else []
         else []).
  exists filas. split.
  - assert (Hsel : Sqlite.select_libros_de n (Sqlite.clean d)
                   = (Ok filas, Sqlite.clean d)) by reflexivity.
    unfold Ej3a1.buscar_libros_por_autor, mbind, M_bind, Py.bind.
    rewrite Hsel. clearbody filas. destruct filas; reflexivity.
  - rewrite <- (join_autores_libros
                  (λ i a b, if decide (Sqlite.nombre a = n)
                            then [(Sqlite.titulo b, Sqlite.anio b)] else []) d).
    apply reflexive_eq, list_bind_ext; [|reflexivity].
    intros [i a]. destruct (decide (Sqlite.nombre a = n)).
    + reflexivity.
    + symmetry. apply list_bind_none. intros [k b] _.
      destruct (decide (Sqlite.autor_id b = Sqlite.VInt i)); reflexivity.
Qed.

(** ** The document variant: the list of all the books *)

Lemma insert_by_nombre_titulo_perm (r : string * option Z * string)
    (l : list (string * option Z * string)) :
  Mongo.insert_by_nombre_titulo r l ≡ₚ r :: l.
Proof.
  induction l as [|c l IH]; [reflexivity|]. cbn.
  destruct (Mongo.nombre_titulo_le c r); [|reflexivity].
  rewrite IH. apply Permutation_swap.
Qed.

Lemma sort_by_nombre_titulo_perm (l : list (string * option Z * string)) :
  Mongo.sort_by_nombre_titulo l ≡ₚ l.
Proof.
  unfold Mongo.sort_by_nombre_titulo.
  enough (H : ∀ acc, foldl (λ acc r, Mongo.insert_by_nombre_titulo r acc) acc l
                     ≡ₚ (acc ++ l)%list)
    by apply (H []).
  induction l as [|r l IH]; intros acc; cbn.
  - now rewrite app_nil_r.
  - rewrite IH, insert_by_nombre_titulo_perm. cbn. apply Permutation_middle.
Qed.

Lemma nombre_titulo_le_total (x y : string * option Z * string) :
  Mongo.nombre_titulo_le x y = false → Mongo.nombre_titulo_le y x = true.
Proof.
  unfold Mongo.nombre_titulo_le.
  rewrite (String.compare_antisym x.2 y.2), (String.compare_antisym x.1.1 y.1.1).
  destruct (String.compare y.2 x.2), (String.compare y.1.1 x.1.1); cbn; congruence.
Qed.

Lemma insert_by_nombre_titulo_sorted (r : string * option Z * string)
    (l : list (string * option Z * string)) :
  Sorted (λ x y, Mongo.nombre_titulo_le x y = true) l →
  Sorted (λ x y, Mongo.nombre_titulo_le x y = true)
    (Mongo.insert_by_nombre_titulo r l).
Proof.
  induction l as [|c l IH]; intros Hl; cbn.
  - repeat constructor.
  - destruct (Mongo.nombre_titulo_le c r) eqn:Hcr.
    + apply Sorted_inv in Hl as [Hl Hhd]. constructor; [apply IH, Hl|].
      destruct l as [|e l]; cbn.
      * constructor. exact Hcr.
      * destruct (Mongo.nombre_titulo_le e r); constructor;
          [now apply HdRel_inv in Hhd | exact Hcr].
    + constructor; [exact Hl|]. constructor. apply nombre_titulo_le_total, Hcr.
Qed.

Lemma sort_by_nombre_titulo_sorted (l : list (string * option Z * string)) :
  Sorted (λ x y, Mongo.nombre_titulo_le x y = true) (Mongo.sort_by_nombre_titulo l).
Proof.
  unfold Mongo.sort_by_nombre_titulo.
  enough (H : ∀ acc,
             Sorted (λ x y, Mongo.nombre_titulo_le x y = true) acc →
             Sorted (λ x y, Mongo.nombre_titulo_le x y = true)
               (foldl (λ acc r, Mongo.insert_by_nombre_titulo r acc) acc l))
    by (apply H; constructor).
  induction l as [|r l IH]; intros acc Hacc; cbn; [exact Hacc|].
  apply IH, insert_by_nombre_titulo_sorted, Hacc.
Qed.

(** X24. [consultar_libros] of the document variant prints one line for
    each book whose [autor_id] is the [_id] of an author, with the title,
    the year as Python writes it and the author's name; a book whose
    author is not there is not printed. The lines come sorted by the
    author's name and, for one name, by the title. *)
Theorem consultar_libros_doc_lines (d : Mongo.database) :
  ∃ filas,
    Ej3a4.consultar_libros (Mongo.healthy d)
    = (Ok ((λ r, "Título: " ++ r.1.1 ++ " - Año: " ++ Ej3a4.str_of_anio r.1.2
                 ++ " - Autor: " ++ r.2) <$> filas),
       Mongo.healthy d)
    ∧ Sorted (λ x y, Mongo.nombre_titulo_le x y = true) filas
    ∧ filas
      ≡ₚ map_to_list (Mongo.libros d)
         ≫= (λ kb, match Mongo.autores d !! Mongo.autor_id kb.2 with
                   | Some a => [(Mongo.titulo kb.2, Mongo.anio kb.2, Mongo.nombre a)]
                   | None => []
                   end).
Proof.
  eexists. split; [reflexivity|]. split.
  - apply sort_by_nombre_titulo_sorted.
  - rewrite sort_by_nombre_titulo_perm.
    apply reflexive_eq, list_bind_ext; [|reflexivity]. intros [k b]. reflexivity.
Qed.
